(** * checkio_docker.parser: mission files compiler

    A shallow embedding of [checkio_docker/parser.py] and the properties of
    its inheritance chain, tree overlays, environment filter and Dockerfile
    generator.

    The file system is a tree of regular files, directories and symbolic
    links held in an explicit state; every function of the module that
    touches the disk is a computation in a state-and-exception monad in
    which the effects made before an exception is raised persist, as they do
    on a real disk.  Paths are absolute and given by their components. *)

From Stdlib Require Import String Ascii List Bool Arith Lia.
Import ListNotations.
Local Open Scope string_scope.
Local Open Scope list_scope.

Set Implicit Arguments.
Set Warnings "-register-all".

Infix "+++" := String.append (right associativity, at level 60).

(* ===================================================================== *)
(** * Python strings *)
(* ===================================================================== *)

Module Py.

(** [c in s] for a one-character string [c]. *)
Fixpoint contains_char (c : ascii) (s : string) : bool :=
  match s with
  | EmptyString => false
  | String a t => if Ascii.eqb a c then true else contains_char c t
  end.

(** The two pieces around the first occurrence of [c], if there is one. *)
Fixpoint partition (c : ascii) (s : string) : option (string * string) :=
  match s with
  | EmptyString => None
  | String a t =>
      if Ascii.eqb a c then Some (EmptyString, t)
      else match partition c t with
           | Some (l, r) => Some (String a l, r)
           | None => None
           end
  end.

(** [s.split(c, 1)]: at most one split, at the first occurrence of [c]. *)
Definition split1 (c : ascii) (s : string) : list string :=
  match partition c s with
  | Some (l, r) => [l; r]
  | None => [s]
  end.

(** [str.isspace] on one character, characters being code points below
    256: the ASCII controls 9-13 and 28-31, the space, NEL and NBSP. *)
Definition isspace (a : ascii) : bool :=
  let n := nat_of_ascii a in
  (((9 <=? n) && (n <=? 13)) || ((28 <=? n) && (n <=? 32))
   || (n =? 133) || (n =? 160))%nat.

Fixpoint lstrip (s : string) : string :=
  match s with
  | EmptyString => EmptyString
  | String a t => if isspace a then lstrip t else s
  end.

Fixpoint rstrip (s : string) : string :=
  match s with
  | EmptyString => EmptyString
  | String a t =>
      match rstrip t with
      | EmptyString => if isspace a then EmptyString else String a EmptyString
      | t' => String a t'
      end
  end.

(** [s.strip()] *)
Definition strip (s : string) : string := rstrip (lstrip s).

(** The text that a file holding [s] gives when it is opened in text
    mode ([open(p)], [open(p, 'r')]: universal newlines): every [\r\n] and
    every other [\r] is read as [\n].  [after_cr] tells that the character
    before was a [\r]. *)
Fixpoint newlines_from (after_cr : bool) (s : string) : string :=
  match s with
  | EmptyString => EmptyString
  | String a t =>
      if Ascii.eqb a "013"%char then String "010"%char (newlines_from true t)
      else if Ascii.eqb a "010"%char then
        if after_cr then newlines_from false t
        else String a (newlines_from false t)
      else String a (newlines_from false t)
  end.

Definition universal_newlines (s : string) : string := newlines_from false s.

(** [f.readline()] on the text [s] that is left to read: up to and
    including the first newline, or all of [s] when it has none. *)
Fixpoint readline (s : string) : string :=
  match s with
  | EmptyString => EmptyString
  | String a t =>
      if Ascii.eqb a "010"%char then String a EmptyString
      else String a (readline t)
  end.

(** [s.startswith(p)] *)
Fixpoint startswith (p s : string) : bool :=
  match p, s with
  | EmptyString, _ => true
  | String a p', String b s' => Ascii.eqb a b && startswith p' s'
  | String _ _, EmptyString => false
  end.

(** [p in s] for strings: [p] occurs somewhere in [s]. *)
Fixpoint contains (p s : string) : bool :=
  startswith p s ||
  match s with
  | EmptyString => false
  | String _ t => contains p t
  end.

(** [s.replace(old, new)] for a non-empty [old]: the occurrences of [old]
    are found from left to right and do not overlap.  [skip] counts the
    characters of a matched occurrence that are still to be dropped. *)
Fixpoint replace_from (old new : string) (skip : nat) (s : string) : string :=
  match s with
  | EmptyString => EmptyString
  | String a t =>
      match skip with
      | S k => replace_from old new k t
      | O =>
          if startswith old s
          then new +++ replace_from old new (String.length old - 1) t
          else String a (replace_from old new 0 t)
      end
  end.

Definition replace (old new s : string) : string := replace_from old new 0 s.

(** [sep.join(l)] *)
Fixpoint join (sep : string) (l : list string) : string :=
  match l with
  | [] => EmptyString
  | [x] => x
  | x :: t => x +++ sep +++ join sep t
  end.

(** [x in l] for a list of strings. *)
Fixpoint in_list (x : string) (l : list string) : bool :=
  match l with
  | [] => false
  | y :: t => String.eqb x y || in_list x t
  end.

End Py.

(* ===================================================================== *)
(** * The file system *)
(* ===================================================================== *)

(** An absolute path, by its components: [/a/b] is [["a"; "b"]]. *)
Definition path := list string.

(** [os.path.join(p, name)] for a relative one-component [name]. *)
Definition join (p : path) (name : string) : path := p ++ [name].

Inductive node :=
| File (content : string)
| Link (target : path)
| Dir (entries : list (string * node)).

Module Entries.

Fixpoint find (name : string) (es : list (string * node)) : option node :=
  match es with
  | [] => None
  | (n, x) :: t => if String.eqb n name then Some x else find name t
  end.

(** Replaces the entry [name], or adds it at the end of the listing. *)
Fixpoint set (name : string) (x : node) (es : list (string * node))
  : list (string * node) :=
  match es with
  | [] => [(name, x)]
  | (n, y) :: t =>
      if String.eqb n name then (n, x) :: t else (n, y) :: set name x t
  end.

Fixpoint del (name : string) (es : list (string * node))
  : list (string * node) :=
  match es with
  | [] => []
  | (n, y) :: t =>
      if String.eqb n name then del name t else (n, y) :: del name t
  end.

Definition names (es : list (string * node)) : list string := map fst es.

End Entries.

(** The node at [p] below [cur], descending through directories only. *)
Fixpoint lookup (cur : node) (p : path) : option node :=
  match p with
  | [] => Some cur
  | n :: p' =>
      match cur with
      | Dir es =>
          match Entries.find n es with
          | Some c => lookup c p'
          | None => None
          end
      | _ => None
      end
  end.

(** Sets ([Some]) or deletes ([None]) the entry at [p], a path all of whose
    proper prefixes are directories; otherwise nothing changes. *)
Fixpoint put (p : path) (v : option node) (cur : node) : node :=
  match p with
  | [] => match v with Some x => x | None => cur end
  | n :: p' =>
      match cur with
      | Dir es =>
          match p' with
          | [] =>
              Dir (match v with
                   | Some x => Entries.set n x es
                   | None => Entries.del n es
                   end)
          | _ =>
              match Entries.find n es with
              | Some c => Dir (Entries.set n (put p' v c) es)
              | None => cur
              end
          end
      | _ => cur
      end
  end.

(** The kernel follows at most this many symbolic links in one lookup. *)
Definition MAXSYMLINKS : nat := 40.

(** Path resolution.  [walk root k acc cur p] resolves [p] from the node
    [cur], whose own resolved path is [acc], following at most [k] links
    (the target of a link is an absolute path, resolved from [root]).
    - [Some (q, Some x)]: [p] names the node [x], which is not a link and
      lies at the link-free path [q];
    - [Some (q, None)]: every component but the last resolves, to a
      directory, and the last one is absent from it: [q] is where an entry
      of that name would be made;
    - [None]: the path does not resolve. *)
Fixpoint walk (root : node) (k : nat) {struct k}
  : path -> node -> path -> option (path * option node) :=
  fix go (acc : path) (cur : node) (p : path) {struct p}
    : option (path * option node) :=
    match cur with
    | Link t =>
        match k with
        | O => None
        | S k' => walk root k' [] root (t ++ p)
        end
    | File _ =>
        match p with
        | [] => Some (acc, Some cur)
        | _ :: _ => None
        end
    | Dir es =>
        match p with
        | [] => Some (acc, Some cur)
        | n :: p' =>
            match Entries.find n es with
            | Some c => go (acc ++ [n]) c p'
            | None =>
                match p' with
                | [] => Some (acc ++ [n], None)
                | _ :: _ => None
                end
            end
        end
    end.

Definition resolve (root : node) (p : path) : option (path * option node) :=
  walk root MAXSYMLINKS [] root p.

(** What [p] names once every link is followed, with where it lies. *)
Definition stat (root : node) (p : path) : option (path * node) :=
  match resolve root p with
  | Some (q, Some x) => Some (q, x)
  | _ => None
  end.

(** A path as its directory and its last component. *)
Fixpoint unsnoc (p : path) : option (path * string) :=
  match p with
  | [] => None
  | [n] => Some ([], n)
  | a :: t =>
      match unsnoc t with
      | Some (d, n) => Some (a :: d, n)
      | None => None
      end
  end.

(** The directory entry that [p] names: the link-free path of the parent
    directory of [p], its entries, the name and the entry itself if there
    is one; a link in the last place is not followed. *)
Definition entry (root : node) (p : path)
  : option (path * list (string * node) * string * option node) :=
  match unsnoc p with
  | None => None
  | Some (d, n) =>
      match stat root d with
      | Some (q, Dir es) => Some (q, es, n, Entries.find n es)
      | _ => None
      end
  end.

(* ===================================================================== *)
(** * Exceptions, state and the monad of the module *)
(* ===================================================================== *)

Inductive oserror :=
| FileNotFoundError
| FileExistsError
| NotADirectoryError
| IsADirectoryError
| OtherOSError.

(** Why a path does not resolve, followed as [walk] follows it: too many
    links ([ELOOP], which Python raises as a plain [OSError]), a regular
    file with components after it ([ENOTDIR]), a missing component
    ([ENOENT]). *)
Fixpoint walk_errno (root : node) (k : nat) {struct k}
  : node -> path -> oserror :=
  fix go (cur : node) (p : path) {struct p} : oserror :=
    match cur with
    | Link t =>
        match k with
        | O => OtherOSError
        | S k' => walk_errno root k' root (t ++ p)
        end
    | File _ =>
        match p with
        | [] => FileNotFoundError
        | _ :: _ => NotADirectoryError
        end
    | Dir es =>
        match p with
        | [] => FileNotFoundError
        | n :: p' =>
            match Entries.find n es with
            | Some c => go c p'
            | None => FileNotFoundError
            end
        end
    end.

Definition errno (root : node) (p : path) : oserror :=
  walk_errno root MAXSYMLINKS root p.

Inductive exn :=
| MissionFilesException (msg : string)
| AssertionError
| TypeError
| OSError (e : oserror)             (* [IOError] is the same class *)
| YAMLError
| GitCommandError
| Exception                         (* raised by [git_pull] for a failed clone *)
| StructuralConflict.               (* the copy overlay met a file where the
                                       other tree has a directory *)

(** The disk and the records logged through [logging.warning], oldest
    first: each is the path the message is about. *)
Record state := mkState {
  root : node;
  warnings : list path
}.

Inductive outcome (A : Type) :=
| Ret (a : A)
| Raise (e : exn)
| Timeout.                           (* the fuel of a loop ran out *)
Arguments Raise {A} e.
Arguments Timeout {A}.

Definition M (A : Type) := state -> outcome A * state.

Definition ret {A} (a : A) : M A := fun st => (Ret a, st).
Definition raise {A} (e : exn) : M A := fun st => (Raise e, st).
Definition timeout {A} : M A := fun st => (Timeout, st).

Definition bind {A B} (m : M A) (f : A -> M B) : M B :=
  fun st =>
    match m st with
    | (Ret a, st') => f a st'
    | (Raise e, st') => (Raise e, st')
    | (Timeout, st') => (Timeout, st')
    end.

Declare Scope monad_scope.
Delimit Scope monad_scope with monad.
Notation "x <- m ;; k" := (bind m (fun x => k))
  (at level 61, m at next level, right associativity) : monad_scope.
Notation "m ;; k" := (bind m (fun _ => k))
  (at level 61, right associativity) : monad_scope.
Local Open Scope monad_scope.

(** [for x in l: body(x)] *)
Fixpoint for_each {A} (l : list A) (body : A -> M unit) : M unit :=
  match l with
  | [] => ret tt
  | x :: t => body x ;; for_each t body
  end.

(** [try: body finally: cleanup] *)
Definition try_finally {A} (body : M A) (cleanup : M unit) : M A :=
  fun st =>
    match body st with
    | (Ret a, st') =>
        match cleanup st' with
        | (Ret _, st'') => (Ret a, st'')
        | (Raise e, st'') => (Raise e, st'')
        | (Timeout, st'') => (Timeout, st'')
        end
    | (Raise e, st') =>
        match cleanup st' with
        | (Ret _, st'') => (Raise e, st'')
        | (Raise e', st'') => (Raise e', st'')
        | (Timeout, st'') => (Timeout, st'')
        end
    | (Timeout, st') => (Timeout, st')
    end.

(** [assert b] *)
Definition py_assert (b : bool) : M unit :=
  if b then ret tt else raise AssertionError.

Definition get_root : M node := fun st => (Ret (root st), st).
Definition set_root (r : node) : M unit :=
  fun st => (Ret tt, mkState r (warnings st)).

(** [logging.warning(fmt, p)] *)
Definition logging_warning (p : path) : M unit :=
  fun st => (Ret tt, mkState (root st) (warnings st ++ [p])).

(* ===================================================================== *)
(** * The [os], [shutil] and file primitives the module calls *)
(* ===================================================================== *)

Module os.

(** [os.path.exists(p)] *)
Definition path_exists (p : path) : M bool :=
  r <- get_root ;;
  ret (match stat r p with Some _ => true | None => false end).

(** [os.path.isfile(p)] *)
Definition isfile (p : path) : M bool :=
  r <- get_root ;;
  ret (match stat r p with Some (_, File _) => true | _ => false end).

(** [os.path.isdir(p)] *)
Definition isdir (p : path) : M bool :=
  r <- get_root ;;
  ret (match stat r p with Some (_, Dir _) => true | _ => false end).

(** [os.listdir(p)] *)
Definition listdir (p : path) : M (list string) :=
  r <- get_root ;;
  match stat r p with
  | Some (_, Dir es) => ret (Entries.names es)
  | Some _ => raise (OSError NotADirectoryError)
  | None => raise (OSError (errno r p))
  end.

(** [os.mkdir(p)] *)
Definition mkdir (p : path) : M unit :=
  r <- get_root ;;
  match entry r p with
  | Some (q, _, n, None) => set_root (put (q ++ [n]) (Some (Dir [])) r)
  | Some (_, _, _, Some _) => raise (OSError FileExistsError)
  | None =>
      match p with
      | [] => raise (OSError FileExistsError)
      | _ => raise (OSError (errno r p))
      end
  end.

(** [os.remove(p)] *)
Definition remove (p : path) : M unit :=
  r <- get_root ;;
  match entry r p with
  | Some (q, _, n, Some (Dir _)) => raise (OSError IsADirectoryError)
  | Some (q, _, n, Some _) => set_root (put (q ++ [n]) None r)
  | Some (_, _, _, None) => raise (OSError FileNotFoundError)
  | None =>
      match p with
      | [] => raise (OSError IsADirectoryError)
      | _ => raise (OSError (errno r p))
      end
  end.

(** [os.symlink(target, p)] *)
Definition symlink (target p : path) : M unit :=
  r <- get_root ;;
  match entry r p with
  | Some (q, _, n, None) => set_root (put (q ++ [n]) (Some (Link target)) r)
  | Some (_, _, _, Some _) => raise (OSError FileExistsError)
  | None =>
      match p with
      | [] => raise (OSError FileExistsError)
      | _ => raise (OSError (errno r p))
      end
  end.

End os.

Module shutil.

(** [shutil.rmtree(p)]: [p] must be a directory itself, not a link to one. *)
Definition rmtree (p : path) : M unit :=
  r <- get_root ;;
  match entry r p with
  | Some (q, _, n, Some (Dir _)) => set_root (put (q ++ [n]) None r)
  | Some (_, _, _, Some (Link _)) => raise (OSError OtherOSError)
  | Some (_, _, _, Some (File _)) => raise (OSError NotADirectoryError)
  | Some (_, _, _, None) => raise (OSError FileNotFoundError)
  | None => raise (OSError (errno r p))
  end.

End shutil.

(** The text of the file [p], as [open(p)] gives it to [read], [readline]
    and [yaml.load]: the file is opened in text mode, so its [\r\n] and
    [\r] are read as [\n]. *)
Definition read_file (p : path) : M string :=
  r <- get_root ;;
  match stat r p with
  | Some (_, File c) => ret (Py.universal_newlines c)
  | Some _ => raise (OSError IsADirectoryError)
  | None => raise (OSError (errno r p))
  end.

(** [open(p, 'w').write(c)]: the file is made if it is absent, its content
    replaced if it is there; a link is followed either way.  The text is
    written as it is: on the POSIX disk of this model the newline of text
    mode is [\n] itself. *)
Definition write_file (p : path) (c : string) : M unit :=
  r <- get_root ;;
  match resolve r p with
  | Some (q, Some (File _)) | Some (q, None) =>
      set_root (put q (Some (File c)) r)
  | Some (_, Some _) => raise (OSError IsADirectoryError)
  | None => raise (OSError (errno r p))
  end.

(* ===================================================================== *)
(** * Python values, as [yaml.load] returns them *)
(* ===================================================================== *)

(** A mapping keeps its string keys only: the module looks up one string
    key, which no other key equals. *)
Inductive pyval :=
| PNone
| PBool (b : bool)
| PInt (n : nat)
| PStr (s : string)
| PList (items : list pyval)
| PDict (items : list (string * pyval)).

Definition is_str (s : string) (v : pyval) : bool :=
  match v with
  | PStr t => String.eqb s t
  | _ => false
  end.

Fixpoint dict_get (k : string) (items : list (string * pyval)) : option pyval :=
  match items with
  | [] => None
  | (k', v) :: t => if String.eqb k' k then Some v else dict_get k t
  end.

(** [s in v] for a string [s]; [None] is the [TypeError] of a value that is
    not a container. *)
Definition py_in (s : string) (v : pyval) : option bool :=
  match v with
  | PDict items =>
      Some (match dict_get s items with Some _ => true | None => false end)
  | PList items => Some (existsb (is_str s) items)
  | PStr t => Some (Py.contains s t)
  | PNone | PBool _ | PInt _ => None
  end.

(** [v[k]] for a string [k], once [k in v] holds; [None] is the
    [TypeError] of a sequence indexed by a string. *)
Definition py_getitem (v : pyval) (k : string) : option pyval :=
  match v with
  | PDict items => dict_get k items
  | _ => None
  end.

(* ===================================================================== *)
(** * The module *)
(* ===================================================================== *)

Record repository := mkRepository {
  url : string;
  branch : option string
}.

Fixpoint max_length (l : list string) : nat :=
  match l with
  | [] => 0
  | x :: t => Nat.max (String.length x) (max_length t)
  end.

Fixpoint underscores (n : nat) : string :=
  match n with
  | O => EmptyString
  | S k => String "_" (underscores k)
  end.

(** A name that no entry of the listing has: it is longer than all. *)
Definition fresh_name (used : list string) : string :=
  "tmp" +++ underscores (max_length used).

(** [tempfile.gettempdir()] *)
Definition tempdir : path := ["tmp"].

(** [tempfile.mkdtemp()]: a new, empty directory of a fresh name in the
    temporary directory. *)
Definition mkdtemp : M path :=
  r <- get_root ;;
  match stat r tempdir with
  | Some (q, Dir es) =>
      let n := fresh_name (Entries.names es) in
      set_root (put (q ++ [n]) (Some (Dir [])) r) ;;
      ret (join tempdir n)
  | _ => raise (OSError FileNotFoundError)
  end.

(** Modelled from the spec: [utils.recursive_overwrite], which the module
    imports, is not among the sources.  The copy overlay copies every file
    and directory of the source into the destination and overwrites the
    files that are there; a file where the other tree has a directory is
    the fatal structural conflict ([None]).  A link is an entry like a
    file. *)
Fixpoint overlay (src : node) (dst : option node) {struct src} : option node :=
  match src with
  | Dir es =>
      let merge :=
        fix merge (es ds : list (string * node)) {struct es}
          : option (list (string * node)) :=
          match es with
          | [] => Some ds
          | (n, x) :: t =>
              match overlay x (Entries.find n ds) with
              | Some y => merge t (Entries.set n y ds)
              | None => None
              end
          end in
      match dst with
      | None => option_map Dir (merge es [])
      | Some (Dir ds) => option_map Dir (merge es ds)
      | Some _ => None
      end
  | _ =>
      match dst with
      | Some (Dir _) => None
      | _ => Some src
      end
  end.

(** Modelled from the spec: the copy overlay of the tree at [src] onto
    [dst], which is made if it is absent. *)
Definition recursive_overwrite (src dst : path) : M unit :=
  r <- get_root ;;
  match stat r src, resolve r dst with
  | Some (_, s), Some (q, d) =>
      match overlay s d with
      | Some x => set_root (put q (Some x) r)
      | None => raise StructuralConflict
      end
  | _, _ => raise (OSError FileNotFoundError)
  end.

Section Parser.

(** [yaml.load] on the text of a file: the value, or [None] for the
    [YAMLError] of a text that is not YAML. *)
Variable yaml_load : string -> option pyval.

(** The remote repositories: the tree that a clone of [url] leaves, and the
    tree after the checkout of [branch] in that clone; [None] when git
    fails. *)
Variable remote : string -> option string -> option (list (string * node)).

(** [get_folder_config(folder_name)] *)
Definition get_folder_config (folder_name : path) : M pyval :=
  fun st =>
    match read_file (join folder_name ".folder") st with
    | (Ret text, st') =>
        match yaml_load text with
        | Some v => (Ret v, st')
        | None => (Raise YAMLError, st')
        end
    | (Raise (OSError _), st') => (Ret (PDict []), st')
    | (Raise e, st') => (Raise e, st')
    | (Timeout, st') => (Timeout, st')
    end.

(** [name != '.folder' and
     ('replace' not in config or name not in config['replace'])] *)
Definition unexpected_replacement (name : string) (config : pyval) : M bool :=
  if negb (String.eqb name ".folder") then
    match py_in "replace" config with
    | None => raise TypeError
    | Some false => ret true
    | Some true =>
        match py_getitem config "replace" with
        | None => raise TypeError
        | Some allowed =>
            match py_in name allowed with
            | None => raise TypeError
            | Some b => ret (negb b)
            end
        end
    end
  else ret false.

(** The body of the loop of [relink_tree], for one name of the listing of
    [src]; [relink_tree] is the function itself, for the directories. *)
Definition relink_entry (relink_tree : path -> path -> M unit)
    (config : pyval) (src dst : path) (name : string) : M unit :=
  if Py.in_list name [".git"; ".gitignore"] then ret tt
  else
    let dst_name := join dst name in
    let src_name := join src name in
    present <- os.path_exists dst_name ;;
    (if present then
       dst_isfile <- os.isfile dst_name ;;
       src_isfile <- os.isfile src_name ;;
       py_assert (Bool.eqb dst_isfile src_isfile) ;;
       dst_isfile <- os.isfile dst_name ;;
       if dst_isfile then
         warn <- unexpected_replacement name config ;;
         (if warn then logging_warning dst_name else ret tt) ;;
         os.remove dst_name
       else ret tt
     else ret tt) ;;
    src_isdir <- os.isdir src_name ;;
    if src_isdir then relink_tree src_name dst_name
    else os.symlink src_name dst_name.

(** [relink_tree(src, dst)]; [fuel] bounds the depth of the recursion. *)
Fixpoint relink_tree (fuel : nat) (src dst : path) : M unit :=
  match fuel with
  | O => timeout
  | S fuel' =>
      present <- os.path_exists dst ;;
      (if present then ret tt else os.mkdir dst) ;;
      config <- get_folder_config dst ;;
      names <- os.listdir src ;;
      for_each names (relink_entry (relink_tree fuel') config src dst)
  end.

(** [git.Repo.clone_from(url, p)]: [p] is absent or an empty directory. *)
Definition clone_from (u : string) (p : path) : M unit :=
  r <- get_root ;;
  match remote u None, resolve r p with
  | Some es, Some (q, None) | Some es, Some (q, Some (Dir [])) =>
      set_root (put q (Some (Dir es)) r)
  | _, _ => raise GitCommandError
  end.

(** [git.Git(p).checkout(b)] in the clone of [u] at [p]. *)
Definition checkout (u b : string) (p : path) : M unit :=
  r <- get_root ;;
  match remote u (Some b), stat r p with
  | Some es, Some (q, Dir _) => set_root (put q (Some (Dir es)) r)
  | _, _ => raise GitCommandError
  end.

(** [_MissionFilesCompiler]: the attributes that [__init__] sets. *)
Record compiler := mkCompiler {
  working_path : path;
  path_verification : path;
  path_envs : path;
  path_initial : path
}.

Definition DIR_VERIFICATION := "verification".
Definition DIR_VERIFICATION_ENVS := "envs".
Definition DIR_INITIAL_CODES := "initial".
Definition SCHEMA_FILENAME := "schema".
Definition DOCKER_MAIN_FILENAME := "Dockertemplate".
Definition DOCKER_ENV_FILENAME := "Dockerenv".

(** [_MissionFilesCompiler(working_path)] *)
Definition init (working_path : path) : compiler :=
  let path_verification := join working_path DIR_VERIFICATION in
  mkCompiler working_path path_verification
    (join path_verification DIR_VERIFICATION_ENVS)
    (join working_path DIR_INITIAL_CODES).

(** [get_base_repository(source_path)] *)
Definition get_base_repository (source_path : path) : M (option repository) :=
  let schema_file := join source_path SCHEMA_FILENAME in
  present <- os.path_exists schema_file ;;
  if negb present then ret None
  else
    text <- read_file schema_file ;;
    let content := Py.readline text in
    if String.eqb content "" then
      raise (MissionFilesException "Schema file is empty")
    else
      match Py.split1 ";" content with
      | [_; part] =>
          let url := Py.strip part in
          if Py.contains_char "@" url then
            match Py.split1 "@" url with
            | [before; after] =>
                if negb (Py.contains_char ":" after)
                then ret (Some (mkRepository (Py.strip before)
                                             (Some (Py.strip after))))
                else ret (Some (mkRepository url None))
            | _ => ret (Some (mkRepository url None))
            end
          else ret (Some (mkRepository url None))
      | _ => raise (MissionFilesException "Schema content is wrong")
      end.

(** [git_pull(repository, destination_path)] *)
Definition git_pull (repo : repository) (destination_path : path) : M unit :=
  (fun st =>
     match clone_from (url repo) destination_path st with
     | (Raise GitCommandError, st') => (Raise Exception, st')
     | other => other
     end) ;;
  match branch repo with
  | Some b => checkout (url repo) b destination_path
  | None => ret tt
  end.

(** The [while] loop of [download_base_repositories]; [fuel] bounds the
    number of times its condition is evaluated. *)
Fixpoint download_loop (fuel : nat) (repo : option repository)
    (base_repositories : list path) : M (list path) :=
  match fuel with
  | O => timeout
  | S fuel' =>
      match repo with
      | None => ret base_repositories
      | Some r =>
          base_repository_path <- mkdtemp ;;
          git_pull r base_repository_path ;;
          repo' <- get_base_repository base_repository_path ;;
          download_loop fuel' repo' (base_repositories ++ [base_repository_path])
      end
  end.

(** [download_base_repositories(source_path)] *)
Definition download_base_repositories (fuel : nat) (source_path : path)
  : M (list path) :=
  repo <- get_base_repository source_path ;;
  download_loop fuel repo [].

(** [copy_user_files(source_path)] *)
Definition copy_user_files (self : compiler) (source_path : path) : M unit :=
  recursive_overwrite source_path (working_path self).

(** [relink_user_files(source_path)] *)
Definition relink_user_files (fuel : nat) (self : compiler)
    (source_path : path) : M unit :=
  relink_tree fuel source_path (working_path self).

(** [get_active_envs()] *)
Definition get_active_envs (self : compiler) : M (list string) :=
  os.listdir (path_initial self).

(** [filter_envs(active_envs)] *)
Definition filter_envs (self : compiler) (active_envs : list string) : M unit :=
  envs <- os.listdir (path_envs self) ;;
  for_each envs (fun env =>
    if negb (Py.in_list env active_envs)
    then shutil.rmtree (join (path_envs self) env)
    else ret tt).

(** The first loop of [make_dockerfile]: the fragments, in order. *)
Fixpoint envs_docker (self : compiler) (active_envs : list string)
  : M (list string) :=
  match active_envs with
  | [] => ret []
  | env :: rest =>
      let docker_env_file :=
        join (join (join (path_verification self) "envs") env)
             DOCKER_ENV_FILENAME in
      docker_env_content <- read_file docker_env_file ;;
      fragments <- envs_docker self rest ;;
      ret (Py.replace "{{env}}" env docker_env_content :: fragments)
  end.

(** [make_dockerfile(active_envs)] *)
Definition make_dockerfile (self : compiler) (active_envs : list string)
  : M unit :=
  fragments <- envs_docker self active_envs ;;
  let docker_main_file := join (path_verification self) DOCKER_MAIN_FILENAME in
  docker_main <- read_file docker_main_file ;;
  let docker_main :=
    Py.replace "{{env_instructions}}" (Py.join (String "010" "") fragments)
               docker_main in
  let dockerfile_path := join (path_verification self) "Dockerfile" in
  write_file dockerfile_path docker_main.

(** The layering of [compile_from_files]: every fetched snapshot, the last
    fetched first, is copied over the working directory and deleted; then
    the leaf source is copied or linked. *)
Definition merge_layers (fuel : nat) (self : compiler)
    (base_repositories : list path) (source_path : path) (use_link : bool)
  : M unit :=
  for_each (rev base_repositories) (fun repository_path =>
    recursive_overwrite repository_path (working_path self) ;;
    shutil.rmtree repository_path) ;;
  if use_link then relink_user_files fuel self source_path
  else copy_user_files self source_path.

(** [compile_from_files(source_path, use_link)] *)
Definition compile_from_files (fuel : nat) (self : compiler)
    (source_path : path) (use_link : bool) : M path :=
  base_repositories <- download_base_repositories fuel source_path ;;
  merge_layers fuel self base_repositories source_path use_link ;;
  active_envs <- get_active_envs self ;;
  filter_envs self active_envs ;;
  make_dockerfile self active_envs ;;
  ret (path_verification self).

(** [compile_from_git(repository)] *)
Definition compile_from_git (fuel : nat) (self : compiler) (repo : repository)
  : M path :=
  fun st =>
    match mkdtemp st with
    | (Ret source_path, st') =>
        try_finally
          (git_pull repo source_path ;;
           compile_from_files fuel self source_path false)
          (shutil.rmtree source_path) st'
    | (Raise e, st') => (Raise e, st')
    | (Timeout, st') => (Timeout, st')
    end.

(** [MissionFilesCompiler(dst_path).compile(source_path, repository,
    use_link)] *)
Definition compile (fuel : nat) (dst_path : path) (source_path : option path)
    (repo : option repository) (use_link : bool) : M path :=
  py_assert (match repo, source_path with
             | None, None => false
             | _, _ => true
             end) ;;
  let mission_source := init dst_path in
  match repo with
  | Some r => compile_from_git fuel mission_source r ;; ret dst_path
  | None =>
      match source_path with
      | Some p =>
          compile_from_files fuel mission_source p use_link ;; ret dst_path
      | None => raise TypeError
      end
  end.

End Parser.

(* ===================================================================== *)
(** * Facts about the string functions *)
(* ===================================================================== *)

Unset Implicit Arguments.

Module PyFacts.
Import Py.

Lemma contains_char_app c a b :
  contains_char c (a +++ b) = contains_char c a || contains_char c b.
Proof.
  induction a as [|x a IH]; simpl; [reflexivity|].
  destruct (Ascii.eqb x c); [reflexivity | exact IH].
Qed.

Lemma partition_first c p r :
  contains_char c p = false ->
  partition c (p +++ String c r) = Some (p, r).
Proof.
  induction p as [|x p IH]; simpl; intros H.
  - now rewrite Ascii.eqb_refl.
  - destruct (Ascii.eqb x c); [discriminate|]. now rewrite (IH H).
Qed.

Lemma partition_none c s :
  contains_char c s = false -> partition c s = None.
Proof.
  induction s as [|x s IH]; simpl; intros H; [reflexivity|].
  destruct (Ascii.eqb x c); [discriminate|]. now rewrite (IH H).
Qed.

Lemma partition_some c s :
  contains_char c s = true -> exists l r, partition c s = Some (l, r).
Proof.
  induction s as [|x s IH]; simpl; intros H; [discriminate|].
  destruct (Ascii.eqb x c); [now eauto|].
  destruct (IH H) as (l & r & E). rewrite E. eauto.
Qed.

Lemma space_differs a c : isspace a = true -> isspace c = false -> Ascii.eqb a c = false.
Proof.
  intros Ha Hc. destruct (Ascii.eqb_spec a c) as [->|]; congruence.
Qed.

Lemma lstrip_app u c r :
  isspace c = false -> lstrip (u +++ String c r) = lstrip u +++ String c r.
Proof.
  intros Hc. induction u as [|x u IH]; simpl.
  - now rewrite Hc.
  - destruct (isspace x); [exact IH | reflexivity].
Qed.

Lemma rstrip_app u c r :
  isspace c = false -> rstrip (u +++ String c r) = u +++ String c (rstrip r).
Proof.
  intros Hc. induction u as [|x u IH]; simpl.
  - destruct (rstrip r); [now rewrite Hc | reflexivity].
  - rewrite IH. now destruct u.
Qed.

Lemma strip_around u c r :
  isspace c = false ->
  strip (u +++ String c r) = lstrip u +++ String c (rstrip r).
Proof.
  intros Hc. unfold strip. now rewrite lstrip_app, rstrip_app.
Qed.

Lemma contains_char_lstrip c u :
  contains_char c u = false -> contains_char c (lstrip u) = false.
Proof.
  induction u as [|x u IH]; simpl; [easy|].
  destruct (Ascii.eqb x c) eqn:E; [discriminate|]. intros H.
  destruct (isspace x); [now apply IH | simpl; now rewrite E].
Qed.

Lemma contains_char_rstrip c r :
  isspace c = false -> contains_char c (rstrip r) = contains_char c r.
Proof.
  intros Hc. induction r as [|x r IH]; simpl; [reflexivity|].
  destruct (rstrip r) as [|y r'] eqn:E.
  - simpl in IH. rewrite <- IH.
    destruct (isspace x) eqn:Hx; simpl.
    + now rewrite (space_differs _ _ Hx Hc).
    + now destruct (Ascii.eqb x c).
  - simpl. simpl in IH. now rewrite IH.
Qed.

Lemma lstrip_idem s : lstrip (lstrip s) = lstrip s.
Proof.
  induction s as [|x s IH]; simpl; [reflexivity|].
  destruct (isspace x) eqn:E; [exact IH | simpl; now rewrite E].
Qed.

Lemma lstrip_rstrip s : lstrip (rstrip s) = rstrip (lstrip s).
Proof.
  induction s as [|x s IH]; simpl; [reflexivity|].
  destruct (isspace x) eqn:Hx.
  - destruct (rstrip s) as [|y s'] eqn:E.
    + simpl in IH. now rewrite <- IH.
    + simpl (lstrip (String x _)). rewrite Hx. exact IH.
  - destruct (rstrip s) as [|y s'] eqn:E; simpl; now rewrite ?Hx, ?E.
Qed.

Lemma rstrip_idem s : rstrip (rstrip s) = rstrip s.
Proof.
  induction s as [|x s IH]; simpl; [reflexivity|].
  destruct (rstrip s) as [|y s'] eqn:E.
  - destruct (isspace x) eqn:Hx; simpl; now rewrite ?Hx.
  - simpl in *. now rewrite IH.
Qed.

Lemma strip_lstrip s : strip (lstrip s) = strip s.
Proof. unfold strip. now rewrite lstrip_idem. Qed.

Lemma strip_rstrip s : strip (rstrip s) = strip s.
Proof. unfold strip. now rewrite lstrip_rstrip, rstrip_idem. Qed.

Lemma startswith_app old rest : startswith old (old +++ rest) = true.
Proof.
  induction old as [|a old IH]; simpl; [reflexivity|].
  now rewrite Ascii.eqb_refl.
Qed.

Lemma replace_from_skip old new a rest :
  replace_from old new (String.length a) (a +++ rest)
  = replace_from old new 0 rest.
Proof. induction a as [|x a IH]; simpl; [now destruct rest | exact IH]. Qed.

(** [replace] leaves alone a text in which [old] does not occur. *)
Lemma replace_absent old new s :
  contains old s = false -> replace old new s = s.
Proof.
  unfold replace. induction s as [|a s IH]; simpl; [reflexivity|].
  intros H. apply Bool.orb_false_iff in H. destruct H as [H1 H2].
  destruct old as [|o old]; [discriminate|].
  simpl in H1. simpl. rewrite H1. now rewrite (IH H2).
Qed.

(** [replace] puts [new] in the place of the leftmost occurrence of a
    non-empty [old] and goes on after it. *)
Lemma replace_first o old new p rest :
  (forall p1 p2, p = p1 +++ p2 -> p2 <> "" ->
                 startswith (String o old) (p2 +++ String o old +++ rest) = false) ->
  replace (String o old) new (p +++ String o old +++ rest)
  = p +++ new +++ replace (String o old) new rest.
Proof.
  unfold replace. induction p as [|a p IH]; intros H.
  - change ("" +++ String o old +++ rest) with (String o (old +++ rest)).
    cbn [replace_from].
    change (String o (old +++ rest)) with (String o old +++ rest).
    rewrite startswith_app.
    replace (String.length (String o old) - 1) with (String.length old)
      by (simpl; lia).
    now rewrite replace_from_skip.
  - change (String a p +++ String o old +++ rest)
      with (String a (p +++ String o old +++ rest)).
    cbn [replace_from].
    change (String a (p +++ String o old +++ rest))
      with (String a p +++ String o old +++ rest).
    rewrite (H "" (String a p) eq_refl) by discriminate.
    rewrite IH; [reflexivity|].
    intros p1 p2 -> Hp2. apply (H (String a p1) p2 eq_refl Hp2).
Qed.

End PyFacts.

(* ===================================================================== *)
(** * Facts about the file system *)
(* ===================================================================== *)

Ltac mrun_in H :=
  cbv beta iota zeta delta
    [bind ret raise timeout get_root set_root logging_warning py_assert
     root warnings] in H.

(** Runs the monadic operations at the head of the goal. *)
Ltac mrun :=
  cbv beta iota zeta delta
    [bind ret raise timeout get_root set_root logging_warning py_assert
     root warnings].

Module FsFacts.

Lemma find_set_same n x es : Entries.find n (Entries.set n x es) = Some x.
Proof.
  induction es as [|[m y] es IH]; simpl.
  - now rewrite String.eqb_refl.
  - destruct (String.eqb m n) eqn:E; simpl; rewrite E; [reflexivity | exact IH].
Qed.

Lemma find_set_other n m x es :
  n <> m -> Entries.find m (Entries.set n x es) = Entries.find m es.
Proof.
  intros Hnm. induction es as [|[k y] es IH]; simpl.
  - destruct (String.eqb_spec n m); [contradiction | reflexivity].
  - destruct (String.eqb_spec k n) as [->|Hk]; simpl.
    + destruct (String.eqb_spec n m); [contradiction | reflexivity].
    + destruct (String.eqb k m); [reflexivity | exact IH].
Qed.

Lemma find_del_same n es : Entries.find n (Entries.del n es) = None.
Proof.
  induction es as [|[m y] es IH]; simpl; [reflexivity|].
  destruct (String.eqb m n) eqn:E; simpl; rewrite ?E; exact IH.
Qed.

Lemma find_del_other n m es :
  n <> m -> Entries.find m (Entries.del n es) = Entries.find m es.
Proof.
  intros Hnm. induction es as [|[k y] es IH]; simpl; [reflexivity|].
  destruct (String.eqb_spec k n) as [->|Hk]; simpl.
  - destruct (String.eqb_spec n m); [contradiction | exact IH].
  - destruct (String.eqb k m); [reflexivity | exact IH].
Qed.

Lemma find_names n es :
  Entries.find n es = None <-> ~ In n (Entries.names es).
Proof.
  induction es as [|[m y] es IH]; simpl.
  - tauto.
  - destruct (String.eqb_spec m n) as [->|Hm].
    + split; [discriminate | intros H; exfalso; auto].
    + rewrite IH. tauto.
Qed.

Lemma del_absent n es :
  ~ In n (Entries.names es) -> Entries.del n es = es.
Proof.
  induction es as [|[m y] es IH]; simpl; intros H; [reflexivity|].
  destruct (String.eqb_spec m n) as [->|Hm]; [tauto|].
  rewrite IH; tauto.
Qed.

Lemma lookup_app cur p q :
  lookup cur (p ++ q) =
  match lookup cur p with Some x => lookup x q | None => None end.
Proof.
  revert cur. induction p as [|n p IH]; intros cur; simpl; [reflexivity|].
  destruct cur as [c|t|es]; try reflexivity.
  destruct (Entries.find n es); [apply IH | reflexivity].
Qed.

Definition not_link (x : node) : Prop :=
  match x with Link _ => False | _ => True end.

(** A path of directories that ends in a file or a directory resolves to
    itself, whatever the links elsewhere. *)
Lemma walk_lookup r k p : forall acc cur x,
  lookup cur p = Some x -> not_link x ->
  walk r k acc cur p = Some (acc ++ p, Some x).
Proof.
  induction p as [|n p IH]; intros acc cur x Hl Hx; simpl in Hl.
  - inversion Hl; subst. rewrite app_nil_r.
    destruct x; [destruct k; reflexivity | contradiction | destruct k; reflexivity].
  - destruct cur as [c|t|es]; try discriminate.
    destruct (Entries.find n es) as [c|] eqn:E; [|discriminate].
    replace (acc ++ n :: p) with ((acc ++ [n]) ++ p) by now rewrite <- app_assoc.
    rewrite <- (IH (acc ++ [n]) c x Hl Hx).
    destruct k; simpl; now rewrite E.
Qed.

(** A name that a directory does not have resolves to the place where it
    would be made. *)
Lemma walk_absent r k d n : forall acc cur es,
  lookup cur d = Some (Dir es) -> Entries.find n es = None ->
  walk r k acc cur (d ++ [n]) = Some (acc ++ d ++ [n], None).
Proof.
  induction d as [|m d IH]; intros acc cur es Hl Hn; simpl in Hl.
  - inversion Hl; subst. destruct k; simpl; now rewrite Hn.
  - destruct cur as [c|t|es']; try discriminate.
    destruct (Entries.find m es') as [c|] eqn:E; [|discriminate].
    replace (acc ++ (m :: d) ++ [n]) with ((acc ++ [m]) ++ d ++ [n])
      by now rewrite <- app_assoc.
    rewrite <- (IH (acc ++ [m]) c es Hl Hn).
    destruct k; simpl; now rewrite E.
Qed.

Lemma stat_lookup r p x :
  lookup r p = Some x -> not_link x -> stat r p = Some (p, x).
Proof.
  intros Hl Hx. unfold stat, resolve.
  now rewrite (walk_lookup r MAXSYMLINKS p [] r x Hl Hx).
Qed.

Lemma resolve_absent r d n es :
  lookup r d = Some (Dir es) -> Entries.find n es = None ->
  resolve r (join d n) = Some (join d n, None).
Proof.
  intros Hl Hn. unfold resolve, join.
  now rewrite (walk_absent r MAXSYMLINKS d n [] r es Hl Hn).
Qed.

Lemma resolve_lookup r p x :
  lookup r p = Some x -> not_link x -> resolve r p = Some (p, Some x).
Proof.
  intros Hl Hx. unfold resolve.
  now rewrite (walk_lookup r MAXSYMLINKS p [] r x Hl Hx).
Qed.

Lemma unsnoc_app d n : unsnoc (d ++ [n]) = Some (d, n).
Proof.
  induction d as [|m d IH]; simpl; [reflexivity|].
  rewrite IH. now destruct d.
Qed.

Lemma entry_lookup r d n es :
  lookup r d = Some (Dir es) ->
  entry r (join d n) = Some (d, es, n, Entries.find n es).
Proof.
  intros Hl. unfold entry, join. rewrite unsnoc_app.
  now rewrite (stat_lookup r d (Dir es) Hl I).
Qed.

Lemma put_cons m p v es :
  p <> [] ->
  put (m :: p) v (Dir es) =
  match Entries.find m es with
  | Some c => Dir (Entries.set m (put p v c) es)
  | None => Dir es
  end.
Proof. intros Hp. destruct p; [contradiction | reflexivity]. Qed.

Lemma snoc_not_nil (d : path) n : d ++ [n] <> [].
Proof. now destruct d. Qed.

(** [put] at an entry of a directory changes the listing of the directory
    and nothing else of it. *)
Lemma lookup_put_parent d n v : forall r es,
  lookup r d = Some (Dir es) ->
  lookup (put (d ++ [n]) v r) d =
  Some (Dir (match v with
             | Some x => Entries.set n x es
             | None => Entries.del n es
             end)).
Proof.
  induction d as [|m d IH]; intros r es Hl; simpl in Hl.
  - inversion Hl; subst. reflexivity.
  - destruct r as [c|t|es']; try discriminate.
    destruct (Entries.find m es') as [c|] eqn:E; [|discriminate].
    change ((m :: d) ++ [n]) with (m :: (d ++ [n])).
    rewrite (put_cons m _ v es' (snoc_not_nil d n)), E.
    simpl. rewrite find_set_same. now apply IH.
Qed.

Lemma set_same n x es : Entries.find n es = Some x -> Entries.set n x es = es.
Proof.
  induction es as [|[m y] es IH]; simpl; [discriminate|].
  destruct (String.eqb m n); intros H; [now inversion H | now rewrite IH].
Qed.

Lemma set_set n x y es :
  Entries.set n y (Entries.set n x es) = Entries.set n y es.
Proof.
  induction es as [|[m z] es IH]; simpl.
  - now rewrite String.eqb_refl.
  - destruct (String.eqb m n) eqn:E; simpl; rewrite E; [reflexivity | now rewrite IH].
Qed.

Lemma put_same d : forall r x, lookup r d = Some x -> put d (Some x) r = r.
Proof.
  induction d as [|m d IH]; intros r x Hl; simpl in Hl.
  - now inversion Hl.
  - destruct r as [c|t|es]; try discriminate.
    destruct (Entries.find m es) as [c|] eqn:E; [|discriminate].
    destruct d as [|k d].
    + simpl in *. inversion Hl; subst. now rewrite (set_same _ _ _ E).
    + rewrite put_cons, E by discriminate.
      now rewrite (IH c x Hl), (set_same _ _ _ E).
Qed.

Lemma put_put d x y : forall r,
  put d (Some y) (put d (Some x) r) = put d (Some y) r.
Proof.
  induction d as [|m d IH]; intros r; [reflexivity|].
  destruct r as [c|t|es]; try reflexivity.
  destruct d as [|k d].
  - simpl. now rewrite set_set.
  - rewrite !put_cons by discriminate.
    destruct (Entries.find m es) as [c|] eqn:E.
    + rewrite put_cons, find_set_same by discriminate.
      now rewrite IH, set_set.
    + rewrite put_cons, E by discriminate. reflexivity.
Qed.

(** Setting or deleting an entry of a directory is replacing the directory
    by one with the new listing. *)
Lemma put_child d n v : forall r es,
  lookup r d = Some (Dir es) ->
  put (d ++ [n]) v r =
  put d (Some (Dir (match v with
                    | Some x => Entries.set n x es
                    | None => Entries.del n es
                    end))) r.
Proof.
  induction d as [|m d IH]; intros r es Hl; simpl in Hl.
  - inversion Hl; subst. reflexivity.
  - destruct r as [c|t|es']; try discriminate.
    destruct (Entries.find m es') as [c|] eqn:E; [|discriminate].
    change ((m :: d) ++ [n]) with (m :: (d ++ [n])).
    rewrite (put_cons m _ v es' (snoc_not_nil d n)), E.
    rewrite (IH c es Hl).
    destruct d as [|k d].
    + simpl in *. now inversion Hl.
    + now rewrite put_cons, E by discriminate.
Qed.

Lemma lookup_put_self d x : forall r y,
  lookup r d = Some y -> lookup (put d (Some x) r) d = Some x.
Proof.
  induction d as [|m d IH]; intros r y Hl; simpl in Hl; [reflexivity|].
  destruct r as [c|t|es]; try discriminate.
  destruct (Entries.find m es) as [c|] eqn:E; [|discriminate].
  destruct d as [|k d].
  - simpl. now rewrite find_set_same.
  - rewrite put_cons, E by discriminate. simpl lookup at 1.
    rewrite find_set_same. now apply (IH c y).
Qed.

Lemma lookup_child r d n es :
  lookup r d = Some (Dir es) ->
  lookup r (join d n) =
  match Entries.find n es with Some x => Some x | None => None end.
Proof.
  intros Hl. unfold join. rewrite lookup_app, Hl. simpl.
  now destruct (Entries.find n es).
Qed.

Lemma lookup_put_child d n x r es :
  lookup r d = Some (Dir es) ->
  lookup (put (join d n) (Some x) r) (join d n) = Some x.
Proof.
  intros Hl. unfold join.
  rewrite lookup_app, (lookup_put_parent d n (Some x) r es Hl). simpl.
  now rewrite find_set_same.
Qed.

Lemma read_file_lookup r w p c :
  lookup r p = Some (File c) ->
  read_file p (mkState r w) = (Ret (Py.universal_newlines c), mkState r w).
Proof.
  intros Hl. unfold read_file. mrun.
  now rewrite (stat_lookup r p (File c) Hl I).
Qed.

Lemma find_app_skip n pre rest :
  ~ In n (Entries.names pre) ->
  Entries.find n (pre ++ rest) = Entries.find n rest.
Proof.
  induction pre as [|[m y] pre IH]; simpl; intros H; [reflexivity|].
  destruct (String.eqb_spec m n) as [->|Hm]; [tauto|]. apply IH. tauto.
Qed.

Lemma del_app n pre rest :
  Entries.del n (pre ++ rest) = Entries.del n pre ++ Entries.del n rest.
Proof.
  induction pre as [|[m y] pre IH]; simpl; [reflexivity|].
  destruct (String.eqb m n); simpl; now rewrite IH.
Qed.

Lemma in_list_In x l : Py.in_list x l = true <-> In x l.
Proof.
  induction l as [|y l IH]; simpl; [split; [discriminate | tauto]|].
  rewrite Bool.orb_true_iff, IH.
  destruct (String.eqb_spec x y) as [->|Hxy]; split; auto.
  - intros [H|H]; [discriminate | auto].
  - intros [H|H]; [congruence | auto].
Qed.

(** Neither path is a prefix of the other. *)
Fixpoint unrelated (p q : path) : bool :=
  match p, q with
  | a :: p', b :: q' => if String.eqb a b then unrelated p' q' else true
  | _, _ => false
  end.

Lemma unrelated_sym p : forall q, unrelated p q = unrelated q p.
Proof.
  induction p as [|a p IH]; intros [|b q]; simpl; try reflexivity.
  rewrite (String.eqb_sym b a). destruct (String.eqb a b); auto.
Qed.

(** [put] at a path changes nothing at the paths unrelated to it. *)
Lemma lookup_put_unrelated p : forall q v r,
  unrelated p q = true -> lookup (put q v r) p = lookup r p.
Proof.
  induction p as [|a p IH]; intros [|b q] v r H; simpl in H; try discriminate.
  destruct r as [c|t|es]; try reflexivity.
  destruct (String.eqb_spec a b) as [->|Hab].
  - destruct q as [|k q]; [now destruct p|].
    rewrite put_cons by discriminate.
    destruct (Entries.find b es) as [c|] eqn:E; [|reflexivity].
    cbn [lookup]. rewrite find_set_same, E. now apply IH.
  - destruct q as [|k q].
    + cbn [put lookup].
      destruct v; [now rewrite find_set_other by auto
                  | now rewrite find_del_other by auto].
    + rewrite put_cons by discriminate.
      destruct (Entries.find b es) as [c|] eqn:E; [|reflexivity].
      cbn [lookup]. now rewrite find_set_other by auto.
Qed.

(** Two different paths of regular files are unrelated. *)
Lemma files_unrelated p : forall q r c1 c2,
  lookup r p = Some (File c1) -> lookup r q = Some (File c2) ->
  p <> q -> unrelated p q = true.
Proof.
  induction p as [|a p IH]; intros [|b q] r c1 c2 Hp Hq Hne; simpl in *.
  - contradiction.
  - inversion Hp; subst. discriminate.
  - inversion Hq; subst. discriminate.
  - destruct r as [c|t|es]; try discriminate.
    destruct (String.eqb_spec a b) as [->|Hab]; [|reflexivity].
    destruct (Entries.find b es) as [x|]; [|discriminate].
    apply (IH q x c1 c2 Hp Hq). congruence.
Qed.

End FsFacts.


(* ===================================================================== *)
(** * The schema record: [get_base_repository] *)
(* ===================================================================== *)

Section Schema.
Import PyFacts.

(** What [get_base_repository] makes of the first line of the schema. *)
Definition schema_outcome (content : string) : outcome (option repository) :=
  if String.eqb content "" then Raise (MissionFilesException "Schema file is empty")
  else
    match Py.partition ";" content with
    | None => Raise (MissionFilesException "Schema content is wrong")
    | Some (_, part) =>
        match Py.partition "@" (Py.strip part) with
        | Some (before, after) =>
            if Py.contains_char ":" after
            then Ret (Some (mkRepository (Py.strip part) None))
            else Ret (Some (mkRepository (Py.strip before) (Some (Py.strip after))))
        | None => Ret (Some (mkRepository (Py.strip part) None))
        end
    end.

(** The first line of a file that holds [raw], as [readline] returns it on
    the file opened in text mode. *)
Definition first_line (raw : string) : string :=
  Py.readline (Py.universal_newlines raw).

Lemma get_base_repository_unfold st source_path :
  get_base_repository source_path st =
  match stat (root st) (join source_path SCHEMA_FILENAME) with
  | None => (Ret None, st)
  | Some (_, File raw) => (schema_outcome (first_line raw), st)
  | Some (_, _) => (Raise (OSError IsADirectoryError), st)
  end.
Proof.
  cbv beta iota zeta delta
    [get_base_repository bind os.path_exists read_file get_root ret raise].
  destruct (stat (root st) (join source_path SCHEMA_FILENAME))
    as [[q [raw|t|es]]|] eqn:Hs;
    cbv beta iota delta [negb]; rewrite ?Hs; cbv beta iota; try reflexivity.
  unfold schema_outcome, Py.split1, first_line.
  set (line := Py.readline (Py.universal_newlines raw)).
  destruct (String.eqb line ""); [reflexivity|].
  destruct (Py.partition ";" line) as [[l part]|]; [|reflexivity].
  destruct (Py.contains_char "@" (Py.strip part)) eqn:E.
  - destruct (partition_some _ _ E) as (b & a & ->).
    now destruct (Py.contains_char ":" a).
  - now rewrite (partition_none _ _ E).
Qed.

(** The lines that [get_base_repository] refuses. *)
Lemma schema_outcome_malformed line :
  (exists msg, schema_outcome line = Raise (MissionFilesException msg))
  <-> (line = "" \/ Py.contains_char ";" line = false).
Proof.
  unfold schema_outcome.
  destruct (String.eqb_spec line "") as [E|E].
  - split; eauto.
  - destruct (Py.contains_char ";" line) eqn:Hc.
    + destruct (partition_some _ _ Hc) as (l & part & ->).
      split.
      * intros [msg Hm].
        destruct (Py.partition "@" (Py.strip part)) as [[b a]|];
          [destruct (Py.contains_char ":" a)|]; discriminate.
      * intros [?|?]; [contradiction | discriminate].
    + rewrite (partition_none _ _ Hc). split; eauto.
Qed.

Lemma schema_outcome_not_none line : schema_outcome line <> Ret None.
Proof.
  unfold schema_outcome.
  destruct (String.eqb line ""); [discriminate|].
  destruct (Py.partition ";" line) as [[l part]|]; [|discriminate].
  destruct (Py.partition "@" (Py.strip part)) as [[b a]|];
    [destruct (Py.contains_char ":" a)|]; discriminate.
Qed.

End Schema.

(* ===================================================================== *)
(** * Claims on the schema record *)
(* ===================================================================== *)

Section SchemaClaims.
Import PyFacts.

Lemma schema_outcome_url_ref prefix u r :
  Py.contains_char ";" prefix = false ->
  Py.contains_char "@" u = false ->
  schema_outcome (prefix +++ ";" +++ u +++ "@" +++ r) =
  Ret (Some (if Py.contains_char ":" r
             then mkRepository (Py.strip (u +++ "@" +++ r)) None
             else mkRepository (Py.strip u) (Some (Py.strip r)))).
Proof.
  intros Hp Hu. unfold schema_outcome.
  replace (String.eqb (prefix +++ ";" +++ u +++ "@" +++ r) "") with false
    by (now destruct prefix).
  change (prefix +++ ";" +++ u +++ "@" +++ r)
    with (prefix +++ String ";" (u +++ String "@" r)).
  rewrite (partition_first _ _ _ Hp).
  change (u +++ "@" +++ r) with (u +++ String "@" r).
  rewrite (strip_around u "@" r eq_refl).
  rewrite (partition_first _ _ _ (contains_char_lstrip _ _ Hu)).
  rewrite (contains_char_rstrip ":" r eq_refl).
  destruct (Py.contains_char ":" r); [reflexivity|].
  now rewrite strip_lstrip, strip_rstrip.
Qed.

(** C2, as amended: for a schema whose first line, as it is read in text
    mode, is [prefix;url@ref] (no [;] in [prefix], no [@] in [url]),
    [get_base_repository] returns the pair of [url] and [ref], each
    stripped of the white space around it, when [ref] has no [:];
    otherwise it returns as URL the whole text after the [;], stripped of
    the white space around it, and no ref. *)
Theorem get_base_repository_url_ref :
  forall st source_path q raw prefix u r,
    stat (root st) (join source_path SCHEMA_FILENAME) = Some (q, File raw) ->
    first_line raw = prefix +++ ";" +++ u +++ "@" +++ r ->
    Py.contains_char ";" prefix = false ->
    Py.contains_char "@" u = false ->
    get_base_repository source_path st =
    (Ret (Some (if Py.contains_char ":" r
                then mkRepository (Py.strip (u +++ "@" +++ r)) None
                else mkRepository (Py.strip u) (Some (Py.strip r)))), st).
Proof.
  intros st source_path q raw prefix u r Hstat Hline Hp Hu.
  rewrite get_base_repository_unfold, Hstat, Hline.
  now rewrite schema_outcome_url_ref.
Qed.

Definition schema_disk (text : string) : state :=
  mkState (Dir [("mission", Dir [("schema", File text)])]) [].

(** A schema of two lines, the first ended by [\r\n]. *)
Definition crlf_schema : string :=
  "checkio; https://host/base.git@master"
  +++ String "013" (String "010" "next").

Lemma get_base_repository_url_ref_witness :
  get_base_repository ["mission"] (schema_disk crlf_schema)
  = (Ret (Some (mkRepository "https://host/base.git" (Some "master"))),
     schema_disk crlf_schema).
Proof.
  exact (get_base_repository_url_ref
           (schema_disk crlf_schema)
           ["mission"] ["mission"; "schema"] crlf_schema
           "checkio" " https://host/base.git" ("master" +++ String "010" "")
           eq_refl eq_refl eq_refl eq_refl).
Defined.

(** C2, as the claim words it, fails: the line [p; u@r] has the form
    [prefix;url@ref] with the URL [ u] (a space, then [u]), and the
    function returns the URL [u]. *)
Lemma get_base_repository_url_ref_literal_fails :
  ~ (forall st source_path q raw prefix u r,
        stat (root st) (join source_path SCHEMA_FILENAME) = Some (q, File raw) ->
        first_line raw = prefix +++ ";" +++ u +++ "@" +++ r ->
        Py.contains_char ";" prefix = false ->
        Py.contains_char "@" u = false ->
        get_base_repository source_path st =
        (Ret (Some (if Py.contains_char ":" r
                    then mkRepository (u +++ "@" +++ r) None
                    else mkRepository u (Some r))), st)).
Proof.
  intros H.
  specialize (H (schema_disk "p; u@r") ["mission"] ["mission"; "schema"]
                "p; u@r" "p" " u" "r" eq_refl eq_refl eq_refl eq_refl).
  vm_compute in H. discriminate H.
Qed.

End SchemaClaims.

(* ===================================================================== *)
(** * The environment filter: [filter_envs] *)
(* ===================================================================== *)

Section EnvironmentFilter.
Import FsFacts.

Variable self : compiler.
Variable active_envs : list string.

(** What the loop of [filter_envs] makes of the listing of [envs]: the
    entries of an inactive name are dropped as long as they are
    directories; the first other inactive entry stops the loop with the
    exception of [shutil.rmtree]. *)
Fixpoint prune (es : list (string * node))
  : outcome unit * list (string * node) :=
  match es with
  | [] => (Ret tt, [])
  | (n, x) :: t =>
      if Py.in_list n active_envs
      then let (o, t') := prune t in (o, (n, x) :: t')
      else match x with
           | Dir _ => prune t
           | Link _ => (Raise (OSError OtherOSError), (n, x) :: t)
           | File _ => (Raise (OSError NotADirectoryError), (n, x) :: t)
           end
  end.

Definition filter_body (env : string) : M unit :=
  if negb (Py.in_list env active_envs)
  then shutil.rmtree (join (path_envs self) env)
  else ret tt.

Lemma filter_loop : forall rest pre r w,
  lookup r (path_envs self) = Some (Dir (pre ++ rest)) ->
  NoDup (Entries.names (pre ++ rest)) ->
  for_each (Entries.names rest) filter_body (mkState r w) =
  (fst (prune rest),
   mkState (put (path_envs self) (Some (Dir (pre ++ snd (prune rest)))) r) w).
Proof.
  induction rest as [|[n x] rest IH]; intros pre r w Hl Hnd.
  - simpl. rewrite app_nil_r in *. now rewrite (put_same _ _ _ Hl).
  - assert (Hpre : ~ In n (Entries.names pre)).
    { unfold Entries.names in *. rewrite map_app in Hnd. simpl in Hnd.
      apply NoDup_remove_2 in Hnd. rewrite in_app_iff in Hnd. tauto. }
    assert (Hrest : ~ In n (Entries.names rest)).
    { unfold Entries.names in *. rewrite map_app in Hnd. simpl in Hnd.
      apply NoDup_remove_2 in Hnd. rewrite in_app_iff in Hnd. tauto. }
    simpl for_each. unfold bind, filter_body at 1. simpl prune.
    destruct (Py.in_list n active_envs) eqn:Hact;
      cbv beta iota delta [negb].
    + unfold ret at 1. cbv beta iota.
      specialize (IH (pre ++ [(n, x)]) r w).
      rewrite <- app_assoc in IH. simpl in IH. rewrite (IH Hl Hnd).
      destruct (prune rest) as [o t']. simpl. now rewrite <- app_assoc.
    + unfold shutil.rmtree. mrun.
      rewrite (entry_lookup r _ n _ Hl), (find_app_skip _ _ _ Hpre).
      cbn [Entries.find]. rewrite String.eqb_refl.
      destruct x as [c|t|ds]; mrun; cbn [fst snd].
      * now rewrite (put_same _ _ _ Hl).
      * now rewrite (put_same _ _ _ Hl).
      * assert (Hdel : Entries.del n (pre ++ (n, Dir ds) :: rest) = pre ++ rest).
        { rewrite del_app. simpl. rewrite String.eqb_refl.
          now rewrite (del_absent _ _ Hpre), (del_absent _ _ Hrest). }
        rewrite (put_child _ n None r _ Hl). rewrite Hdel.
        rewrite (IH pre).
        -- now rewrite put_put.
        -- now apply (lookup_put_self _ _ r (Dir (pre ++ (n, Dir ds) :: rest))).
        -- unfold Entries.names in *. rewrite map_app in *. simpl in Hnd.
           now apply NoDup_remove_1 in Hnd.
Qed.

(** The run of [filter_envs] on a disk where [envs] is a directory. *)
Lemma filter_envs_run st es :
  lookup (root st) (path_envs self) = Some (Dir es) ->
  NoDup (Entries.names es) ->
  filter_envs self active_envs st =
  (fst (prune es),
   mkState (put (path_envs self) (Some (Dir (snd (prune es)))) (root st))
           (warnings st)).
Proof.
  intros Hl Hnd. destruct st as [r w]. simpl in Hl.
  unfold filter_envs, os.listdir. mrun.
  rewrite (stat_lookup _ _ _ Hl I). mrun.
  exact (filter_loop es [] r w Hl Hnd).
Qed.

Lemma prune_names es : incl (Entries.names (snd (prune es))) (Entries.names es).
Proof.
  induction es as [|[n x] es IH]; simpl; [easy|].
  destruct (Py.in_list n active_envs).
  - destruct (prune es) as [o t']. simpl in *.
    intros a [Ha|Ha]; [now left | right; now apply IH].
  - destruct x; simpl; try apply incl_refl.
    intros a Ha. right. now apply IH.
Qed.

Lemma prune_NoDup es :
  NoDup (Entries.names es) -> NoDup (Entries.names (snd (prune es))).
Proof.
  induction es as [|[n x] es IH]; simpl; intros H; [constructor|].
  inversion H as [|? ? Hn Hes]; subst.
  destruct (Py.in_list n active_envs).
  - pose proof (prune_names es) as Hincl.
    destruct (prune es) as [o t']. simpl in *.
    constructor; [intros Hin; apply Hn; now apply Hincl | now apply IH].
  - destruct x; simpl; auto.
Qed.

Lemma prune_idem es : prune (snd (prune es)) = prune es.
Proof.
  induction es as [|[n x] es IH]; simpl; [reflexivity|].
  destruct (Py.in_list n active_envs) eqn:Hact.
  - destruct (prune es) as [o t'] eqn:E. simpl in *. now rewrite Hact, IH.
  - destruct x; simpl; rewrite ?Hact; auto.
Qed.

Lemma prune_all_dirs es :
  (forall n x, In (n, x) es -> Py.in_list n active_envs = false ->
               exists ds, x = Dir ds) ->
  prune es = (Ret tt, filter (fun e => Py.in_list (fst e) active_envs) es).
Proof.
  induction es as [|[n x] es IH]; simpl; intros H; [reflexivity|].
  destruct (Py.in_list n active_envs) eqn:Hact.
  - rewrite IH; [reflexivity|]. intros; eapply H; eauto.
  - destruct (H n x (or_introl eq_refl) Hact) as [ds ->].
    apply IH. intros; eapply H; eauto.
Qed.

End EnvironmentFilter.

Section EnvironmentFilterClaims.
Import FsFacts.

Lemma prune_ext a1 a2 es :
  (forall n, In n (Entries.names es) -> Py.in_list n a1 = Py.in_list n a2) ->
  prune a1 es = prune a2 es.
Proof.
  induction es as [|[n x] es IH]; simpl; intros H; [reflexivity|].
  rewrite <- (H n (or_introl eq_refl)), IH by auto. reflexivity.
Qed.

Lemma find_filter_names (keep : string -> bool) n es :
  Entries.find n (filter (fun e => keep (fst e)) es) =
  if keep n then Entries.find n es else None.
Proof.
  induction es as [|[m x] es IH]; simpl; [now destruct (keep n)|].
  destruct (String.eqb_spec m n) as [->|Hm].
  - destruct (keep n) eqn:K; simpl; [now rewrite String.eqb_refl | exact IH].
  - destruct (keep m); simpl; [|exact IH].
    destruct (String.eqb_spec m n); [contradiction | exact IH].
Qed.

Lemma in_list_filter x keep l :
  Py.in_list x (filter keep l) = Py.in_list x l && keep x.
Proof.
  induction l as [|y l IH]; simpl; [reflexivity|].
  destruct (keep y) eqn:K; simpl; rewrite IH.
  - destruct (String.eqb_spec x y) as [->|]; simpl; [|reflexivity].
    rewrite K. now destruct (Py.in_list y l).
  - destruct (String.eqb_spec x y) as [->|]; simpl; [|reflexivity].
    rewrite K. now rewrite Bool.andb_false_r.
Qed.

(** C6, as amended: on a working directory whose [verification/envs] is a
    directory with nothing but directories outside the active set,
    [filter_envs]
    returns, and the new disk is the old one where the listing of [envs]
    keeps, in their order and as they were, the entries with an active
    name: an entry is gone exactly when its name is not active.  The active
    names that [envs] does not have change nothing: without them the run is
    the same. *)
Theorem filter_envs_deletes_inactive :
  forall self active_envs st es,
    lookup (root st) (path_envs self) = Some (Dir es) ->
    NoDup (Entries.names es) ->
    (forall n x, In (n, x) es -> Py.in_list n active_envs = false ->
                 exists ds, x = Dir ds) ->
    let kept := filter (fun e => Py.in_list (fst e) active_envs) es in
    filter_envs self active_envs st =
      (Ret tt,
       mkState (put (path_envs self) (Some (Dir kept)) (root st)) (warnings st))
    /\ lookup (root (snd (filter_envs self active_envs st))) (path_envs self)
       = Some (Dir kept)
    /\ (forall n, Entries.find n kept =
                  if Py.in_list n active_envs then Entries.find n es else None)
    /\ filter_envs self
         (filter (fun a => Py.in_list a (Entries.names es)) active_envs) st
       = filter_envs self active_envs st.
Proof.
  intros self active_envs st es Hl Hnd Hdirs kept.
  pose proof (filter_envs_run self active_envs st es Hl Hnd) as Hrun.
  rewrite (prune_all_dirs active_envs es Hdirs) in Hrun. simpl in Hrun.
  split; [exact Hrun|]. split; [|split].
  - rewrite Hrun. simpl. now apply (lookup_put_self _ _ _ (Dir es)).
  - intros n. apply (find_filter_names (fun n => Py.in_list n active_envs)).
  - rewrite !(filter_envs_run self _ st es Hl Hnd).
    rewrite (prune_ext
               (filter (fun a => Py.in_list a (Entries.names es)) active_envs)
               active_envs es); [reflexivity|].
    intros n Hn. rewrite in_list_filter.
    apply in_list_In in Hn. rewrite Hn. apply Bool.andb_true_r.
Qed.

Ltac distinct_names :=
  repeat (constructor; [simpl; intuition discriminate|]); constructor.

Definition envs_disk : state :=
  mkState
    (Dir [("work",
           Dir [("initial", Dir [("py3", Dir []); ("go", Dir [])]);
                ("verification",
                 Dir [("envs",
                       Dir [("js", Dir [("Dockerenv", File "RUN js")]);
                            ("py3", Dir [("Dockerenv", File "RUN py3")])])])])])
    [].

Lemma filter_envs_deletes_inactive_witness :
  filter_envs (init ["work"]) ["py3"; "go"] envs_disk =
  (Ret tt,
   mkState
     (Dir [("work",
            Dir [("initial", Dir [("py3", Dir []); ("go", Dir [])]);
                 ("verification",
                  Dir [("envs",
                        Dir [("py3", Dir [("Dockerenv", File "RUN py3")])])])])])
     []).
Proof.
  refine (proj1 (filter_envs_deletes_inactive (init ["work"]) ["py3"; "go"]
                   envs_disk
                   [("js", Dir [("Dockerenv", File "RUN js")]);
                    ("py3", Dir [("Dockerenv", File "RUN py3")])]
                   eq_refl _ _)).
  - distinct_names.
  - intros n x [E|[E|[]]] H; inversion E; subst; [eauto | discriminate H].
Defined.

(** A working directory whose [envs] lists a regular file before the
    directory [js]. *)
Definition readme_disk : state :=
  mkState
    (Dir [("work",
           Dir [("verification",
                 Dir [("envs",
                       Dir [("README", File "notes");
                            ("js", Dir [("Dockerenv", File "RUN js")]);
                            ("py3", Dir [("Dockerenv", File "RUN py3")])])])])])
    [].

(** C6, as the claim words it, fails: [filter_envs] does not delete every
    subdirectory of [envs] whose name is not active.  With a regular file
    listed before it, the inactive [js] stays: [shutil.rmtree] raises at
    the file. *)
Lemma filter_envs_deletes_inactive_literal_fails :
  ~ (forall self active_envs st es,
        lookup (root st) (path_envs self) = Some (Dir es) ->
        NoDup (Entries.names es) ->
        forall n ds,
          Entries.find n es = Some (Dir ds) ->
          Py.in_list n active_envs = false ->
          lookup (root (snd (filter_envs self active_envs st)))
                 (join (path_envs self) n) = None).
Proof.
  intros H.
  assert (Hnd : NoDup ["README"; "js"; "py3"]) by distinct_names.
  specialize (H (init ["work"]) ["py3"] readme_disk
                [("README", File "notes");
                 ("js", Dir [("Dockerenv", File "RUN js")]);
                 ("py3", Dir [("Dockerenv", File "RUN py3")])]
                eq_refl Hnd "js" [("Dockerenv", File "RUN js")]
                eq_refl eq_refl).
  vm_compute in H. discriminate H.
Qed.

(** C7: [filter_envs] is idempotent.  On a disk where [envs], if it is a
    directory, is one by a path without links and lists no name twice, a
    second run of [filter_envs] ends as the first did and leaves the disk
    as the first run left it. *)
Theorem filter_envs_idempotent :
  forall self active_envs st,
    (forall q es, stat (root st) (path_envs self) = Some (q, Dir es) ->
                  lookup (root st) (path_envs self) = Some (Dir es)
                  /\ NoDup (Entries.names es)) ->
    filter_envs self active_envs (snd (filter_envs self active_envs st))
    = filter_envs self active_envs st.
Proof.
  intros self active_envs st Hwf.
  destruct (stat (root st) (path_envs self)) as [[q x]|] eqn:Hs.
  - destruct x as [c|t|es].
    + assert (H : filter_envs self active_envs st
                  = (Raise (OSError NotADirectoryError), st)).
      { destruct st as [r w]. unfold filter_envs, os.listdir. mrun.
        simpl in Hs. now rewrite Hs. }
      rewrite H. simpl. exact H.
    + assert (H : filter_envs self active_envs st
                  = (Raise (OSError NotADirectoryError), st)).
      { destruct st as [r w]. unfold filter_envs, os.listdir. mrun.
        simpl in Hs. now rewrite Hs. }
      rewrite H. simpl. exact H.
    + destruct (Hwf q es eq_refl) as [Hl Hnd].
      rewrite (filter_envs_run self active_envs st es Hl Hnd). simpl snd.
      rewrite (filter_envs_run self active_envs _ (snd (prune active_envs es))).
      * simpl. now rewrite prune_idem, put_put.
      * simpl. now apply (lookup_put_self _ _ _ (Dir es)).
      * now apply prune_NoDup.
  - assert (H : filter_envs self active_envs st
                = (Raise (OSError (errno (root st) (path_envs self))), st)).
    { destruct st as [r w]. unfold filter_envs, os.listdir. mrun.
      simpl in Hs. now rewrite Hs. }
    rewrite H. simpl. exact H.
Qed.

Lemma filter_envs_idempotent_witness :
  filter_envs (init ["work"]) ["py3"; "go"]
    (snd (filter_envs (init ["work"]) ["py3"; "go"] envs_disk))
  = filter_envs (init ["work"]) ["py3"; "go"] envs_disk.
Proof.
  apply filter_envs_idempotent.
  intros q es H. vm_compute in H. inversion H; subst.
  split; [reflexivity | distinct_names].
Defined.

End EnvironmentFilterClaims.

(* ===================================================================== *)
(** * The descriptor: [make_dockerfile] *)
(* ===================================================================== *)

Section Descriptor.
Import FsFacts.

Variable self : compiler.

Definition docker_env_file (env : string) : path :=
  join (join (join (path_verification self) "envs") env) DOCKER_ENV_FILENAME.

(** The descriptor of the template [template] and of the fragments
    [fragment env], for the environments [active_envs] in their order. *)
Definition descriptor (fragment : string -> string) (template : string)
    (active_envs : list string) : string :=
  Py.replace "{{env_instructions}}"
    (Py.join (String "010" "")
       (map (fun env => Py.replace "{{env}}" env (fragment env)) active_envs))
    template.

Lemma envs_docker_run fragment st : forall active_envs,
  (forall env, In env active_envs ->
               read_file (docker_env_file env) st = (Ret (fragment env), st)) ->
  envs_docker self active_envs st =
  (Ret (map (fun env => Py.replace "{{env}}" env (fragment env)) active_envs), st).
Proof.
  induction active_envs as [|env rest IH]; intros H; [reflexivity|].
  cbn [envs_docker map]. mrun.
  change (join (join (join (path_verification self) "envs") env) DOCKER_ENV_FILENAME)
    with (docker_env_file env).
  rewrite (H env (or_introl eq_refl)).
  rewrite IH by (intros; apply H; now right). reflexivity.
Qed.

Lemma read_file_stat r w p q c :
  stat r p = Some (q, File c) ->
  read_file p (mkState r w) = (Ret (Py.universal_newlines c), mkState r w).
Proof. intros H. unfold read_file. mrun. now rewrite H. Qed.

(** The Dockerfile that [make_dockerfile] writes when the fragments are the
    files [raw env] and the template is the file [template]. *)
Definition dockerfile_text (raw : string -> string) (template : string)
    (active_envs : list string) : string :=
  descriptor (fun env => Py.universal_newlines (raw env))
             (Py.universal_newlines template) active_envs.

Lemma make_dockerfile_writes active_envs st raw template es :
  (forall env, In env active_envs ->
     exists q, stat (root st) (docker_env_file env) = Some (q, File (raw env))) ->
  (exists q, stat (root st) (join (path_verification self) DOCKER_MAIN_FILENAME)
             = Some (q, File template)) ->
  lookup (root st) (path_verification self) = Some (Dir es) ->
  (Entries.find "Dockerfile" es = None
   \/ exists old, Entries.find "Dockerfile" es = Some (File old)) ->
  make_dockerfile self active_envs st
  = (Ret tt,
     mkState (put (join (path_verification self) "Dockerfile")
                  (Some (File (dockerfile_text raw template active_envs)))
                  (root st))
             (warnings st)).
Proof.
  intros Hfr [qt Htpl] Hl Hdf. destruct st as [r w]. cbn [root warnings] in *.
  unfold make_dockerfile.
  unfold bind at 1.
  rewrite (envs_docker_run (fun env => Py.universal_newlines (raw env))
             (mkState r w) active_envs)
    by (intros env Hin; destruct (Hfr env Hin) as [q Hq];
        exact (read_file_stat r w _ q _ Hq)).
  unfold bind at 1. rewrite (read_file_stat r w _ qt _ Htpl).
  unfold write_file. mrun.
  destruct Hdf as [Hnone | [old Hold]].
  - now rewrite (resolve_absent r _ "Dockerfile" es Hl Hnone).
  - assert (Hf : lookup r (join (path_verification self) "Dockerfile")
                 = Some (File old)).
    { now rewrite (lookup_child r _ "Dockerfile" es Hl), Hold. }
    now rewrite (resolve_lookup r _ _ Hf I).
Qed.

(** C5, as amended: when the [Dockerenv] of every active environment and
    the root template are regular files, and [verification] is a directory
    in which [Dockerfile] is absent or a regular file, [make_dockerfile]
    returns and the disk differs by the one file [verification/Dockerfile].
    It holds the text of the template with [{{env_instructions}}] replaced
    by the texts of the fragments, each with [{{env}}] replaced by its
    name, joined by newlines in the order of the active environments; the
    text of a file being what text mode reads: its [\r\n] and [\r] are
    [\n]. *)
Theorem make_dockerfile_descriptor :
  forall active_envs st raw template es,
    (forall env, In env active_envs ->
       exists q, stat (root st) (docker_env_file env) = Some (q, File (raw env))) ->
    (exists q, stat (root st) (join (path_verification self) DOCKER_MAIN_FILENAME)
               = Some (q, File template)) ->
    lookup (root st) (path_verification self) = Some (Dir es) ->
    (Entries.find "Dockerfile" es = None
     \/ exists old, Entries.find "Dockerfile" es = Some (File old)) ->
    let text :=
      Py.replace "{{env_instructions}}"
        (Py.join (String "010" "")
           (map (fun env =>
                   Py.replace "{{env}}" env (Py.universal_newlines (raw env)))
                active_envs))
        (Py.universal_newlines template) in
    let st' :=
      mkState (put (join (path_verification self) "Dockerfile")
                   (Some (File text)) (root st))
              (warnings st) in
    make_dockerfile self active_envs st = (Ret tt, st')
    /\ lookup (root st') (join (path_verification self) "Dockerfile")
       = Some (File text).
Proof.
  intros active_envs st raw template es Hfr Htpl Hl Hdf text st'.
  split.
  - exact (make_dockerfile_writes active_envs st raw template es
             Hfr Htpl Hl Hdf).
  - now apply (lookup_put_child _ _ _ _ es).
Qed.

End Descriptor.

Section DescriptorWitness.

Definition docker_disk : state :=
  mkState
    (Dir [("work",
           Dir [("verification",
                 Dir [("Dockertemplate",
                       File "FROM base {{env_instructions}} CMD run");
                      ("Dockerfile", File "stale");
                      ("envs",
                       Dir [("py3", Dir [("Dockerenv", File "RUN {{env}} -m {{env}}")]);
                            ("js", Dir [("Dockerenv", File "ADD {{env}}")])])])])])
    [].

Definition docker_fragment (env : string) : string :=
  if String.eqb env "js" then "ADD {{env}}" else "RUN {{env}} -m {{env}}".

Lemma make_dockerfile_descriptor_witness :
  make_dockerfile (init ["work"]) ["js"; "py3"] docker_disk =
  (Ret tt,
   mkState
     (Dir [("work",
            Dir [("verification",
                  Dir [("Dockertemplate",
                        File "FROM base {{env_instructions}} CMD run");
                       ("Dockerfile",
                        File ("FROM base ADD js" +++ String "010" ""
                              +++ "RUN py3 -m py3 CMD run"));
                       ("envs",
                        Dir [("py3", Dir [("Dockerenv", File "RUN {{env}} -m {{env}}")]);
                             ("js", Dir [("Dockerenv", File "ADD {{env}}")])])])])])
     []).
Proof.
  refine (proj1 (make_dockerfile_descriptor (init ["work"]) ["js"; "py3"]
                   docker_disk docker_fragment
                   "FROM base {{env_instructions}} CMD run"
                   [("Dockertemplate",
                     File "FROM base {{env_instructions}} CMD run");
                    ("Dockerfile", File "stale");
                    ("envs",
                     Dir [("py3", Dir [("Dockerenv", File "RUN {{env}} -m {{env}}")]);
                          ("js", Dir [("Dockerenv", File "ADD {{env}}")])])]
                   _ (ex_intro _ _ eq_refl) eq_refl
                   (or_intror (ex_intro _ "stale" eq_refl)))).
  intros env [<-|[<-|[]]]; eexists; reflexivity.
Defined.

(** A template and a fragment whose lines end in [\r\n]. *)
Definition crlf_docker_disk : state :=
  mkState
    (Dir [("work",
           Dir [("verification",
                 Dir [("Dockertemplate",
                       File ("FROM base" +++ String "013" (String "010"
                               "{{env_instructions}}")));
                      ("envs",
                       Dir [("py3",
                             Dir [("Dockerenv",
                                   File ("RUN {{env}}"
                                         +++ String "013" (String "010" "")))])])])])])
    [].

(** C5, as the claim words it, fails: the Dockerfile is not the template
    with the fragments put in when these files hold a [\r], which text
    mode reads as [\n]. *)
Lemma make_dockerfile_descriptor_literal_fails :
  ~ (forall self active_envs st raw template es,
        (forall env, In env active_envs ->
           exists q, stat (root st) (docker_env_file self env)
                     = Some (q, File (raw env))) ->
        (exists q, stat (root st)
                     (join (path_verification self) DOCKER_MAIN_FILENAME)
                   = Some (q, File template)) ->
        lookup (root st) (path_verification self) = Some (Dir es) ->
        (Entries.find "Dockerfile" es = None
         \/ exists old, Entries.find "Dockerfile" es = Some (File old)) ->
        lookup (root (snd (make_dockerfile self active_envs st)))
               (join (path_verification self) "Dockerfile")
        = Some (File (descriptor raw template active_envs))).
Proof.
  intros H.
  specialize (H (init ["work"]) ["py3"] crlf_docker_disk
                (fun _ => "RUN {{env}}" +++ String "013" (String "010" ""))
                ("FROM base" +++ String "013" (String "010"
                   "{{env_instructions}}"))
                [("Dockertemplate",
                  File ("FROM base" +++ String "013" (String "010"
                          "{{env_instructions}}")));
                 ("envs",
                  Dir [("py3",
                        Dir [("Dockerenv",
                              File ("RUN {{env}}"
                                    +++ String "013" (String "010" "")))])])]).
  assert (Hfr : forall env, In env ["py3"] ->
            exists q, stat (root crlf_docker_disk)
                        (docker_env_file (init ["work"]) env)
                      = Some (q, File ("RUN {{env}}"
                                       +++ String "013" (String "010" "")))).
  { intros env [<-|[]]. eexists. reflexivity. }
  specialize (H Hfr (ex_intro _ _ eq_refl) eq_refl (or_introl eq_refl)).
  vm_compute in H. discriminate H.
Qed.

End DescriptorWitness.

(* ===================================================================== *)
(** * The link overlay: [relink_tree] *)
(* ===================================================================== *)

Section LinkOverlay.
Import FsFacts.

Variable yaml_load : string -> option pyval.

(** The statements of [relink_tree] before its loop: the destination is
    made if it is absent, its configuration read, the source listed. *)
Definition relink_prologue (src dst : path) : M (pyval * list string) :=
  present <- os.path_exists dst ;;
  (if present then ret tt else os.mkdir dst) ;;
  config <- get_folder_config yaml_load dst ;;
  names <- os.listdir src ;;
  ret (config, names).

Lemma relink_tree_unfold fuel src dst st :
  relink_tree yaml_load (S fuel) src dst st =
  match relink_prologue src dst st with
  | (Ret (config, names), st') =>
      for_each names
        (relink_entry (relink_tree yaml_load fuel) config src dst) st'
  | (Raise e, st') => (Raise e, st')
  | (Timeout, st') => (Timeout, st')
  end.
Proof.
  cbn [relink_tree]. unfold relink_prologue, bind.
  destruct (os.path_exists dst st) as [[present| |] st0]; try reflexivity.
  destruct ((if present then ret tt else os.mkdir dst) st0)
    as [[[]| |] st1]; try reflexivity.
  destruct (get_folder_config yaml_load dst st1) as [[config| |] st2];
    try reflexivity.
  destruct (os.listdir src st2) as [[names| |] st3]; reflexivity.
Qed.

(** The loop stops at the first name whose body raises. *)
Lemma for_each_raise {A} (body : A -> M unit) pre x post st st' st'' e :
  for_each pre body st = (Ret tt, st') ->
  body x st' = (Raise e, st'') ->
  for_each (pre ++ x :: post) body st = (Raise e, st'').
Proof.
  revert st. induction pre as [|y pre IH]; intros st Hpre Hx; simpl in *.
  - inversion Hpre; subst. unfold bind. now rewrite Hx.
  - unfold bind in *. destruct (body y st) as [[[]| |] st0]; try discriminate.
    now apply IH.
Qed.

(** The loop goes on after a name whose body returns. *)
Lemma for_each_step {A} (body : A -> M unit) pre x post st st' st'' :
  for_each pre body st = (Ret tt, st') ->
  body x st' = (Ret tt, st'') ->
  for_each (pre ++ x :: post) body st = for_each post body st''.
Proof.
  revert st. induction pre as [|y pre IH]; intros st Hpre Hx; simpl in *.
  - inversion Hpre; subst. unfold bind. now rewrite Hx.
  - unfold bind in *. destruct (body y st) as [[[]| |] st0]; try discriminate.
    now apply IH.
Qed.

(** One of the two is a regular file and the other a directory. *)
Definition kinds_differ (x y : node) : Prop :=
  match x, y with
  | File _, Dir _ | Dir _, File _ => True
  | _, _ => False
  end.

Lemma relink_entry_conflict rec config src dst name st qd xd qs xs :
  Py.in_list name [".git"; ".gitignore"] = false ->
  stat (root st) (join dst name) = Some (qd, xd) ->
  stat (root st) (join src name) = Some (qs, xs) ->
  kinds_differ xd xs ->
  relink_entry rec config src dst name st = (Raise AssertionError, st).
Proof.
  intros Hskip Hd Hs Hk. destruct st as [r w]. simpl in Hd, Hs.
  unfold relink_entry. rewrite Hskip.
  unfold os.path_exists, os.isfile.
  destruct xd, xs; try contradiction;
    repeat (progress (mrun; rewrite ?Hd, ?Hs)); reflexivity.
Qed.

(** C9: when the link overlay of [src] onto [dst] comes to a name (not
    [.git] or [.gitignore]) that is a regular file on one side and a
    directory on the other, it raises [AssertionError] there and does
    nothing more: the disk is as the names before had left it. *)
Theorem relink_tree_structural_conflict :
  forall fuel src dst st config pre name post st1 st2 qd xd qs xs,
    relink_prologue src dst st = (Ret (config, pre ++ name :: post), st1) ->
    for_each pre (relink_entry (relink_tree yaml_load fuel) config src dst) st1
      = (Ret tt, st2) ->
    Py.in_list name [".git"; ".gitignore"] = false ->
    stat (root st2) (join dst name) = Some (qd, xd) ->
    stat (root st2) (join src name) = Some (qs, xs) ->
    kinds_differ xd xs ->
    relink_tree yaml_load (S fuel) src dst st = (Raise AssertionError, st2).
Proof.
  intros fuel src dst st config pre name post st1 st2 qd xd qs xs
         Hpro Hpre Hskip Hd Hs Hk.
  rewrite relink_tree_unfold, Hpro.
  apply (for_each_raise _ pre name post st1 st2 st2 _ Hpre).
  now apply (relink_entry_conflict _ _ _ _ _ _ qd xd qs xs).
Qed.

Lemma relink_prologue_run src dst st config names :
  stat (root st) dst <> None ->
  get_folder_config yaml_load dst st = (Ret config, st) ->
  os.listdir src st = (Ret names, st) ->
  relink_prologue src dst st = (Ret (config, names), st).
Proof.
  intros Hd Hc Hn. unfold relink_prologue.
  unfold bind at 1. unfold os.path_exists, bind at 1, get_root, ret at 1 2.
  destruct (stat (root st) dst); [|contradiction].
  unfold bind at 1, ret at 1. unfold bind at 1. rewrite Hc.
  unfold bind at 1. now rewrite Hn.
Qed.

Lemma get_folder_config_null dst st :
  yaml_load "" = Some PNone ->
  read_file (join dst ".folder") st = (Ret "", st) ->
  get_folder_config yaml_load dst st = (Ret PNone, st).
Proof. intros Hy Hr. unfold get_folder_config. now rewrite Hr, Hy. Qed.

Lemma relink_entry_null_config rec src dst name st qd old qs c :
  Py.in_list name [".git"; ".gitignore"] = false ->
  name <> ".folder" ->
  stat (root st) (join dst name) = Some (qd, File old) ->
  stat (root st) (join src name) = Some (qs, File c) ->
  relink_entry rec PNone src dst name st = (Raise TypeError, st).
Proof.
  intros Hskip Hname Hd Hs. destruct st as [r w]. simpl in Hd, Hs.
  unfold relink_entry. rewrite Hskip.
  unfold os.path_exists, os.isfile, unexpected_replacement.
  destruct (String.eqb_spec name ".folder") as [|_]; [contradiction|].
  repeat (progress (mrun; cbn [Bool.eqb negb py_in]; rewrite ?Hd, ?Hs)).
  reflexivity.
Qed.

(** C10: when the [.folder] of the destination is an empty file, for which
    the YAML parser gives null, [get_folder_config] returns [None], not an
    empty mapping, and the link overlay raises [TypeError] at the first
    name (other than [.folder], [.git], [.gitignore]) that is a regular
    file in both the source and the destination: the file is neither
    replaced nor taken as a conflict. *)
Theorem relink_tree_null_config :
  forall fuel src dst st pre name post st2 qd old qs c,
    yaml_load "" = Some PNone ->
    stat (root st) dst <> None ->
    read_file (join dst ".folder") st = (Ret "", st) ->
    os.listdir src st = (Ret (pre ++ name :: post), st) ->
    for_each pre (relink_entry (relink_tree yaml_load fuel) PNone src dst) st
      = (Ret tt, st2) ->
    Py.in_list name [".git"; ".gitignore"] = false ->
    name <> ".folder" ->
    stat (root st2) (join dst name) = Some (qd, File old) ->
    stat (root st2) (join src name) = Some (qs, File c) ->
    get_folder_config yaml_load dst st = (Ret PNone, st)
    /\ relink_tree yaml_load (S fuel) src dst st = (Raise TypeError, st2).
Proof.
  intros fuel src dst st pre name post st2 qd old qs c
         Hy Hdst Hfolder Hnames Hpre Hskip Hname Hd Hs.
  pose proof (get_folder_config_null dst st Hy Hfolder) as Hcfg.
  split; [exact Hcfg|].
  rewrite relink_tree_unfold.
  rewrite (relink_prologue_run src dst st PNone _ Hdst Hcfg Hnames).
  apply (for_each_raise _ pre name post st st2 st2 _ Hpre).
  now apply (relink_entry_null_config _ _ _ _ _ qd old qs c).
Qed.

(** [name] is not in the [replace] list of the mapping [config]. *)
Definition not_listed (name : string) (config : pyval) : Prop :=
  exists items,
    config = PDict items /\
    match dict_get "replace" items with
    | None => True
    | Some allowed => py_in name allowed = Some false
    end.

(** [name] is in the [replace] of the mapping [config].  The [replace] may
    be a list, a mapping or a plain string; in a string the test is that of
    a substring. *)
Definition listed (name : string) (config : pyval) : Prop :=
  exists items allowed,
    config = PDict items
    /\ dict_get "replace" items = Some allowed
    /\ py_in name allowed = Some true.

Lemma unexpected_replacement_not_listed name config st :
  name <> ".folder" -> not_listed name config ->
  unexpected_replacement name config st = (Ret true, st).
Proof.
  intros Hname (items & -> & H). unfold unexpected_replacement.
  destruct (String.eqb_spec name ".folder") as [|_]; [contradiction|].
  simpl. destruct (dict_get "replace" items) as [allowed|]; [|reflexivity].
  now rewrite H.
Qed.

(** The body of the loop at a regular file of the source whose name is a
    regular file of the destination directory and is not listed. *)
Lemma relink_entry_replaces rec config src dst name r w ds old c :
  Py.in_list name [".git"; ".gitignore"] = false ->
  name <> ".folder" ->
  not_listed name config ->
  lookup r dst = Some (Dir ds) ->
  Entries.find name ds = Some (File old) ->
  lookup r (join src name) = Some (File c) ->
  relink_entry rec config src dst name (mkState r w) =
  (Ret tt,
   mkState (put (join dst name) (Some (Link (join src name)))
                (put (join dst name) None r))
           (w ++ [join dst name])).
Proof.
  intros Hskip Hname Hcfg Hdst Hold Hsrc.
  assert (Hdn : lookup r (join dst name) = Some (File old)).
  { now rewrite (lookup_child r dst name ds Hdst), Hold. }
  pose proof (stat_lookup r _ _ Hdn I) as Hsd.
  pose proof (stat_lookup r _ _ Hsrc I) as Hss.
  pose proof (lookup_put_parent dst name None r ds Hdst) as Hdst1.
  set (r1 := put (dst ++ [name]) None r) in *.
  assert (Hdir : stat r1 (join src name) = None
                 \/ stat r1 (join src name) = Some (join src name, File c)).
  { destruct (list_eq_dec string_dec (join src name) (join dst name)) as [E|E].
    - left. rewrite E. unfold stat.
      now rewrite (resolve_absent r1 dst name _ Hdst1 (find_del_same name ds)).
    - right. apply stat_lookup; [|exact I].
      unfold r1. change (dst ++ [name]) with (join dst name).
      rewrite lookup_put_unrelated; [exact Hsrc|].
      exact (files_unrelated _ _ r c old Hsrc Hdn E). }
  pose proof (entry_lookup r dst name ds Hdst) as He.
  pose proof (entry_lookup r1 dst name _ Hdst1) as He1.
  rewrite Hold in He. rewrite find_del_same in He1.
  unfold relink_entry. rewrite Hskip.
  unfold os.path_exists, os.isfile, os.remove, os.isdir, os.symlink.
  mrun. rewrite Hsd. mrun. rewrite Hsd, Hss. cbn [Bool.eqb]. mrun.
  rewrite Hsd. mrun.
  rewrite (unexpected_replacement_not_listed name config _ Hname Hcfg).
  mrun. rewrite He. mrun. fold r1.
  destruct Hdir as [Hdir|Hdir]; rewrite Hdir; mrun; rewrite He1; reflexivity.
Qed.

(** C8, as amended: the configuration of [dst] is a mapping that has no
    [replace], or whose [replace] is a list, a mapping or a string in which
    the name is not found.  When the link overlay of [src] onto the
    directory [dst] comes to a name that is a regular file in the source
    and in the destination and is not [.folder], a warning about the
    destination path is logged, the entry becomes a symbolic link to the
    source file, and the overlay goes on with the names that follow.  At
    [.git] and [.gitignore] the body of the loop does nothing. *)
Theorem relink_tree_unexpected_replacement :
  forall fuel src dst st config pre name post st1 r w ds old c,
    relink_prologue src dst st = (Ret (config, pre ++ name :: post), st1) ->
    for_each pre (relink_entry (relink_tree yaml_load fuel) config src dst) st1
      = (Ret tt, mkState r w) ->
    Py.in_list name [".git"; ".gitignore"] = false ->
    name <> ".folder" ->
    not_listed name config ->
    lookup r dst = Some (Dir ds) ->
    Entries.find name ds = Some (File old) ->
    lookup r (join src name) = Some (File c) ->
    exists r',
      relink_tree yaml_load (S fuel) src dst st =
        for_each post (relink_entry (relink_tree yaml_load fuel) config src dst)
                 (mkState r' (w ++ [join dst name]))
      /\ lookup r' (join dst name) = Some (Link (join src name))
      /\ (forall rec cfg s d n st0,
             Py.in_list n [".git"; ".gitignore"] = true ->
             relink_entry rec cfg s d n st0 = (Ret tt, st0)).
Proof.
  intros fuel src dst st config pre name post st1 r w ds old c
         Hpro Hpre Hskip Hname Hcfg Hdst Hold Hsrc.
  exists (put (join dst name) (Some (Link (join src name)))
              (put (join dst name) None r)).
  split; [|split].
  - rewrite relink_tree_unfold, Hpro.
    apply (for_each_step _ pre name post st1 _ _ Hpre).
    now apply (relink_entry_replaces _ _ _ _ _ _ _ ds old c).
  - apply (lookup_put_child dst name _ _ (Entries.del name ds)).
    exact (lookup_put_parent dst name None r ds Hdst).
  - intros rec cfg s d n st0 H. unfold relink_entry. now rewrite H.
Qed.

End LinkOverlay.

(* ===================================================================== *)
(** * The copy overlay and the layers of [compile_from_files] *)
(* ===================================================================== *)

Section CopyOverlay.
Import FsFacts.

Definition is_dir (x : node) : bool :=
  match x with Dir _ => true | _ => false end.

Fixpoint distinct (l : list string) : bool :=
  match l with
  | [] => true
  | x :: t => negb (Py.in_list x t) && distinct t
  end.

(** No directory of the tree lists a name twice. *)
Fixpoint well_formed (x : node) : bool :=
  match x with
  | Dir es =>
      distinct (Entries.names es)
      && (fix all (es : list (string * node)) : bool :=
            match es with
            | [] => true
            | (_, c) :: t => well_formed c && all t
            end) es
  | _ => true
  end.

(** The tree has no symbolic link. *)
Fixpoint no_links (x : node) : bool :=
  match x with
  | File _ => true
  | Link _ => false
  | Dir es =>
      (fix all (es : list (string * node)) : bool :=
         match es with
         | [] => true
         | (_, c) :: t => no_links c && all t
         end) es
  end.

Lemma no_links_child es n c :
  no_links (Dir es) = true -> Entries.find n es = Some c -> no_links c = true.
Proof.
  induction es as [|[m x] es IH]; simpl; [discriminate|].
  intros H. apply Bool.andb_true_iff in H. destruct H as [Hx Hes].
  destruct (String.eqb m n); intros E; [now inversion E; subst | now apply IH].
Qed.

(** The loop of [overlay] over the entries of a source directory. *)
Definition overlay_entries
  : list (string * node) -> list (string * node)
    -> option (list (string * node)) :=
  fix merge (es ds : list (string * node)) {struct es} :=
    match es with
    | [] => Some ds
    | (n, x) :: t =>
        match overlay x (Entries.find n ds) with
        | Some y => merge t (Entries.set n y ds)
        | None => None
        end
    end.

Lemma overlay_dir es dst :
  overlay (Dir es) dst =
  match dst with
  | None => option_map Dir (overlay_entries es [])
  | Some (Dir ds) => option_map Dir (overlay_entries es ds)
  | Some _ => None
  end.
Proof. reflexivity. Qed.

Lemma well_formed_child es n c :
  well_formed (Dir es) = true -> Entries.find n es = Some c ->
  well_formed c = true.
Proof.
  intros H. apply Bool.andb_true_iff in H. destruct H as [_ H].
  induction es as [|[m x] es IH]; simpl; [discriminate|].
  apply Bool.andb_true_iff in H. destruct H as [Hx Hes].
  destruct (String.eqb m n); intros E; [now inversion E; subst | now apply IH].
Qed.

Lemma find_not_in n es :
  Py.in_list n (Entries.names es) = false -> Entries.find n es = None.
Proof.
  induction es as [|[m x] es IH]; simpl; [reflexivity|].
  rewrite (String.eqb_sym n m). destruct (String.eqb m n); [discriminate | exact IH].
Qed.

(** What the entries of the merged directory are. *)
Lemma overlay_entries_find n : forall es ds ds',
  overlay_entries es ds = Some ds' ->
  distinct (Entries.names es) = true ->
  match Entries.find n es with
  | Some c => exists y, overlay c (Entries.find n ds) = Some y
                        /\ Entries.find n ds' = Some y
  | None => Entries.find n ds' = Entries.find n ds
  end.
Proof.
  induction es as [|[m x] es IH]; intros ds ds' H Hd; simpl in *.
  - now inversion H.
  - apply Bool.andb_true_iff in Hd. destruct Hd as [Hm Hd].
    apply Bool.negb_true_iff in Hm.
    destruct (overlay x (Entries.find m ds)) as [y|] eqn:E; [|discriminate].
    specialize (IH _ _ H Hd).
    destruct (String.eqb_spec m n) as [->|Hmn].
    + rewrite (find_not_in _ _ Hm) in IH.
      exists y. split; [exact E|]. now rewrite IH, find_set_same.
    + now rewrite (find_set_other m n y ds Hmn) in IH.
Qed.

(** The tree that the overlay of [S] leaves: what [S] has at a path that
    is not a directory is there, and a path that [S] does not have is as
    it was. *)
Lemma overlay_lookup rel : forall S d D',
  well_formed S = true ->
  overlay S d = Some D' ->
  match lookup S rel with
  | Some x => is_dir x = false -> lookup D' rel = Some x
  | None => lookup D' rel = match d with
                            | Some D => lookup D rel
                            | None => None
                            end
  end.
Proof.
  induction rel as [|n rel IH]; intros S d D' Hwf H.
  - simpl. intros HS. destruct S as [c|t|es]; try discriminate;
      simpl in H; destruct d as [[?|?|?]|]; now inversion H.
  - destruct S as [c|t|es].
    + simpl in *. destruct d as [[?|?|?]|]; inversion H; subst; reflexivity.
    + simpl in *. destruct d as [[?|?|?]|]; inversion H; subst; reflexivity.
    + rewrite overlay_dir in H.
      assert (Hent : exists ds ds',
                 overlay_entries es ds = Some ds' /\ D' = Dir ds' /\
                 match d with
                 | Some D => lookup D (n :: rel)
                 | None => None
                 end = match Entries.find n ds with
                       | Some c => lookup c rel
                       | None => None
                       end).
      { destruct d as [[?|?|ds]|]; try discriminate.
        - destruct (overlay_entries es ds) as [ds'|] eqn:E; [|discriminate].
          exists ds, ds'. inversion H. auto.
        - destruct (overlay_entries es []) as [ds'|] eqn:E; [|discriminate].
          exists [], ds'. inversion H. auto. }
      destruct Hent as (ds & ds' & Hm & -> & Hd). rewrite Hd.
      assert (Hdist : distinct (Entries.names es) = true).
      { simpl in Hwf. now apply Bool.andb_true_iff in Hwf. }
      pose proof (overlay_entries_find n es ds ds' Hm Hdist) as Hn.
      cbn [lookup].
      destruct (Entries.find n es) as [c|] eqn:Ec.
      * destruct Hn as (y & Hy & Hfy). rewrite Hfy.
        exact (IH c _ y (well_formed_child es n c Hwf Ec) Hy).
      * now rewrite Hn.
Qed.

(** What the latest of the [layers] that has the path [rel] has there;
    [acc] is the answer of the layers before. *)
Fixpoint last_defining (layers : list node) (rel : path) (acc : option node)
  : option node :=
  match layers with
  | [] => acc
  | L :: rest =>
      last_defining rest rel
        (match lookup L rel with Some x => Some x | None => acc end)
  end.

(** The layers laid one after the other over [W]. *)
Fixpoint overlay_all (layers : list node) (W : node) : option node :=
  match layers with
  | [] => Some W
  | L :: rest =>
      match overlay L (Some W) with
      | Some W' => overlay_all rest W'
      | None => None
      end
  end.

Lemma overlay_all_last layers : forall W W' (acc : path -> option node),
  Forall (fun L => well_formed L = true) layers ->
  overlay_all layers W = Some W' ->
  (forall rel x, acc rel = Some x -> is_dir x = false -> lookup W rel = Some x) ->
  forall rel x,
    last_defining layers rel (acc rel) = Some x -> is_dir x = false ->
    lookup W' rel = Some x.
Proof.
  induction layers as [|L rest IH]; intros W W' acc Hwf H Hacc rel x Hl Hx.
  - simpl in *. inversion H; subst. now apply Hacc.
  - simpl in H. destruct (overlay L (Some W)) as [W1|] eqn:E; [|discriminate].
    inversion Hwf as [|? ? HL Hrest]; subst.
    apply (IH W1 W' (fun rel => match lookup L rel with
                                | Some x => Some x
                                | None => acc rel
                                end) Hrest H); [|exact Hl|exact Hx].
    intros rel' x' Ha Hx'.
    pose proof (overlay_lookup rel' L (Some W) W1 HL E) as Hov.
    destruct (lookup L rel') as [y|].
    + inversion Ha; subst. now apply Hov.
    + rewrite Hov. now apply Hacc.
Qed.

End CopyOverlay.

Section Layers.
Import FsFacts.

Variable yaml_load : string -> option pyval.
Variable self : compiler.

Lemma overlay_onto_dir S ws W :
  is_dir S = true -> overlay S (Some (Dir ws)) = Some W -> exists ws', W = Dir ws'.
Proof.
  destruct S as [c|t|es]; try discriminate. intros _ H.
  rewrite overlay_dir in H.
  destruct (overlay_entries es ws) as [ws'|]; [|discriminate].
  inversion H. eauto.
Qed.

Lemma recursive_overwrite_run src dst r w S D :
  lookup r src = Some S -> not_link S ->
  lookup r dst = Some D -> not_link D ->
  recursive_overwrite src dst (mkState r w) =
  match overlay S (Some D) with
  | Some x => (Ret tt, mkState (put dst (Some x) r) w)
  | None => (Raise StructuralConflict, mkState r w)
  end.
Proof.
  intros HS HnS HD HnD. unfold recursive_overwrite. mrun.
  rewrite (stat_lookup r src S HS HnS), (resolve_lookup r dst D HD HnD).
  now destruct (overlay S (Some D)).
Qed.

Lemma rmtree_run p r w es :
  p <> [] -> lookup r p = Some (Dir es) ->
  shutil.rmtree p (mkState r w) = (Ret tt, mkState (put p None r) w).
Proof.
  intros Hp Hl. destruct (exists_last Hp) as (d & n & ->).
  rewrite lookup_app in Hl.
  destruct (lookup r d) as [[c|t|ed]|] eqn:Hd; try discriminate.
  simpl in Hl. destruct (Entries.find n ed) as [x|] eqn:Hn; [|discriminate].
  inversion Hl; subst.
  unfold shutil.rmtree. mrun.
  change (d ++ [n]) with (join d n).
  now rewrite (entry_lookup r d n ed Hd), Hn.
Qed.

Lemma unrelated_nonempty p q : unrelated p q = true -> p <> [].
Proof. now destruct p. Qed.

(** The loop of [compile_from_files] over the fetched snapshots. *)
Definition apply_snapshot (repository_path : path) : M unit :=
  recursive_overwrite repository_path (working_path self) ;;
  shutil.rmtree repository_path.

Lemma apply_snapshots_run (tree : path -> node) : forall layers r w ws st',
  lookup r (working_path self) = Some (Dir ws) ->
  Forall (fun p => lookup r p = Some (tree p) /\ is_dir (tree p) = true
                   /\ unrelated p (working_path self) = true) layers ->
  ForallOrdPairs (fun p q => unrelated p q = true) layers ->
  for_each layers apply_snapshot (mkState r w) = (Ret tt, st') ->
  exists ws',
    overlay_all (map tree layers) (Dir ws) = Some (Dir ws')
    /\ warnings st' = w
    /\ lookup (root st') (working_path self) = Some (Dir ws')
    /\ forall q, unrelated q (working_path self) = true ->
                 Forall (fun p => unrelated q p = true) layers ->
                 lookup (root st') q = lookup r q.
Proof.
  induction layers as [|p layers IH]; intros r w ws st' Hw Hl Hsep Hrun.
  - simpl in *. inversion Hrun; subst. exists ws. simpl. auto.
  - inversion Hl as [|? ? (Hp & Hdir & Hpw) Hrest]; subst.
    inversion Hsep as [|? ? Hp_others Hsep']; subst.
    simpl in Hrun.
    unfold bind at 1, apply_snapshot at 1, bind at 1 in Hrun.
    assert (Hnl : not_link (tree p))
      by (destruct (tree p); [discriminate | discriminate | exact I]).
    rewrite (recursive_overwrite_run p (working_path self) r w (tree p) (Dir ws)
               Hp Hnl Hw I) in Hrun.
    cbn [map overlay_all].
    destruct (overlay (tree p) (Some (Dir ws))) as [W1|] eqn:E; [|discriminate].
    destruct (overlay_onto_dir _ _ _ Hdir E) as [ws1 ->].
    assert (Hp1 : lookup (put (working_path self) (Some (Dir ws1)) r) p
                  = Some (tree p)).
    { now rewrite lookup_put_unrelated. }
    destruct (tree p) as [c|t|es] eqn:Et; try discriminate.
    rewrite (rmtree_run p _ w es (unrelated_nonempty _ _ Hpw) Hp1) in Hrun.
    set (r2 := put p None (put (working_path self) (Some (Dir ws1)) r)) in *.
    assert (Hw2 : lookup r2 (working_path self) = Some (Dir ws1)).
    { unfold r2. rewrite lookup_put_unrelated by now rewrite unrelated_sym.
      now apply (lookup_put_self _ _ _ (Dir ws)). }
    assert (Hl2 : Forall (fun p0 => lookup r2 p0 = Some (tree p0)
                                    /\ is_dir (tree p0) = true
                                    /\ unrelated p0 (working_path self) = true)
                         layers).
    { rewrite Forall_forall in *. intros p0 Hin.
      destruct (Hrest p0 Hin) as (H1 & H2 & H3). split; [|auto].
      unfold r2. rewrite lookup_put_unrelated
        by (rewrite unrelated_sym; now apply Hp_others).
      now rewrite lookup_put_unrelated. }
    destruct (IH r2 w ws1 st' Hw2 Hl2 Hsep' Hrun) as (ws' & Hov & Hw' & HW' & Hfr).
    exists ws'. repeat split; auto.
    intros q Hq Hqs. inversion Hqs as [|? ? Hqp Hqrest]; subst.
    rewrite (Hfr q Hq Hqrest). unfold r2.
    now rewrite !lookup_put_unrelated.
Qed.

Lemma overlay_all_app l1 : forall l2 W,
  overlay_all (l1 ++ l2) W =
  match overlay_all l1 W with
  | Some W1 => overlay_all l2 W1
  | None => None
  end.
Proof.
  induction l1 as [|L l1 IH]; intros l2 W; simpl; [reflexivity|].
  destruct (overlay L (Some W)); [apply IH | reflexivity].
Qed.

Lemma ordered_pairs_snoc {A} (R : A -> A -> Prop) l x :
  ForallOrdPairs R (l ++ [x]) ->
  ForallOrdPairs R l /\ Forall (fun p => R p x) l.
Proof.
  induction l as [|a l IH]; simpl; intros H.
  - split; constructor.
  - inversion H as [|? ? Ha Hl]; subst. destruct (IH Hl) as [H1 H2].
    rewrite Forall_app in Ha. destruct Ha as [Ha Hax].
    split; constructor; auto. now inversion Hax.
Qed.

(** What [compile_from_files] does once the layers are laid. *)
Definition finish (self : compiler) : M path :=
  active_envs <- get_active_envs self ;;
  filter_envs self active_envs ;;
  make_dockerfile self active_envs ;;
  ret (path_verification self).

(** C1: [compile_from_files], in copy mode, lays the fetched snapshots over
    the working directory in the reverse of the order in which
    [download_base_repositories] found them, then the leaf source; when the
    layering returns, the working directory has at every path the file
    (or link) of the latest layer of [rev chain ++ [source_path]] that has
    the path, and it is from that state that the environments are
    filtered and the Dockerfile made. *)
Theorem compile_from_files_latest_layer :
  forall remote fuel source_path st chain st1 st2 (tree : path -> node) ws,
    let layers := rev chain ++ [source_path] in
    download_base_repositories remote fuel source_path st = (Ret chain, st1) ->
    lookup (root st1) (working_path self) = Some (Dir ws) ->
    (forall p, In p layers ->
               lookup (root st1) p = Some (tree p)
               /\ is_dir (tree p) = true
               /\ well_formed (tree p) = true
               /\ unrelated p (working_path self) = true) ->
    ForallOrdPairs (fun p q => unrelated p q = true) layers ->
    merge_layers yaml_load fuel self chain source_path false st1 = (Ret tt, st2) ->
    compile_from_files yaml_load remote fuel self source_path false st
      = finish self st2
    /\ forall rel x,
         last_defining (map tree layers) rel None = Some x ->
         is_dir x = false ->
         lookup (root st2) (working_path self ++ rel) = Some x.
Proof.
  intros remote fuel source_path st chain st1 st2 tree ws layers
         Hdl Hw Hlayers Hsep Hmerge.
  split.
  - unfold compile_from_files. unfold bind at 1. rewrite Hdl.
    unfold bind at 1. rewrite Hmerge. reflexivity.
  - destruct st1 as [r w]. simpl in Hw, Hlayers.
    unfold merge_layers in Hmerge. unfold bind at 1 in Hmerge.
    change (fun repository_path : path =>
              recursive_overwrite repository_path (working_path self) ;;
              shutil.rmtree repository_path)
      with apply_snapshot in Hmerge.
    destruct (for_each (rev chain) apply_snapshot (mkState r w))
      as [[[]| |] st_mid] eqn:Hloop; try discriminate.
    destruct (ordered_pairs_snoc _ _ _ Hsep) as [Hsep1 Hsep2].
    assert (Hl1 : Forall (fun p => lookup r p = Some (tree p)
                                   /\ is_dir (tree p) = true
                                   /\ unrelated p (working_path self) = true)
                         (rev chain)).
    { rewrite Forall_forall. intros p Hin.
      destruct (Hlayers p) as (H1 & H2 & H3 & H4); [|auto].
      unfold layers. rewrite in_app_iff. now left. }
    destruct (apply_snapshots_run tree (rev chain) r w ws st_mid Hw Hl1 Hsep1 Hloop)
      as (ws' & Hov & Hwarn & Hwmid & Hfr).
    destruct (Hlayers source_path) as (Hs1 & Hs2 & Hs3 & Hs4).
    { unfold layers. rewrite in_app_iff. right. now left. }
    assert (Hsmid : lookup (root st_mid) source_path = Some (tree source_path)).
    { rewrite Hfr; [exact Hs1 | exact Hs4 |].
      rewrite Forall_forall in *. intros p Hin.
      rewrite unrelated_sym. now apply Hsep2. }
    unfold copy_user_files in Hmerge. destruct st_mid as [rm wm].
    simpl in Hwmid, Hsmid.
    assert (Hnl : not_link (tree source_path))
      by (destruct (tree source_path); [discriminate | discriminate | exact I]).
    rewrite (recursive_overwrite_run source_path (working_path self) rm wm
               (tree source_path) (Dir ws') Hsmid Hnl Hwmid I) in Hmerge.
    destruct (overlay (tree source_path) (Some (Dir ws'))) as [Wf|] eqn:E;
      [|discriminate].
    inversion Hmerge; subst st2. simpl root.
    intros rel x Hlast Hx.
    rewrite lookup_app, (lookup_put_self _ _ _ (Dir ws') Hwmid).
    apply (overlay_all_last (map tree layers) (Dir ws) Wf (fun _ => None));
      auto.
    + rewrite Forall_forall. intros L HL. apply in_map_iff in HL.
      destruct HL as (p & <- & Hin). now destruct (Hlayers p Hin) as (_ & _ & ? & _).
    + unfold layers. rewrite map_app, overlay_all_app, Hov. simpl. now rewrite E.
    + discriminate.
Qed.

End Layers.

(* ===================================================================== *)
(** * A mission, its ancestor and runs of the compiler *)
(* ===================================================================== *)

Section Runs.
Import FsFacts.

(** A parser that knows two texts: the empty one, which is null, and a
    mapping that allows [run.py] to be replaced. *)
Definition sample_yaml (text : string) : option pyval :=
  if String.eqb text "" then Some PNone
  else if String.eqb text "replace: [run.py]"
       then Some (PDict [("replace", PList [PStr "run.py"])])
       else None.

(** One repository can be fetched: [base], whose [master] is its default
    branch. *)
Definition sample_remote (u : string) (b : option string)
  : option (list (string * node)) :=
  if String.eqb u "base"
  then Some [("run.py", File "base run");
             ("lib.py", File "base lib");
             ("initial", Dir [("py3", Dir [("task.py", File "base task")])])]
  else None.

Definition leaf_tree (schema : string) : node :=
  Dir [("schema", File schema);
       ("run.py", File "leaf run");
       ("initial", Dir [("py3", Dir [("task.py", File "leaf task")])])].

Definition sample_disk (schema : string) : state :=
  mkState (Dir [("tmp", Dir []);
                ("src", leaf_tree schema);
                ("work", Dir [])])
          [].

Definition fetched_disk : state :=
  snd (download_base_repositories sample_remote 5 ["src"]
         (sample_disk "mission;base@master")).

Definition sample_tree (p : path) : node :=
  if list_eq_dec string_dec p ["src"]
  then leaf_tree "mission;base@master"
  else Dir [("run.py", File "base run");
            ("lib.py", File "base lib");
            ("initial", Dir [("py3", Dir [("task.py", File "base task")])])].

Lemma compile_from_files_latest_layer_witness :
  lookup (root (snd (merge_layers sample_yaml 5 (init ["work"])
                       [["tmp"; "tmp"]] ["src"] false fetched_disk)))
         ["work"; "initial"; "py3"; "task.py"]
  = Some (File "leaf task")
  /\ lookup (root (snd (merge_layers sample_yaml 5 (init ["work"])
                          [["tmp"; "tmp"]] ["src"] false fetched_disk)))
            ["work"; "lib.py"]
     = Some (File "base lib").
Proof.
  refine (let H := proj2 (compile_from_files_latest_layer sample_yaml
                            (init ["work"]) sample_remote 5 ["src"]
                            (sample_disk "mission;base@master")
                            [["tmp"; "tmp"]] fetched_disk
                            (snd (merge_layers sample_yaml 5 (init ["work"])
                                    [["tmp"; "tmp"]] ["src"] false fetched_disk))
                            sample_tree [] eq_refl eq_refl _ _ eq_refl) in
          conj (H ["initial"; "py3"; "task.py"] (File "leaf task")
                  eq_refl eq_refl)
               (H ["lib.py"] (File "base lib") eq_refl eq_refl)).
  - intros p Hin. simpl in Hin.
    destruct Hin as [<-|[<-|[]]]; repeat split; reflexivity.
  - repeat constructor.
Defined.

(** C4 fails on the code: the leaf names a repository that cannot be
    fetched.  [download_base_repositories] has made the temporary
    directory for the snapshot when [git_pull] raises, and nothing deletes
    it: it is on the disk when [compile_from_files] has raised. *)
Theorem compile_from_files_leaks_snapshot :
  let st := sample_disk "mission;unreachable" in
  exists st',
    compile_from_files sample_yaml sample_remote 5 (init ["work"]) ["src"] false st
      = (Raise Exception, st')
    /\ lookup (root st) ["tmp"; "tmp"] = None
    /\ lookup (root st') ["tmp"; "tmp"] = Some (Dir []).
Proof. eexists. split; [vm_compute; reflexivity | split; reflexivity]. Qed.

(** The same on a later failure: the ancestor is fetched and its own
    schema is an empty file. *)
Definition broken_remote (u : string) (b : option string)
  : option (list (string * node)) :=
  if String.eqb u "base" then Some [("schema", File "")] else None.

Lemma compile_from_files_leaks_fetched_snapshot :
  let st := sample_disk "mission;base" in
  exists st',
    compile_from_files sample_yaml broken_remote 5 (init ["work"]) ["src"] false st
      = (Raise (MissionFilesException "Schema file is empty"), st')
    /\ lookup (root st') ["tmp"; "tmp"] = Some (Dir [("schema", File "")]).
Proof. eexists. split; [vm_compute; reflexivity | reflexivity]. Qed.

(** On the same input [compile_from_git] does delete the temporary
    directory of the leaf, which it guards with [try]/[finally]. *)
Lemma compile_from_git_deletes_leaf :
  let st := sample_disk "mission;base" in
  exists st',
    compile_from_git sample_yaml sample_remote 5 (init ["work"])
      (mkRepository "unreachable" None) st = (Raise Exception, st')
    /\ lookup (root st') ["tmp"] = Some (Dir []).
Proof. eexists. split; [vm_compute; reflexivity | reflexivity]. Qed.

Definition overlay_disk (folder : list (string * node)) (entry : node) : state :=
  mkState (Dir [("src", Dir [(".git", Dir []); ("run.py", File "leaf run")]);
                ("work", Dir (folder ++ [(".git", File "gitdir: x");
                                         ("run.py", entry)]))])
          [].

Lemma relink_tree_structural_conflict_witness :
  relink_tree sample_yaml 3 ["src"] ["work"] (overlay_disk [] (Dir []))
  = (Raise AssertionError, overlay_disk [] (Dir [])).
Proof.
  apply (relink_tree_structural_conflict sample_yaml 2 ["src"] ["work"]
           (overlay_disk [] (Dir [])) (PDict []) [".git"] "run.py" []
           (overlay_disk [] (Dir [])) (overlay_disk [] (Dir []))
           ["work"; "run.py"] (Dir []) ["src"; "run.py"] (File "leaf run"));
    reflexivity.
Defined.

Lemma relink_tree_null_config_witness :
  get_folder_config sample_yaml ["work"]
    (overlay_disk [(".folder", File "")] (File "base run"))
  = (Ret PNone, overlay_disk [(".folder", File "")] (File "base run"))
  /\ relink_tree sample_yaml 3 ["src"] ["work"]
       (overlay_disk [(".folder", File "")] (File "base run"))
     = (Raise TypeError, overlay_disk [(".folder", File "")] (File "base run")).
Proof.
  apply (relink_tree_null_config sample_yaml 2 ["src"] ["work"]
           (overlay_disk [(".folder", File "")] (File "base run"))
           [".git"] "run.py" []
           (overlay_disk [(".folder", File "")] (File "base run"))
           ["work"; "run.py"] "base run" ["src"; "run.py"] "leaf run");
    try reflexivity.
  - discriminate.
  - discriminate.
Defined.

Lemma relink_tree_unexpected_replacement_witness :
  exists r',
    relink_tree sample_yaml 3 ["src"] ["work"] (overlay_disk [] (File "base run"))
    = for_each [] (relink_entry (relink_tree sample_yaml 2) (PDict [])
                     ["src"] ["work"])
               (mkState r' ([] ++ [["work"; "run.py"]]))
    /\ lookup r' ["work"; "run.py"] = Some (Link ["src"; "run.py"])
    /\ (forall rec cfg s d n st0,
           Py.in_list n [".git"; ".gitignore"] = true ->
           relink_entry rec cfg s d n st0 = (Ret tt, st0)).
Proof.
  apply (relink_tree_unexpected_replacement sample_yaml 2 ["src"] ["work"]
           (overlay_disk [] (File "base run")) (PDict []) [".git"] "run.py" []
           (overlay_disk [] (File "base run"))
           (root (overlay_disk [] (File "base run"))) []
           [(".git", File "gitdir: x"); ("run.py", File "base run")]
           "base run" "leaf run");
    try reflexivity.
  - discriminate.
  - exists []. split; [reflexivity | exact I].
Defined.

(** C8, as the claim words it, fails: it asks only that the name be not
    listed in the [replace] of the configuration.  With an empty [.folder]
    the configuration is null and lists nothing, and the overlay raises
    [TypeError] at the name: nothing is logged and nothing is linked. *)
Lemma relink_tree_unexpected_replacement_literal_fails :
  ~ (forall yaml_load fuel src dst st config pre name post st1 r w ds old c,
        relink_prologue yaml_load src dst st
          = (Ret (config, pre ++ name :: post), st1) ->
        for_each pre
          (relink_entry (relink_tree yaml_load fuel) config src dst) st1
          = (Ret tt, mkState r w) ->
        Py.in_list name [".git"; ".gitignore"] = false ->
        name <> ".folder" ->
        ~ listed name config ->
        lookup r dst = Some (Dir ds) ->
        Entries.find name ds = Some (File old) ->
        lookup r (join src name) = Some (File c) ->
        exists r',
          relink_tree yaml_load (S fuel) src dst st =
            for_each post
              (relink_entry (relink_tree yaml_load fuel) config src dst)
              (mkState r' (w ++ [join dst name]))
          /\ lookup r' (join dst name) = Some (Link (join src name))).
Proof.
  intros H.
  destruct (H sample_yaml 2 ["src"] ["work"]
              (overlay_disk [(".folder", File "")] (File "base run"))
              PNone [".git"] "run.py" []
              (overlay_disk [(".folder", File "")] (File "base run"))
              (root (overlay_disk [(".folder", File "")] (File "base run")))
              []
              [(".folder", File ""); (".git", File "gitdir: x");
               ("run.py", File "base run")]
              "base run" "leaf run")
    as (r' & Hrun & _); try reflexivity.
  - discriminate.
  - intros (items & allowed & E & _). discriminate E.
  - vm_compute in Hrun. discriminate Hrun.
Qed.

End Runs.

(* ===================================================================== *)
(** * The link overlay stays in the destination *)
(* ===================================================================== *)

Section LinkOverlayFrame.
Import FsFacts.

Lemma unrelated_app_r t : forall d x,
  unrelated t d = true -> unrelated t (d ++ x) = true.
Proof.
  induction t as [|a t IH]; intros [|b d] x H; simpl in *; try discriminate.
  destruct (String.eqb a b); [now apply IH | reflexivity].
Qed.

Lemma unrelated_app_l t d x :
  unrelated t d = true -> unrelated (t ++ x) d = true.
Proof.
  intros H. rewrite unrelated_sym. apply unrelated_app_r.
  now rewrite unrelated_sym.
Qed.

Lemma unrelated_siblings (d : path) n m :
  n <> m -> unrelated (d ++ [n]) (d ++ [m]) = true.
Proof.
  intros H. induction d as [|a d IH]; simpl.
  - now destruct (String.eqb_spec n m).
  - now rewrite String.eqb_refl.
Qed.

(** A link in the last place is followed. *)
Lemma walk_link r k p : forall acc cur t,
  lookup cur p = Some (Link t) ->
  walk r (S k) acc cur p = walk r k [] r t.
Proof.
  induction p as [|n p IH]; intros acc cur t Hl; simpl in Hl.
  - inversion Hl; subst. simpl. now rewrite app_nil_r.
  - destruct cur as [c|t'|es]; try discriminate.
    destruct (Entries.find n es) as [c|] eqn:E; [|discriminate].
    rewrite <- (IH (acc ++ [n]) c t Hl). simpl. now rewrite E.
Qed.

Lemma stat_link r p t c :
  lookup r p = Some (Link t) -> lookup r t = Some (File c) ->
  stat r p = Some (t, File c).
Proof.
  intros Hp Ht. unfold stat, resolve, MAXSYMLINKS.
  rewrite (walk_link r _ p [] r t Hp).
  now rewrite (walk_lookup r _ t [] r (File c) Ht I).
Qed.

Lemma stat_absent r d n es :
  lookup r d = Some (Dir es) -> Entries.find n es = None ->
  stat r (join d n) = None.
Proof.
  intros Hd Hn. unfold stat. now rewrite (resolve_absent r d n es Hd Hn).
Qed.

Lemma put_entry_same r d n es :
  lookup r d = Some (Dir es) -> put (d ++ [n]) (Entries.find n es) r = r.
Proof.
  intros Hd. rewrite (put_child d n _ r es Hd).
  destruct (Entries.find n es) as [x|] eqn:E.
  - now rewrite (set_same _ _ _ E), (put_same _ _ _ Hd).
  - rewrite del_absent by now apply find_names.
    now rewrite (put_same _ _ _ Hd).
Qed.

(** [get_folder_config] only reads. *)
Lemma get_folder_config_state yaml_load d st :
  snd (get_folder_config yaml_load d st) = st.
Proof.
  unfold get_folder_config, read_file. destruct st as [r w]. mrun.
  destruct (stat r (join d ".folder")) as [[q [c|t|es]]|]; try reflexivity.
  now destruct (yaml_load (Py.universal_newlines c)).
Qed.

Lemma unexpected_replacement_state name config st :
  snd (unexpected_replacement name config st) = st.
Proof.
  unfold unexpected_replacement.
  destruct (negb (String.eqb name ".folder")); [|reflexivity].
  destruct (py_in "replace" config) as [[|]|]; try reflexivity.
  destruct (py_getitem config "replace") as [allowed|]; [|reflexivity].
  now destruct (py_in name allowed).
Qed.

Variable d0 : path.

(** Every link of the tree [x] leads to a regular file that lies outside
    the destination [d0]. *)
Definition links_ok (r x : node) : Prop :=
  forall q t, lookup x q = Some (Link t) ->
    unrelated t d0 = true /\ exists c, lookup r t = Some (File c).

Definition link_free (x : node) : Prop :=
  forall q t, lookup x q <> Some (Link t).

Lemma links_ok_put r x rel v :
  links_ok r x <-> links_ok (put (d0 ++ rel) v r) x.
Proof.
  split; intros H q t Hq; destruct (H q t Hq) as [Hu [c Hc]];
    (split; [exact Hu|]); exists c.
  - rewrite lookup_put_unrelated; [exact Hc | now apply unrelated_app_r].
  - rewrite lookup_put_unrelated in Hc; [exact Hc | now apply unrelated_app_r].
Qed.

Lemma links_ok_child r es n x :
  links_ok r (Dir es) -> Entries.find n es = Some x -> links_ok r x.
Proof.
  intros H Hn q t Hq. apply (H (n :: q) t). simpl. now rewrite Hn.
Qed.

Lemma links_ok_set r es n x :
  links_ok r (Dir es) -> links_ok r x -> links_ok r (Dir (Entries.set n x es)).
Proof.
  intros Hes Hx [|m q] t Hq; [discriminate|]. simpl in Hq.
  destruct (String.eqb_spec n m) as [<-|Hnm].
  - rewrite find_set_same in Hq. now apply (Hx q t).
  - rewrite find_set_other in Hq by exact Hnm. now apply (Hes (m :: q) t).
Qed.

Lemma links_ok_del r es n :
  links_ok r (Dir es) -> links_ok r (Dir (Entries.del n es)).
Proof.
  intros Hes [|m q] t Hq; [discriminate|]. simpl in Hq.
  destruct (String.eqb_spec n m) as [<-|Hnm].
  - now rewrite find_del_same in Hq.
  - rewrite find_del_other in Hq by exact Hnm. now apply (Hes (m :: q) t).
Qed.

Lemma links_ok_empty r : links_ok r (Dir []).
Proof. intros [|m q] t Hq; discriminate. Qed.

Lemma link_free_child es n x :
  link_free (Dir es) -> Entries.find n es = Some x -> link_free x.
Proof.
  intros H Hn q t Hq. apply (H (n :: q) t). simpl. now rewrite Hn.
Qed.

Lemma no_links_sound x : no_links x = true -> link_free x.
Proof.
  intros H q. revert x H.
  induction q as [|n q IH]; intros x H t Hq; simpl in Hq.
  - inversion Hq; subst. discriminate.
  - destruct x as [c|t'|es]; try discriminate.
    destruct (Entries.find n es) as [c|] eqn:E; [|discriminate].
    exact (IH c (no_links_child es n c H E) t Hq).
Qed.

Lemma link_free_links_ok r x : link_free x -> links_ok r x.
Proof. intros H q t Hq. now destruct (H q t). Qed.

Lemma link_free_not_link x : link_free x -> not_link x.
Proof. intros H. destruct x; simpl; auto. now apply (H [] target). Qed.

Variable yaml_load : string -> option pyval.

(** The depth of the directories of a tree. *)
Fixpoint depth (x : node) : nat :=
  match x with
  | Dir es =>
      S ((fix deepest (es : list (string * node)) : nat :=
            match es with
            | [] => 0
            | (_, c) :: t => Nat.max (depth c) (deepest t)
            end) es)
  | _ => 0
  end.

(** No component of the path is [.git] or [.gitignore]. *)
Fixpoint clean (rel : path) : bool :=
  match rel with
  | [] => true
  | n :: t => negb (Py.in_list n [".git"; ".gitignore"]) && clean t
  end.

(** The tree [x] mirrors the tree [S], which lies at [s]: where [S] has a
    regular file, [x] has a link to it, and where [S] has a directory, [x]
    has a directory; [.git] and [.gitignore] apart. *)
Definition linked (s : path) (S x : node) : Prop :=
  forall rel c, lookup S rel = Some c -> clean rel = true ->
    match c with
    | File _ => lookup x rel = Some (Link (s ++ rel))
    | Dir _ => exists es, lookup x rel = Some (Dir es)
    | Link _ => True
    end.

Lemma depth_child es n c :
  Entries.find n es = Some c -> depth c < depth (Dir es).
Proof.
  induction es as [|[m x] es IH]; [discriminate|].
  cbn [Entries.find]. destruct (String.eqb m n); intros H.
  - inversion H; subst. simpl. lia.
  - specialize (IH H). simpl in IH |- *. lia.
Qed.

Lemma linked_file s c : linked s (File c) (Link s).
Proof.
  intros [|m rel] x H _; simpl in H; [|discriminate].
  inversion H; subst. simpl. now rewrite app_nil_r.
Qed.

Lemma linked_dir s ss es' :
  (forall m c, In m (Entries.names ss) ->
               Py.in_list m [".git"; ".gitignore"] = false ->
               Entries.find m ss = Some c ->
               exists x, Entries.find m es' = Some x /\ linked (join s m) c x) ->
  linked s (Dir ss) (Dir es').
Proof.
  intros H [|m rel] c Hl Hc.
  - simpl in Hl. inversion Hl; subst. now exists es'.
  - cbn [lookup clean] in Hl, Hc. apply Bool.andb_true_iff in Hc.
    destruct Hc as [Hm Hrel]. apply Bool.negb_true_iff in Hm.
    destruct (Entries.find m ss) as [cm|] eqn:E; [|discriminate].
    destruct (H m cm) as (x & Hx & Hlinked); auto.
    { destruct (in_dec string_dec m (Entries.names ss)) as [Hin|Hin]; auto.
      apply find_names in Hin. congruence. }
    specialize (Hlinked rel c Hl Hrel). cbn [lookup]. rewrite Hx.
    unfold join in Hlinked. rewrite <- app_assoc in Hlinked. exact Hlinked.
Qed.

Lemma get_folder_config_outcome d st :
  fst (get_folder_config yaml_load d st) <> Timeout.
Proof.
  unfold get_folder_config, read_file. destruct st as [r w]. mrun.
  destruct (stat r (join d ".folder")) as [[q [c|t|es]]|]; try discriminate.
  destruct (yaml_load (Py.universal_newlines c)); discriminate.
Qed.

Lemma unexpected_replacement_outcome name config st :
  fst (unexpected_replacement name config st) <> Timeout.
Proof.
  unfold unexpected_replacement.
  destruct (negb (String.eqb name ".folder")); [|discriminate].
  destruct (py_in "replace" config) as [[|]|]; try discriminate.
  destruct (py_getitem config "replace") as [allowed|]; [|discriminate].
  destruct (py_in name allowed); discriminate.
Qed.

(** The body of the loop at a name that is a regular file in the source
    and a regular file, or a link to one, in the destination: it raises
    before it changes the disk, or it returns and the entry has become a
    link. *)
Lemma relink_entry_file_frame rec config s d n r w es xd q c cs o st' :
  Py.in_list n [".git"; ".gitignore"] = false ->
  lookup r d = Some (Dir es) ->
  Entries.find n es = Some xd -> is_dir xd = false ->
  stat r (join d n) = Some (q, File c) ->
  lookup r (join s n) = Some (File cs) ->
  unrelated (join s n) (join d n) = true ->
  relink_entry rec config s d n (mkState r w) = (o, st') ->
  (o <> Ret tt /\ o <> Timeout /\ st' = mkState r w)
  \/ (o = Ret tt
      /\ exists ws,
           st' = mkState
                   (put d (Some (Dir (Entries.set n (Link (join s n))
                                                  (Entries.del n es)))) r)
                   (w ++ ws)).
Proof.
  intros Hskip Hd Hn Hxd Hsd Hs Hun Hrun.
  pose proof (stat_lookup r _ _ Hs I) as Hss.
  pose proof (lookup_put_parent d n None r es Hd) as Hd1.
  set (r1 := put (d ++ [n]) None r) in *.
  assert (Hss1 : stat r1 (join s n) = Some (join s n, File cs)).
  { apply stat_lookup; [|exact I]. unfold r1.
    change (d ++ [n]) with (join d n). now rewrite lookup_put_unrelated. }
  pose proof (entry_lookup r d n es Hd) as He. rewrite Hn in He.
  pose proof (entry_lookup r1 d n _ Hd1) as He1. rewrite find_del_same in He1.
  assert (Hr2 : put (d ++ [n]) (Some (Link (join s n))) r1
                = put d (Some (Dir (Entries.set n (Link (join s n))
                                                (Entries.del n es)))) r).
  { rewrite (put_child d n _ r1 _ Hd1). unfold r1.
    rewrite (put_child d n None r es Hd). now rewrite put_put. }
  unfold relink_entry in Hrun. rewrite Hskip in Hrun.
  unfold os.path_exists, os.isfile, os.remove, os.isdir, os.symlink in Hrun.
  mrun_in Hrun. rewrite Hsd in Hrun. mrun_in Hrun.
  rewrite Hsd, Hss in Hrun. cbn [Bool.eqb] in Hrun. mrun_in Hrun.
  rewrite Hsd in Hrun. mrun_in Hrun.
  pose proof (unexpected_replacement_state n config (mkState r w)) as Hst.
  pose proof (unexpected_replacement_outcome n config (mkState r w)) as Hto.
  destruct (unexpected_replacement n config (mkState r w)) as [[b|e|] st0];
    simpl in Hst, Hto; subst st0.
  - right. destruct b; mrun_in Hrun.
    + rewrite He in Hrun.
      destruct xd; try discriminate; mrun_in Hrun; fold r1 in Hrun;
        rewrite Hss1 in Hrun; mrun_in Hrun; rewrite He1 in Hrun;
        inversion Hrun; (split; [reflexivity|]); exists [join d n];
        now rewrite Hr2.
    + rewrite He in Hrun.
      destruct xd; try discriminate; mrun_in Hrun; fold r1 in Hrun;
        rewrite Hss1 in Hrun; mrun_in Hrun; rewrite He1 in Hrun;
        inversion Hrun; (split; [reflexivity|]); exists [];
        now rewrite app_nil_r, Hr2.
  - left. inversion Hrun.
    split; [discriminate|]. split; [discriminate | reflexivity].
  - contradiction.
Qed.

(** The overlay of [s] onto [dp/n], a directory of the destination or a
    name that its directory does not have, changes the disk at [dp/n] and
    nowhere else, and leaves there a directory whose links are safe.  When
    it returns, the directory mirrors the source.  The entries of the
    directory that the source does not name, and [.git] and [.gitignore],
    are as they were.  It runs out of fuel only if the source is deeper
    than the fuel. *)
Definition frame_spec (fuel : nat) : Prop :=
  forall s rel dp n ep r w o st' S,
    dp ++ [n] = d0 ++ rel ->
    unrelated s d0 = true ->
    lookup r s = Some S -> link_free S -> well_formed S = true ->
    lookup r dp = Some (Dir ep) ->
    match Entries.find n ep with
    | None => True
    | Some (Dir es) => links_ok r (Dir es)
    | Some _ => False
    end ->
    relink_tree yaml_load fuel s (dp ++ [n]) (mkState r w) = (o, st') ->
    exists v ws,
      st' = mkState (put (dp ++ [n]) v r) (w ++ ws)
      /\ match v with
         | None => Entries.find n ep = None
         | Some x => is_dir x = true /\ links_ok r x
         end
      /\ (o = Ret tt -> exists x, v = Some x /\ linked s S x)
      /\ (forall es, Entries.find n ep = Some (Dir es) ->
            exists es', v = Some (Dir es')
              /\ forall m,
                   Py.in_list m [".git"; ".gitignore"] = true
                   \/ (forall ss, S = Dir ss -> Entries.find m ss = None) ->
                   Entries.find m es' = Entries.find m es)
      /\ (o = Timeout -> is_dir S = true -> fuel < depth S).

Lemma source_entry r s ss n x :
  lookup r s = Some (Dir ss) -> link_free (Dir ss) ->
  Entries.find n ss = Some x ->
  lookup r (join s n) = Some x /\ not_link x
  /\ stat r (join s n) = Some (join s n, x).
Proof.
  intros Hs Hlf Hn.
  assert (Hl : lookup r (join s n) = Some x)
    by now rewrite (lookup_child r s n ss Hs), Hn.
  assert (Hx : not_link x)
    by exact (link_free_not_link x (link_free_child ss n x Hlf Hn)).
  repeat split; auto. now apply stat_lookup.
Qed.

(** The body of the loop at a name that it does not skip. *)
Lemma relink_entry_frame_visit fuel config s rel ss r w o st' es n xs :
  frame_spec fuel ->
  unrelated s d0 = true ->
  lookup r s = Some (Dir ss) -> link_free (Dir ss) ->
  well_formed (Dir ss) = true ->
  lookup r (d0 ++ rel) = Some (Dir es) -> links_ok r (Dir es) ->
  Py.in_list n [".git"; ".gitignore"] = false ->
  Entries.find n ss = Some xs ->
  relink_entry (relink_tree yaml_load fuel) config s (d0 ++ rel) n (mkState r w)
    = (o, st') ->
  exists es' ws,
    st' = mkState (put (d0 ++ rel) (Some (Dir es')) r) (w ++ ws)
    /\ links_ok r (Dir es')
    /\ (forall m, m <> n -> Entries.find m es' = Entries.find m es)
    /\ (o = Ret tt ->
        exists x, Entries.find n es' = Some x /\ linked (join s n) xs x)
    /\ (o = Timeout -> is_dir xs = true /\ fuel < depth xs).
Proof.
  intros IH Hun Hs Hlf Hwf Hd Hok Hskip Hxs Hrun.
  assert (Hfail : forall o1, o1 <> Ret tt -> o1 <> Timeout ->
             exists es' ws,
               mkState r w
               = mkState (put (d0 ++ rel) (Some (Dir es')) r) (w ++ ws)
               /\ links_ok r (Dir es')
               /\ (forall m, m <> n -> Entries.find m es' = Entries.find m es)
               /\ (o1 = Ret tt ->
                   exists x, Entries.find n es' = Some x
                             /\ linked (join s n) xs x)
               /\ (o1 = Timeout -> is_dir xs = true /\ fuel < depth xs)).
  { intros o1 H1 H2. exists es, []. rewrite (put_same _ _ _ Hd), app_nil_r.
    split; [reflexivity|]. split; [exact Hok|]. split; [auto|].
    split; intros E; contradiction. }
  destruct (source_entry r s ss n xs Hs Hlf Hxs) as (Hsl & Hsn & Hss).
  assert (Hun1 : unrelated (join s n) (join (d0 ++ rel) n) = true).
  { unfold join. apply unrelated_app_l. rewrite <- app_assoc.
    now apply unrelated_app_r. }
  assert (Hlinkok : links_ok r (Link (join s n)) \/ is_dir xs = true).
  { destruct xs as [cs|?|sd]; [left | contradiction | now right].
    intros [|? ?] t' Hq; [|discriminate]. inversion Hq; subst.
    split; [now apply unrelated_app_l | eauto]. }
  assert (Hrec : is_dir xs = true ->
             match Entries.find n es with
             | None => True
             | Some (Dir ds) => True
             | Some _ => False
             end ->
             relink_tree yaml_load fuel (join s n) (join (d0 ++ rel) n)
               (mkState r w) = (o, st') ->
             exists es' ws,
               st' = mkState (put (d0 ++ rel) (Some (Dir es')) r) (w ++ ws)
               /\ links_ok r (Dir es')
               /\ (forall m, m <> n -> Entries.find m es' = Entries.find m es)
               /\ (o = Ret tt ->
                   exists x, Entries.find n es' = Some x
                             /\ linked (join s n) xs x)
               /\ (o = Timeout -> is_dir xs = true /\ fuel < depth xs)).
  { intros Hdir Hkind Hcall.
    destruct (IH (join s n) (rel ++ [n]) (d0 ++ rel) n es r w o st' xs)
      as (v & ws & Hst & Hv & Hret & _ & Hto); auto.
    - now rewrite app_assoc.
    - now apply unrelated_app_l.
    - exact (link_free_child ss n xs Hlf Hxs).
    - exact (well_formed_child ss n xs Hwf Hxs).
    - destruct (Entries.find n es) as [[?|?|ds]|] eqn:E; auto.
      exact (links_ok_child r es n _ Hok E).
    - rewrite (put_child _ n v r es Hd) in Hst.
      destruct v as [x|].
      + exists (Entries.set n x es), ws. destruct Hv as [_ Hx].
        split; [exact Hst|]. split; [now apply links_ok_set|].
        split; [intros m Hm; now apply find_set_other|]. split.
        * intros E. destruct (Hret E) as (x0 & Hx0 & Hl).
          inversion Hx0; subst x0.
          exists x. split; [apply find_set_same | exact Hl].
        * intros E. split; [exact Hdir | exact (Hto E Hdir)].
      + exists (Entries.del n es), ws.
        split; [exact Hst|]. split; [now apply links_ok_del|].
        split; [intros m Hm; now apply find_del_other|]. split.
        * intros E. destruct (Hret E) as (x0 & Hx0 & _). discriminate.
        * intros E. split; [exact Hdir | exact (Hto E Hdir)]. }
  assert (Hdone : forall ws es1,
             links_ok r (Dir es1) ->
             (forall m, m <> n -> Entries.find m es1 = Entries.find m es) ->
             Entries.find n es1 = Some (Link (join s n)) ->
             is_dir xs = false ->
             exists es' ws0,
               mkState (put (d0 ++ rel) (Some (Dir es1)) r) (w ++ ws)
               = mkState (put (d0 ++ rel) (Some (Dir es')) r) (w ++ ws0)
               /\ links_ok r (Dir es')
               /\ (forall m, m <> n -> Entries.find m es' = Entries.find m es)
               /\ (Ret tt = Ret tt ->
                   exists x, Entries.find n es' = Some x
                             /\ linked (join s n) xs x)
               /\ (@Ret unit tt = Timeout -> is_dir xs = true /\ fuel < depth xs)).
  { intros ws es1 H1 H2 H3 H4. exists es1, ws.
    split; [reflexivity|]. split; [exact H1|]. split; [exact H2|]. split.
    - intros _. eexists. split; [exact H3|].
      destruct xs as [cs|?|?]; [apply linked_file | contradiction | discriminate].
    - discriminate. }
  destruct (Entries.find n es) as [xd|] eqn:Hxd.
  - (* the destination has the name *)
    assert (Hdl : lookup r (join (d0 ++ rel) n) = Some xd)
      by now rewrite (lookup_child r _ n es Hd), Hxd.
    destruct xd as [old|t|ds].
    + (* a regular file *)
      destruct xs as [cs|?|sd]; [|contradiction|].
      * destruct Hlinkok as [Hlk|]; [|discriminate].
        destruct (relink_entry_file_frame _ config s (d0 ++ rel) n r w es
                    (File old) _ old cs o st' Hskip Hd Hxd eq_refl
                    (stat_lookup r _ _ Hdl I) Hsl Hun1 Hrun)
          as [(Hnr & Hnt & ->)|(-> & ws & ->)]; [exact (Hfail o Hnr Hnt)|].
        apply Hdone; [| |apply find_set_same|reflexivity].
        -- apply links_ok_set; [now apply links_ok_del | exact Hlk].
        -- intros m Hm. now rewrite find_set_other, find_del_other.
      * unfold relink_entry in Hrun. rewrite Hskip in Hrun.
        unfold os.path_exists, os.isfile in Hrun. mrun_in Hrun.
        rewrite (stat_lookup r _ _ Hdl I) in Hrun. mrun_in Hrun.
        rewrite (stat_lookup r _ _ Hdl I), Hss in Hrun.
        cbn [Bool.eqb] in Hrun. mrun_in Hrun.
        inversion Hrun; subst. apply Hfail; discriminate.
    + (* a link, to a regular file *)
      destruct (Hok [n] t) as [Ht [c Hc]]; [simpl; now rewrite Hxd|].
      pose proof (stat_link r _ t c Hdl Hc) as Hsd.
      destruct xs as [cs|?|sd]; [|contradiction|].
      * destruct Hlinkok as [Hlk|]; [|discriminate].
        destruct (relink_entry_file_frame _ config s (d0 ++ rel) n r w es
                    (Link t) _ c cs o st' Hskip Hd Hxd eq_refl
                    Hsd Hsl Hun1 Hrun)
          as [(Hnr & Hnt & ->)|(-> & ws & ->)]; [exact (Hfail o Hnr Hnt)|].
        apply Hdone; [| |apply find_set_same|reflexivity].
        -- apply links_ok_set; [now apply links_ok_del | exact Hlk].
        -- intros m Hm. now rewrite find_set_other, find_del_other.
      * unfold relink_entry in Hrun. rewrite Hskip in Hrun.
        unfold os.path_exists, os.isfile in Hrun. mrun_in Hrun.
        rewrite Hsd in Hrun. mrun_in Hrun. rewrite Hsd, Hss in Hrun.
        cbn [Bool.eqb] in Hrun. mrun_in Hrun.
        inversion Hrun; subst. apply Hfail; discriminate.
    + (* a directory *)
      pose proof (stat_lookup r _ _ Hdl I) as Hsd.
      unfold relink_entry in Hrun. rewrite Hskip in Hrun.
      unfold os.path_exists, os.isfile, os.isdir in Hrun. mrun_in Hrun.
      rewrite Hsd in Hrun. mrun_in Hrun. rewrite Hsd, Hss in Hrun.
      destruct xs as [cs|?|sd]; [|contradiction|].
      * cbn [Bool.eqb] in Hrun. mrun_in Hrun.
        inversion Hrun; subst. apply Hfail; discriminate.
      * cbn [Bool.eqb] in Hrun. mrun_in Hrun. rewrite Hsd in Hrun.
        mrun_in Hrun. rewrite Hss in Hrun. mrun_in Hrun.
        exact (Hrec eq_refl I Hrun).
  - (* the destination does not have the name *)
    pose proof (stat_absent r _ n es Hd Hxd) as Hsd.
    unfold relink_entry in Hrun. rewrite Hskip in Hrun.
    unfold os.path_exists, os.isdir, os.symlink in Hrun. mrun_in Hrun.
    rewrite Hsd in Hrun. mrun_in Hrun. rewrite Hss in Hrun.
    destruct xs as [cs|?|sd]; [|contradiction|].
    + destruct Hlinkok as [Hlk|]; [|discriminate].
      mrun_in Hrun. rewrite (entry_lookup r _ n es Hd), Hxd in Hrun.
      mrun_in Hrun. inversion Hrun; subst.
      rewrite (put_child _ n _ r es Hd).
      assert (Hok1 : links_ok r (Dir (Entries.set n (Link (join s n)) es)))
        by (apply links_ok_set; [exact Hok | exact Hlk]).
      pose proof (Hdone [] _ Hok1
                    (fun m Hm => find_set_other n m (Link (join s n)) es
                                   (fun E => Hm (eq_sym E)))
                    (find_set_same n _ es) eq_refl) as Hfin.
      rewrite app_nil_r in Hfin. exact Hfin.
    + mrun_in Hrun. exact (Hrec eq_refl I Hrun).
Qed.

(** The body of the loop changes the entry of its name and nothing else,
    and nothing at all at [.git] and [.gitignore]. *)
Lemma relink_entry_frame fuel config s rel ss r w o st' es n :
  frame_spec fuel ->
  unrelated s d0 = true ->
  lookup r s = Some (Dir ss) -> link_free (Dir ss) ->
  well_formed (Dir ss) = true ->
  lookup r (d0 ++ rel) = Some (Dir es) -> links_ok r (Dir es) ->
  Entries.find n ss <> None ->
  relink_entry (relink_tree yaml_load fuel) config s (d0 ++ rel) n (mkState r w)
    = (o, st') ->
  exists es' ws,
    st' = mkState (put (d0 ++ rel) (Some (Dir es')) r) (w ++ ws)
    /\ links_ok r (Dir es')
    /\ (forall m, m <> n \/ Py.in_list n [".git"; ".gitignore"] = true ->
                  Entries.find m es' = Entries.find m es)
    /\ (o = Ret tt -> Py.in_list n [".git"; ".gitignore"] = false ->
        forall c, Entries.find n ss = Some c ->
          exists x, Entries.find n es' = Some x /\ linked (join s n) c x)
    /\ (o = Timeout ->
        exists sd, Entries.find n ss = Some (Dir sd) /\ fuel < depth (Dir sd)).
Proof.
  intros IH Hun Hs Hlf Hwf Hd Hok Hn Hrun.
  destruct (Py.in_list n [".git"; ".gitignore"]) eqn:Hskip.
  { unfold relink_entry in Hrun. rewrite Hskip in Hrun.
    inversion Hrun; subst. exists es, [].
    rewrite (put_same _ _ _ Hd), app_nil_r.
    split; [reflexivity|]. split; [exact Hok|]. split; [auto|].
    split; [discriminate | discriminate]. }
  destruct (Entries.find n ss) as [xs|] eqn:Hxs; [clear Hn | contradiction].
  destruct (relink_entry_frame_visit fuel config s rel ss r w o st' es n xs
              IH Hun Hs Hlf Hwf Hd Hok Hskip Hxs Hrun)
    as (es' & ws & Hst & Hok' & Hfr & Hret & Hto).
  exists es', ws. split; [exact Hst|]. split; [exact Hok'|]. split; [|split].
  - intros m [Hm|Hm]; [now apply Hfr | discriminate].
  - intros E _ c Hc. inversion Hc; subst c. exact (Hret E).
  - intros E. destruct (Hto E) as [Hdir Hlt].
    destruct xs as [?|?|sd]; try discriminate. now exists sd.
Qed.

(** The loop of [relink_tree] changes the entries of the names it goes
    through and nothing else. *)
Lemma relink_loop_frame fuel config s rel ss :
  frame_spec fuel ->
  unrelated s d0 = true ->
  link_free (Dir ss) -> well_formed (Dir ss) = true ->
  forall names r w o st' es,
    lookup r s = Some (Dir ss) ->
    lookup r (d0 ++ rel) = Some (Dir es) -> links_ok r (Dir es) ->
    (forall m, In m names -> Entries.find m ss <> None) ->
    for_each names
      (relink_entry (relink_tree yaml_load fuel) config s (d0 ++ rel))
      (mkState r w) = (o, st') ->
    exists es' ws,
      st' = mkState (put (d0 ++ rel) (Some (Dir es')) r) (w ++ ws)
      /\ links_ok r (Dir es')
      /\ (forall m, ~ In m names \/ Py.in_list m [".git"; ".gitignore"] = true ->
                    Entries.find m es' = Entries.find m es)
      /\ (o = Ret tt ->
          forall m c, In m names ->
            Py.in_list m [".git"; ".gitignore"] = false ->
            Entries.find m ss = Some c ->
            exists x, Entries.find m es' = Some x /\ linked (join s m) c x)
      /\ (o = Timeout ->
          exists m sd, In m names /\ Entries.find m ss = Some (Dir sd)
                       /\ fuel < depth (Dir sd)).
Proof.
  intros IH Hun Hlf Hwf.
  induction names as [|n names IHn]; intros r w o st' es Hs Hd Hok Hin Hrun.
  - simpl in Hrun. inversion Hrun; subst. exists es, [].
    rewrite (put_same _ _ _ Hd), app_nil_r.
    split; [reflexivity|]. split; [exact Hok|]. split; [auto|].
    split; [intros _ m c [] | discriminate].
  - simpl in Hrun. unfold bind in Hrun.
    destruct (relink_entry (relink_tree yaml_load fuel) config s (d0 ++ rel) n
                (mkState r w)) as [o1 st1] eqn:Hstep.
    destruct (relink_entry_frame fuel config s rel ss r w o1 st1 es n
                IH Hun Hs Hlf Hwf Hd Hok (Hin n (or_introl eq_refl)) Hstep)
      as (es1 & ws1 & -> & Hok1 & Hfr1 & Hret1 & Hto1).
    assert (Hkeep1 : forall m,
               ~ In m (n :: names)
               \/ Py.in_list m [".git"; ".gitignore"] = true ->
               Entries.find m es1 = Entries.find m es).
    { intros m Hm. apply Hfr1.
      destruct (string_dec m n) as [->|Hmn]; [|now left].
      destruct Hm as [Hm|Hm]; [exfalso; apply Hm; now left | now right]. }
    assert (Hstop : o1 <> Ret tt ->
               exists es' ws,
                 mkState (put (d0 ++ rel) (Some (Dir es1)) r) (w ++ ws1)
                 = mkState (put (d0 ++ rel) (Some (Dir es')) r) (w ++ ws)
                 /\ links_ok r (Dir es')
                 /\ (forall m,
                       ~ In m (n :: names)
                       \/ Py.in_list m [".git"; ".gitignore"] = true ->
                       Entries.find m es' = Entries.find m es)
                 /\ (o1 = Ret tt ->
                     forall m c, In m (n :: names) ->
                       Py.in_list m [".git"; ".gitignore"] = false ->
                       Entries.find m ss = Some c ->
                       exists x, Entries.find m es' = Some x
                                 /\ linked (join s m) c x)
                 /\ (o1 = Timeout ->
                     exists m sd, In m (n :: names)
                                  /\ Entries.find m ss = Some (Dir sd)
                                  /\ fuel < depth (Dir sd))).
    { intros Hne. exists es1, ws1.
      split; [reflexivity|]. split; [exact Hok1|]. split; [exact Hkeep1|].
      split; [intros E; contradiction|].
      intros E. destruct (Hto1 E) as (sd & H1 & H2).
      exists n, sd. split; [now left | auto]. }
    destruct o1 as [[]|e|];
      [|inversion Hrun; subst; apply Hstop; discriminate
       |inversion Hrun; subst; apply Hstop; discriminate].
    set (r1 := put (d0 ++ rel) (Some (Dir es1)) r) in *.
    destruct (IHn r1 (w ++ ws1) o st' es1)
      as (es' & ws & -> & Hok' & Hfr' & Hret' & Hto').
    + unfold r1. rewrite lookup_put_unrelated; [exact Hs|].
      now apply unrelated_app_r.
    + unfold r1. now apply (lookup_put_self _ _ _ (Dir es)).
    + unfold r1. now apply links_ok_put.
    + intros m Hm. apply Hin. now right.
    + exact Hrun.
    + exists es', (ws1 ++ ws). unfold r1. rewrite put_put, app_assoc.
      split; [reflexivity|]. split; [|split; [|split]].
      * unfold r1 in Hok'. now apply links_ok_put in Hok'.
      * intros m Hm. rewrite Hfr'; [now apply Hkeep1|].
        destruct Hm as [Hm|Hm]; [left; intros H; apply Hm; now right
                                |now right].
      * intros E m c Hm Hskip Hc.
        destruct (in_dec string_dec m names) as [Hmn|Hmn];
          [exact (Hret' E m c Hmn Hskip Hc)|].
        destruct Hm as [<-|Hm]; [|contradiction].
        destruct (Hret1 eq_refl Hskip c Hc) as (x & Hx & Hl).
        exists x. split; [|exact Hl].
        rewrite Hfr' by now left. exact Hx.
      * intros E. destruct (Hto' E) as (m & sd & H1 & H2 & H3).
        exists m, sd. split; [now right | auto].
Qed.

(** [relink_tree] stays in the destination, whatever the fuel. *)
Lemma relink_tree_frame : forall fuel, frame_spec fuel.
Proof.
  induction fuel as [|fuel IH];
    intros s rel dp n ep r w o st' S Hpath Hun Hs Hlf Hwf Hdp Hn Hrun.
  - simpl in Hrun. inversion Hrun; subst.
    exists (Entries.find n ep), []. rewrite app_nil_r.
    rewrite (put_entry_same r dp n ep Hdp). split; [reflexivity|].
    split; [|split; [discriminate | split]].
    + destruct (Entries.find n ep) as [[?|?|es]|]; try contradiction; auto.
    + intros es E. exists es. split; [exact E | auto].
    + intros _ Hdir. destruct S; try discriminate. simpl. lia.
  - rewrite relink_tree_unfold in Hrun. unfold relink_prologue in Hrun.
    unfold os.path_exists, os.mkdir, os.listdir in Hrun. mrun_in Hrun.
    assert (Hloop : forall r1 w1 es o1 st1 config,
               lookup r1 s = Some S ->
               lookup r1 (d0 ++ rel) = Some (Dir es) -> links_ok r1 (Dir es) ->
               (let (o0, st0) :=
                  (names <- os.listdir s ;; ret (config, names))
                    (mkState r1 w1) in
                match o0 with
                | Ret (config0, names) =>
                    for_each names
                      (relink_entry (relink_tree yaml_load fuel) config0 s
                         (dp ++ [n])) st0
                | Raise e => (Raise e, st0)
                | Timeout => (Timeout, st0)
                end) = (o1, st1) ->
               exists es' ws,
                 st1 = mkState (put (d0 ++ rel) (Some (Dir es')) r1) (w1 ++ ws)
                 /\ links_ok r1 (Dir es')
                 /\ (o1 = Ret tt -> linked s S (Dir es'))
                 /\ (forall m,
                       Py.in_list m [".git"; ".gitignore"] = true
                       \/ (forall ss, S = Dir ss -> Entries.find m ss = None) ->
                       Entries.find m es' = Entries.find m es)
                 /\ (o1 = Timeout -> is_dir S = true -> Datatypes.S fuel < depth S)).
    { intros r1 w1 es o1 st1 config Hs1 Hd1 Hok1 H.
      unfold os.listdir in H. mrun_in H.
      rewrite (stat_lookup r1 s S Hs1 (link_free_not_link S Hlf)) in H.
      destruct S as [c|t|ss].
      - inversion H; subst. exists es, [].
        rewrite (put_same _ _ _ Hd1), app_nil_r.
        split; [reflexivity|]. split; [exact Hok1|].
        split; [discriminate|]. split; [auto | discriminate].
      - inversion H; subst. exists es, [].
        rewrite (put_same _ _ _ Hd1), app_nil_r.
        split; [reflexivity|]. split; [exact Hok1|].
        split; [discriminate|]. split; [auto | discriminate].
      - rewrite Hpath in H.
        destruct (relink_loop_frame fuel config s rel ss IH Hun Hlf Hwf
                    (Entries.names ss) r1 w1 o1 st1 es Hs1 Hd1 Hok1)
          as (es' & ws & Hst & Hok' & Hfr' & Hret' & Hto');
          [intros m Hm E; now apply find_names in E | exact H |].
        exists es', ws. split; [exact Hst|]. split; [exact Hok'|].
        split; [|split].
        + intros E. apply linked_dir. intros m c Hm Hskip Hc.
          exact (Hret' E m c Hm Hskip Hc).
        + intros m [Hm|Hm]; apply Hfr'; [now right | left].
          apply find_names. exact (Hm ss eq_refl).
        + intros E _. destruct (Hto' E) as (m & sd & _ & H1 & H2).
          pose proof (depth_child ss m (Dir sd) H1). lia. }
    destruct (Entries.find n ep) as [xd|] eqn:Hxd.
    + destruct xd as [?|?|es]; try contradiction.
      assert (Hd : lookup r (d0 ++ rel) = Some (Dir es)).
      { rewrite <- Hpath. change (dp ++ [n]) with (join dp n).
        now rewrite (lookup_child r dp n ep Hdp), Hxd. }
      assert (Hd' : lookup r (dp ++ [n]) = Some (Dir es))
        by now rewrite Hpath.
      rewrite (stat_lookup r _ _ Hd' I) in Hrun. mrun_in Hrun.
      assert (Hraise : forall e,
                 exists v ws,
                   mkState r w = mkState (put (dp ++ [n]) v r) (w ++ ws)
                   /\ match v with
                      | None => Some (Dir es) = None
                      | Some x => is_dir x = true /\ links_ok r x
                      end
                   /\ (@Raise unit e = Ret tt ->
                       exists x, v = Some x /\ linked s S x)
                   /\ (forall es0, Some (Dir es) = Some (Dir es0) ->
                         exists es', v = Some (Dir es')
                           /\ forall m,
                                Py.in_list m [".git"; ".gitignore"] = true
                                \/ (forall ss, S = Dir ss ->
                                               Entries.find m ss = None) ->
                                Entries.find m es' = Entries.find m es0)
                   /\ (@Raise unit e = Timeout -> is_dir S = true ->
                       Datatypes.S fuel < depth S)).
      { intros e. exists (Some (Dir es)), [].
        rewrite Hpath, (put_same _ _ _ Hd), app_nil_r.
        split; [reflexivity|]. split; [auto|]. split; [discriminate|].
        split; [|discriminate].
        intros es0 E. inversion E; subst es0. exists es. auto. }
      pose proof (get_folder_config_state yaml_load (dp ++ [n]) (mkState r w))
        as Hcs.
      pose proof (get_folder_config_outcome (dp ++ [n]) (mkState r w)) as Hco.
      destruct (get_folder_config yaml_load (dp ++ [n]) (mkState r w))
        as [[config|e|] st0]; simpl in Hcs, Hco; subst st0.
      * destruct (Hloop r w es o st' config Hs Hd Hn Hrun)
          as (es' & ws & -> & Hok' & Hret' & Hfr' & Hto').
        exists (Some (Dir es')), ws. rewrite Hpath.
        split; [reflexivity|]. split; [auto|]. split; [|split].
        -- intros E. exists (Dir es'). auto.
        -- intros es0 E. inversion E; subst es0. exists es'. auto.
        -- exact Hto'.
      * inversion Hrun; subst. apply Hraise.
      * contradiction.
    + pose proof (stat_absent r dp n ep Hdp Hxd) as Hsa.
      pose proof (entry_lookup r dp n ep Hdp) as Hea.
      unfold join in Hsa, Hea. rewrite Hxd in Hea.
      rewrite Hsa in Hrun. mrun_in Hrun.
      rewrite Hea in Hrun. mrun_in Hrun.
      set (r1 := put (dp ++ [n]) (Some (Dir [])) r) in *.
      assert (Hd1 : lookup r1 (d0 ++ rel) = Some (Dir [])).
      { rewrite <- Hpath. unfold r1.
        exact (lookup_put_child dp n (Dir []) r ep Hdp). }
      assert (Hs1 : lookup r1 s = Some S).
      { unfold r1. rewrite Hpath, lookup_put_unrelated; [exact Hs|].
        now apply unrelated_app_r. }
      assert (Hback : forall x, links_ok r1 x -> links_ok r x).
      { intros x Hx. unfold r1 in Hx. rewrite Hpath in Hx.
        now apply links_ok_put in Hx. }
      pose proof (get_folder_config_state yaml_load (dp ++ [n]) (mkState r1 w))
        as Hcs.
      pose proof (get_folder_config_outcome (dp ++ [n]) (mkState r1 w)) as Hco.
      destruct (get_folder_config yaml_load (dp ++ [n]) (mkState r1 w))
        as [[config|e|] st0]; simpl in Hcs, Hco; subst st0.
      * destruct (Hloop r1 w [] o st' config Hs1 Hd1 (links_ok_empty r1) Hrun)
          as (es' & ws & -> & Hok' & Hret' & _ & Hto').
        exists (Some (Dir es')), ws. unfold r1.
        rewrite Hpath, put_put.
        split; [reflexivity|]. split; [auto|]. split; [|split].
        -- intros E. exists (Dir es'). auto.
        -- discriminate.
        -- exact Hto'.
      * inversion Hrun; subst. exists (Some (Dir [])), [].
        rewrite app_nil_r. split; [reflexivity|].
        split; [split; [reflexivity | apply links_ok_empty]|].
        split; [discriminate|]. split; discriminate.
      * contradiction.
Qed.

End LinkOverlayFrame.

Section LinkOverlayRun.
Import FsFacts.

Variable yaml_load : string -> option pyval.

Lemma for_each_app {A} (body : A -> M unit) pre post st :
  for_each (pre ++ post) body st =
  match for_each pre body st with
  | (Ret _, st1) => for_each post body st1
  | (Raise e, st1) => (Raise e, st1)
  | (Timeout, st1) => (Timeout, st1)
  end.
Proof.
  revert st. induction pre as [|x pre IH]; intros st; simpl; [reflexivity|].
  unfold bind. destruct (body x st) as [[[]|e|] st0]; auto.
Qed.

Lemma distinct_NoDup l : distinct l = true -> NoDup l.
Proof.
  induction l as [|x l IH]; simpl; intros H; constructor.
  - apply Bool.andb_true_iff in H. destruct H as [H _].
    apply Bool.negb_true_iff in H. intros Hin.
    apply in_list_In in Hin. congruence.
  - apply IH. now apply Bool.andb_true_iff in H.
Qed.

Lemma frame_at_root (d : path) (P : path -> Prop) : P (d ++ []) -> P d.
Proof. now rewrite app_nil_r. Qed.

(** The loop of [relink_tree] over the names of a source directory,
    on a destination directory outside the source. *)
Lemma relink_loop_top fuel config s d ss names r w o st' es :
  unrelated s d = true ->
  link_free (Dir ss) -> well_formed (Dir ss) = true ->
  lookup r s = Some (Dir ss) ->
  lookup r d = Some (Dir es) -> links_ok d r (Dir es) ->
  (forall m, In m names -> Entries.find m ss <> None) ->
  for_each names (relink_entry (relink_tree yaml_load fuel) config s d)
    (mkState r w) = (o, st') ->
  exists es' ws,
    st' = mkState (put d (Some (Dir es')) r) (w ++ ws)
    /\ links_ok d r (Dir es')
    /\ (forall m, ~ In m names -> Entries.find m es' = Entries.find m es).
Proof.
  intros Hun Hlf Hwf Hs Hd Hok Hin Hrun.
  pose proof (relink_loop_frame d yaml_load fuel config s [] ss
                (relink_tree_frame d yaml_load fuel) Hun Hlf Hwf
                names r w o st' es Hs) as H.
  rewrite app_nil_r in H.
  destruct (H Hd Hok Hin Hrun) as (es' & ws & H1 & H2 & H3 & _).
  exists es', ws. split; [exact H1|]. split; [exact H2|].
  intros m Hm. apply H3. now left.
Qed.

(** The replacement lasts.  [src] and [dst] are directories, none inside
    the other; the tree
    of [src] has no link and lists no name twice, and the links of [dst]
    lead to regular files outside [dst].  Let [name] be a regular file of
    [src] that [dst] has as a regular file, is not [.git], [.gitignore] or
    [.folder] and is not listed in the [replace] of the configuration of
    [dst].  When the loop of [relink_tree] comes to [name], its body
    returns: the overlay goes on with the names that follow; and however
    the overlay ends after that, the warning about [dst/name] is in the
    log and [dst/name] is a symbolic link to [src/name].  At [.git] and
    [.gitignore] the body of the loop does nothing. *)
Theorem relink_tree_replaces_with_warning :
  forall fuel src dst r w ss ds config pre name post cs old st1,
    let body := relink_entry (relink_tree yaml_load fuel) config src dst in
    unrelated src dst = true ->
    lookup r src = Some (Dir ss) ->
    link_free (Dir ss) -> well_formed (Dir ss) = true ->
    lookup r dst = Some (Dir ds) -> links_ok dst r (Dir ds) ->
    get_folder_config yaml_load dst (mkState r w) = (Ret config, mkState r w) ->
    Entries.names ss = pre ++ name :: post ->
    Py.in_list name [".git"; ".gitignore"] = false ->
    name <> ".folder" ->
    not_listed name config ->
    Entries.find name ss = Some (File cs) ->
    Entries.find name ds = Some (File old) ->
    for_each pre body (mkState r w) = (Ret tt, st1) ->
    exists st2,
      body name st1 = (Ret tt, st2)
      /\ relink_tree yaml_load (S fuel) src dst (mkState r w)
         = for_each post body st2
      /\ (forall o st', for_each post body st2 = (o, st') ->
             lookup (root st') (join dst name) = Some (Link (join src name))
             /\ In (join dst name) (warnings st'))
      /\ (forall rec cfg s d n st0,
             Py.in_list n [".git"; ".gitignore"] = true ->
             relink_entry rec cfg s d n st0 = (Ret tt, st0)).
Proof.
  intros fuel src dst r w ss ds config pre name post cs old st1 body
         Hun Hs Hlf Hwf Hd Hok Hcfg Hnames Hskip Hname Hlisted Hsrc Hold Hpre.
  assert (Hnd : NoDup (pre ++ name :: post)).
  { rewrite <- Hnames. apply distinct_NoDup. simpl in Hwf.
    now apply Bool.andb_true_iff in Hwf. }
  assert (Hnpre : ~ In name pre).
  { apply NoDup_remove_2 in Hnd. rewrite in_app_iff in Hnd. tauto. }
  assert (Hnpost : ~ In name post).
  { apply NoDup_remove_2 in Hnd. rewrite in_app_iff in Hnd. tauto. }
  assert (Hin : forall m, In m (pre ++ name :: post) ->
                          Entries.find m ss <> None).
  { intros m Hm E. apply find_names in E. apply E. now rewrite Hnames. }
  (* the names before *)
  destruct (relink_loop_top fuel config src dst ss pre r w (Ret tt) st1 ds
              Hun Hlf Hwf Hs Hd Hok) as (es1 & ws1 & -> & Hok1 & Hfr1);
    [intros m Hm; apply Hin; rewrite in_app_iff; now left | exact Hpre |].
  set (r1 := put dst (Some (Dir es1)) r) in *.
  assert (Hd1 : lookup r1 dst = Some (Dir es1))
    by (unfold r1; now apply (lookup_put_self _ _ _ (Dir ds))).
  assert (Hs1 : lookup r1 src = Some (Dir ss))
    by (unfold r1; now rewrite lookup_put_unrelated).
  assert (Hsn1 : lookup r1 (join src name) = Some (File cs))
    by now rewrite (lookup_child r1 src name ss Hs1), Hsrc.
  assert (Hold1 : Entries.find name es1 = Some (File old))
    by now rewrite (Hfr1 name Hnpre).
  (* the name itself *)
  pose proof (relink_entry_replaces (relink_tree yaml_load fuel)
                config src dst name r1 (w ++ ws1) es1 old cs
                Hskip Hname Hlisted Hd1 Hold1 Hsn1) as Hstep.
  eexists. split; [exact Hstep|]. split; [|split].
  - rewrite relink_tree_unfold.
    rewrite (relink_prologue_run yaml_load src dst (mkState r w) config
               (pre ++ name :: post)).
    + exact (for_each_step _ pre name post _ _ _ Hpre Hstep).
    + simpl. now rewrite (stat_lookup r dst _ Hd I).
    + exact Hcfg.
    + unfold os.listdir. mrun. rewrite (stat_lookup r src _ Hs I).
      now rewrite Hnames.
  - (* the names after *)
    intros o st' Hpost.
    set (L := Link (join src name)) in *.
    set (r2 := put (join dst name) (Some L) (put (join dst name) None r1)) in *.
    assert (Hr2 : r2 = put dst (Some (Dir (Entries.set name L
                                             (Entries.del name es1)))) r1).
    { unfold r2, join.
      rewrite (put_child dst name (Some L) _ _
                 (lookup_put_parent dst name None r1 es1 Hd1)).
      rewrite (put_child dst name None r1 es1 Hd1). now rewrite put_put. }
    assert (Hr2' : r2 = put (dst ++ []) (Some (Dir (Entries.set name L
                                                    (Entries.del name es1)))) r)
      by (rewrite Hr2; unfold r1; now rewrite put_put, app_nil_r).
    assert (Hd2 : lookup r2 dst
                  = Some (Dir (Entries.set name L (Entries.del name es1))))
      by (rewrite Hr2; now apply (lookup_put_self _ _ _ (Dir es1))).
    assert (Hs2 : lookup r2 src = Some (Dir ss))
      by (rewrite Hr2; now rewrite lookup_put_unrelated).
    assert (Hok2 : links_ok dst r2
                     (Dir (Entries.set name L (Entries.del name es1)))).
    { rewrite Hr2'. apply links_ok_put.
      apply links_ok_set; [now apply links_ok_del|].
      intros [|? ?] t Hq; [|discriminate]. inversion Hq; subst.
      split; [now apply unrelated_app_l|]. exists cs.
      now rewrite (lookup_child r src name ss Hs), Hsrc. }
    destruct (relink_loop_top fuel config src dst ss post r2
                ((w ++ ws1) ++ [join dst name]) o st' _
                Hun Hlf Hwf Hs2 Hd2 Hok2) as (es' & ws & -> & _ & Hfr');
      [intros m Hm; apply Hin; rewrite in_app_iff; right; now right
      | exact Hpost |].
    simpl root. simpl warnings. split.
    + rewrite (lookup_child _ dst name es'
                 (lookup_put_self dst (Dir es') r2 _ Hd2)).
      now rewrite (Hfr' name Hnpost), find_set_same.
    + rewrite !in_app_iff. left. right. now left.
  - intros rec cfg s d n st0 H. unfold relink_entry. now rewrite H.
Qed.

End LinkOverlayRun.

Section LinkOverlayWitness.
Import FsFacts.

Definition link_source : list (string * node) :=
  [(".git", Dir [("HEAD", File "ref")]);
   ("lib", Dir [("util.py", File "leaf util")]);
   ("run.py", File "leaf run");
   ("notes.txt", File "leaf notes")].

Definition link_destination : list (string * node) :=
  [("run.py", File "base run");
   ("lib", Dir [("util.py", File "base util"); ("core.py", File "base core")])].

Definition link_disk : node :=
  Dir [("src", Dir link_source); ("work", Dir link_destination)].

Definition link_run : outcome unit * state :=
  relink_tree sample_yaml 3 ["src"] ["work"] (mkState link_disk []).

Lemma relink_tree_replaces_with_warning_witness :
  lookup (root (snd link_run)) ["work"; "run.py"]
  = Some (Link ["src"; "run.py"])
  /\ In ["work"; "run.py"] (warnings (snd link_run)).
Proof.
  destruct (relink_tree_replaces_with_warning sample_yaml 2 ["src"] ["work"]
              link_disk [] link_source link_destination (PDict [])
              [".git"; "lib"] "run.py" ["notes.txt"] "leaf run" "base run"
              (snd (for_each [".git"; "lib"]
                      (relink_entry (relink_tree sample_yaml 2) (PDict [])
                         ["src"] ["work"])
                      (mkState link_disk []))))
    as (st2 & Hstep & Hrun & Hafter & _); try reflexivity.
  - now apply no_links_sound.
  - apply link_free_links_ok. now apply no_links_sound.
  - discriminate.
  - exists []. split; [reflexivity | exact I].
  - apply (Hafter (fst link_run)). unfold link_run. rewrite Hrun.
    now destruct (for_each _ _ st2).
Defined.

End LinkOverlayWitness.

(* ===================================================================== *)
(** * Further properties of the readers *)
(* ===================================================================== *)

Section Readers.
Import PyFacts FsFacts.

Variable yaml_load : string -> option pyval.

(** [get_folder_config] gives the empty mapping when [.folder] cannot be
    opened (it is absent, or a directory), what the parser makes of the
    text when it can, the parser's error when the text is not YAML; and
    it leaves the disk and the log as they are. *)
Lemma get_folder_config_cases :
  forall folder_name st,
    get_folder_config yaml_load folder_name st =
    (match stat (root st) (join folder_name ".folder") with
     | Some (_, File text) =>
         match yaml_load (Py.universal_newlines text) with
         | Some v => Ret v
         | None => Raise YAMLError
         end
     | _ => Ret (PDict [])
     end, st).
Proof.
  intros d [r w]. unfold get_folder_config, read_file. mrun.
  destruct (stat r (join d ".folder")) as [[q [c|t|es]]|]; try reflexivity.
  now destruct (yaml_load (Py.universal_newlines c)).
Qed.

Lemma partition_left c s l r :
  Py.partition c s = Some (l, r) -> Py.contains_char c l = false.
Proof.
  revert l. induction s as [|a s IH]; intros l; simpl; [discriminate|].
  destruct (Ascii.eqb a c) eqn:E.
  - intros H. now inversion H.
  - destruct (Py.partition c s) as [[l' r']|]; [|discriminate].
    intros H. inversion H; subst. simpl. rewrite E. now apply IH.
Qed.

Lemma contains_char_rstrip_false c s :
  Py.contains_char c s = false -> Py.contains_char c (Py.rstrip s) = false.
Proof.
  induction s as [|a s IH]; simpl; [easy|].
  destruct (Ascii.eqb a c) eqn:E; [discriminate|]. intros H.
  specialize (IH H).
  destruct (Py.rstrip s) as [|b s'].
  - destruct (Py.isspace a); simpl; [reflexivity | now rewrite E].
  - simpl. rewrite E. exact IH.
Qed.

Lemma contains_char_strip_false c s :
  Py.contains_char c s = false -> Py.contains_char c (Py.strip s) = false.
Proof.
  intros H. unfold Py.strip.
  now apply contains_char_rstrip_false, contains_char_lstrip.
Qed.

Lemma strip_idem s : Py.strip (Py.strip s) = Py.strip s.
Proof.
  unfold Py.strip.
  now rewrite lstrip_rstrip, lstrip_idem, rstrip_idem.
Qed.

(** Whatever the schema, a repository that [get_base_repository] returns
    has a URL with no white space around it; when it has a branch, the
    branch has no white space around it and no [:], and the URL has no
    [@].  The disk and the log are as they were. *)
Theorem get_base_repository_clean :
  forall source_path st repo st',
    get_base_repository source_path st = (Ret (Some repo), st') ->
    st' = st
    /\ Py.strip (url repo) = url repo
    /\ (forall b, branch repo = Some b ->
                  Py.strip b = b
                  /\ Py.contains_char ":" b = false
                  /\ Py.contains_char "@" (url repo) = false).
Proof.
  intros p st repo st' H. rewrite get_base_repository_unfold in H.
  destruct (stat (root st) (join p SCHEMA_FILENAME)) as [[q [text|t|es]]|];
    try discriminate.
  unfold schema_outcome in H.
  destruct (String.eqb (first_line text) ""); [discriminate|].
  destruct (Py.partition ";" (first_line text)) as [[l part]|];
    [|discriminate].
  destruct (Py.partition "@" (Py.strip part)) as [[before after]|] eqn:E.
  - destruct (Py.contains_char ":" after) eqn:Hc; inversion H; subst; simpl.
    + split; [reflexivity|]. split; [apply strip_idem | discriminate].
    + split; [reflexivity|]. split; [apply strip_idem|].
      intros b Hb. inversion Hb; subst.
      split; [apply strip_idem|]. split.
      * now apply contains_char_strip_false.
      * apply contains_char_strip_false. exact (partition_left _ _ _ _ E).
  - inversion H; subst; simpl.
    split; [reflexivity|]. split; [apply strip_idem | discriminate].
Qed.

Lemma append_assoc a b c : (a +++ b) +++ c = a +++ b +++ c.
Proof. induction a as [|x a IH]; simpl; [reflexivity | now rewrite IH]. Qed.

Lemma readline_first_line line more :
  Py.contains_char "010" line = false ->
  Py.readline (line +++ String "010" more) = line +++ String "010" "".
Proof.
  induction line as [|a line IH]; simpl; [reflexivity|].
  destruct (Ascii.eqb a "010"); [discriminate|].
  intros H. now rewrite (IH H).
Qed.

Lemma rstrip_space_end s c :
  Py.isspace c = true -> Py.rstrip (s +++ String c "") = Py.rstrip s.
Proof.
  intros Hc. induction s as [|a s IH]; simpl; [now rewrite Hc|].
  now rewrite IH.
Qed.

Lemma strip_space_end s c :
  Py.isspace c = true -> Py.strip (s +++ String c "") = Py.strip s.
Proof.
  intros Hc. unfold Py.strip.
  now rewrite <- !lstrip_rstrip, rstrip_space_end.
Qed.

Lemma readline_whole line :
  Py.contains_char "010" line = false -> Py.readline line = line.
Proof.
  induction line as [|a line IH]; simpl; [reflexivity|].
  destruct (Ascii.eqb a "010"); [discriminate|].
  intros H. now rewrite (IH H).
Qed.

Lemma newlines_plain a b :
  Py.contains_char "013" a = false ->
  Py.newlines_from false (a +++ b) = a +++ Py.newlines_from false b.
Proof.
  induction a as [|c a IH]; simpl; [reflexivity|].
  destruct (Ascii.eqb c "013"); [discriminate|]. intros H.
  destruct (Ascii.eqb c "010"); now rewrite (IH H).
Qed.

(** The first line of a file whose text begins with [line], which has no
    [\r] and no [\n], and goes on with nothing, or with a [\n] or a [\r]. *)
Lemma first_line_of line tail :
  Py.contains_char "013" line = false ->
  Py.contains_char "010" line = false ->
  (tail = ""
   \/ exists c more, tail = String c more /\ (c = "010" \/ c = "013")%char) ->
  first_line (line +++ tail) = line
  \/ first_line (line +++ tail) = line +++ String "010" "".
Proof.
  intros Hcr Hlf Htail. unfold first_line, Py.universal_newlines.
  rewrite (newlines_plain line tail Hcr).
  destruct Htail as [->|(c & more & -> & [->| ->])].
  - left. simpl. replace (line +++ "") with line
      by (clear; induction line as [|a l IH]; simpl; [|rewrite <- IH]; reflexivity).
    now apply readline_whole.
  - right. simpl. now apply readline_first_line.
  - right. simpl. now apply readline_first_line.
Qed.

(** A schema whose first line is [prefix;rest], with no [@] in [rest], names
    the URL [rest], stripped, and no branch: the [prefix] is not looked at,
    only the first [;] separates (the [rest] may have others), and what
    follows the first line is not read.  The line ends where the file
    ends, or at the first [\n] or [\r]. *)
Theorem get_base_repository_plain_url :
  forall st source_path q prefix rest tail,
    stat (root st) (join source_path SCHEMA_FILENAME)
      = Some (q, File (prefix +++ ";" +++ rest +++ tail)) ->
    Py.contains_char ";" prefix = false ->
    Py.contains_char "@" rest = false ->
    Py.contains_char "013" (prefix +++ ";" +++ rest) = false ->
    Py.contains_char "010" (prefix +++ ";" +++ rest) = false ->
    (tail = ""
     \/ exists c more, tail = String c more /\ (c = "010" \/ c = "013")%char) ->
    get_base_repository source_path st =
    (Ret (Some (mkRepository (Py.strip rest) None)), st).
Proof.
  intros st p q prefix rest tail Hs Hp Hr Hcr Hlf Htail.
  rewrite get_base_repository_unfold, Hs.
  replace (prefix +++ ";" +++ rest +++ tail)
    with ((prefix +++ ";" +++ rest) +++ tail)
    by (now rewrite !append_assoc).
  assert (Hout : forall e, e = "" \/ e = String "010" "" ->
            schema_outcome ((prefix +++ ";" +++ rest) +++ e)
            = Ret (Some (mkRepository (Py.strip rest) None))).
  { intros e He. unfold schema_outcome.
    replace (String.eqb ((prefix +++ ";" +++ rest) +++ e) "")
      with false by (now destruct prefix).
    replace ((prefix +++ ";" +++ rest) +++ e)
      with (prefix +++ String ";" (rest +++ e))
      by (now rewrite !append_assoc).
    rewrite (partition_first _ _ _ Hp).
    assert (Hstrip : Py.strip (rest +++ e) = Py.strip rest).
    { destruct He as [->| ->].
      - f_equal. clear. induction rest as [|a l IH]; simpl;
          [|rewrite IH]; reflexivity.
      - exact (strip_space_end rest "010" eq_refl). }
    rewrite Hstrip.
    now rewrite (partition_none _ _ (contains_char_strip_false _ _ Hr)). }
  destruct (first_line_of (prefix +++ ";" +++ rest) tail Hcr Hlf Htail)
    as [-> | ->].
  - rewrite <- (Hout "" (or_introl eq_refl)). f_equal. f_equal.
    clear. induction (prefix +++ ";" +++ rest) as [|a l IH]; simpl;
      [|rewrite <- IH]; reflexivity.
  - now rewrite (Hout _ (or_intror eq_refl)).
Qed.

End Readers.

(* ===================================================================== *)
(** * Fetching: [git_pull], [download_base_repositories], [compile_from_git] *)
(* ===================================================================== *)

Section Fetching.
Import PyFacts FsFacts.

Variable yaml_load : string -> option pyval.
Variable remote : string -> option string -> option (list (string * node)).

Lemma length_append a b :
  String.length (a +++ b) = String.length a + String.length b.
Proof. induction a as [|x a IH]; simpl; [reflexivity | now rewrite IH]. Qed.

Lemma length_underscores n : String.length (underscores n) = n.
Proof. induction n as [|n IH]; simpl; [reflexivity | now rewrite IH]. Qed.

Lemma max_length_bound x l : In x l -> String.length x <= max_length l.
Proof.
  induction l as [|y l IH]; simpl; [contradiction|].
  intros [->|H]; [lia|]. specialize (IH H). lia.
Qed.

Lemma fresh_name_fresh l : ~ In (fresh_name l) l.
Proof.
  intros H. apply max_length_bound in H. unfold fresh_name in H.
  rewrite length_append, length_underscores in H. simpl in H. lia.
Qed.

Lemma fresh_name_absent es :
  Entries.find (fresh_name (Entries.names es)) es = None.
Proof. apply find_names, fresh_name_fresh. Qed.

Lemma del_set_absent n x es :
  Entries.find n es = None -> Entries.del n (Entries.set n x es) = es.
Proof.
  induction es as [|[m y] es IH]; simpl.
  - now rewrite String.eqb_refl.
  - destruct (String.eqb m n) eqn:E; [discriminate|].
    intros H. simpl. now rewrite E, (IH H).
Qed.

Lemma mkdtemp_run r w et :
  lookup r tempdir = Some (Dir et) ->
  mkdtemp (mkState r w) =
  (Ret (join tempdir (fresh_name (Entries.names et))),
   mkState (put (tempdir ++ [fresh_name (Entries.names et)])
                (Some (Dir [])) r) w).
Proof.
  intros Ht. unfold mkdtemp. mrun.
  now rewrite (stat_lookup r tempdir _ Ht I).
Qed.

(** The tree that [git_pull] leaves for a repository, when git succeeds. *)
Definition snapshot (repo : repository) : option (list (string * node)) :=
  match remote (url repo) None with
  | None => None
  | Some es0 =>
      match branch repo with
      | None => Some es0
      | Some b => remote (url repo) (Some b)
      end
  end.

Lemma git_pull_run repo p r w es :
  snapshot repo = Some es ->
  lookup r p = Some (Dir []) ->
  git_pull remote repo p (mkState r w)
  = (Ret tt, mkState (put p (Some (Dir es)) r) w).
Proof.
  intros Hsnap Hp. unfold snapshot in Hsnap.
  unfold git_pull, clone_from, checkout. mrun.
  destruct (remote (url repo) None) as [es0|] eqn:E0; [|discriminate].
  rewrite (resolve_lookup r p _ Hp I). mrun.
  destruct (branch repo) as [b|]; mrun.
  - rewrite Hsnap.
    rewrite (stat_lookup _ p (Dir es0) (lookup_put_self p (Dir es0) r _ Hp) I).
    mrun. now rewrite put_put.
  - now inversion Hsnap.
Qed.

Lemma git_pull_clone_error repo p r w :
  remote (url repo) None = None ->
  git_pull remote repo p (mkState r w) = (Raise Exception, mkState r w).
Proof.
  intros H. unfold git_pull, clone_from. mrun. rewrite H.
  now destruct (resolve r p) as [[q [[?|?|[|]]|]]|].
Qed.

(** [git_pull] treats its two failures differently: the [GitCommandError]
    of a failed clone is caught and a plain [Exception] raised, but when
    the clone succeeds and the checkout of the branch fails, the
    [GitCommandError] of the checkout is not caught, and the clone of the
    default branch is left in the destination. *)
Theorem git_pull_checkout_fails :
  forall repo p r w es0 b,
    remote (url repo) None = Some es0 ->
    branch repo = Some b ->
    remote (url repo) (Some b) = None ->
    lookup r p = Some (Dir []) ->
    git_pull remote repo p (mkState r w)
    = (Raise GitCommandError, mkState (put p (Some (Dir es0)) r) w).
Proof.
  intros repo p r w es0 b H0 Hb Hco Hp.
  unfold git_pull, clone_from, checkout. mrun.
  rewrite H0, (resolve_lookup r p _ Hp I). mrun. rewrite Hb. mrun.
  now rewrite Hco.
Qed.

(** [compile_from_git] on a repository that cannot be cloned raises the
    [Exception] of [git_pull] and leaves the disk exactly as it was: the
    temporary directory that it made is deleted by its [finally]. *)
Theorem compile_from_git_unreachable :
  forall fuel self repo r w et,
    lookup r tempdir = Some (Dir et) ->
    remote (url repo) None = None ->
    compile_from_git yaml_load remote fuel self repo (mkState r w)
    = (Raise Exception, mkState r w).
Proof.
  intros fuel self repo r w et Ht Hr.
  unfold compile_from_git. rewrite (mkdtemp_run r w et Ht).
  set (n := fresh_name (Entries.names et)).
  unfold try_finally, bind at 1.
  rewrite (git_pull_clone_error repo (join tempdir n) _ w Hr).
  assert (Hn : lookup (put (tempdir ++ [n]) (Some (Dir [])) r) (join tempdir n)
               = Some (Dir []))
    by exact (lookup_put_child tempdir n (Dir []) r et Ht).
  rewrite (rmtree_run (join tempdir n) _ w [] (snoc_not_nil tempdir n) Hn).
  unfold join.
  rewrite (put_child tempdir n None _ _
             (lookup_put_parent tempdir n (Some (Dir [])) r et Ht)).
  rewrite (put_child tempdir n (Some (Dir [])) r et Ht), put_put.
  rewrite (del_set_absent n (Dir []) et (fresh_name_absent et)).
  now rewrite (put_same _ _ _ Ht).
Qed.

(** The schema of the snapshot [es] names [next], or, with [None], the
    snapshot has no schema. *)
Definition parent_of (es : list (string * node)) (next : option repository)
  : Prop :=
  (Entries.find SCHEMA_FILENAME es = None /\ next = None)
  \/ (exists text,
         Entries.find SCHEMA_FILENAME es = Some (File text)
         /\ schema_outcome (first_line text) = Ret next).

(** [snaps] are the snapshots of the ancestors from [repo] on: each can be
    fetched and names the next, and the last has no schema. *)
Fixpoint ancestry (repo : option repository)
    (snaps : list (list (string * node))) : Prop :=
  match snaps with
  | [] => repo = None
  | es :: rest =>
      exists r next,
        repo = Some r /\ snapshot r = Some es /\ parent_of es next
        /\ ancestry next rest
  end.

Lemma get_base_repository_of_tree p r w es next :
  lookup r p = Some (Dir es) -> parent_of es next ->
  get_base_repository p (mkState r w) = (Ret next, mkState r w).
Proof.
  intros Hp [[Hn ->]|(text & Hf & Hout)]; rewrite get_base_repository_unfold;
    simpl root.
  - now rewrite (stat_absent r p _ es Hp Hn).
  - rewrite (stat_lookup r (join p SCHEMA_FILENAME) (File text)); [|
      now rewrite (lookup_child r p _ es Hp), Hf | exact I].
    now rewrite Hout.
Qed.

(** One round of the loop of [download_base_repositories]. *)
Lemma download_round repo p_next r w et es next :
  lookup r tempdir = Some (Dir et) ->
  snapshot repo = Some es -> parent_of es next ->
  let n := fresh_name (Entries.names et) in
  let r' := put tempdir (Some (Dir (Entries.set n (Dir es) et))) r in
  p_next = join tempdir n ->
  mkdtemp (mkState r w) = (Ret p_next, mkState (put (tempdir ++ [n]) (Some (Dir [])) r) w)
  /\ git_pull remote repo p_next (mkState (put (tempdir ++ [n]) (Some (Dir [])) r) w)
     = (Ret tt, mkState r' w)
  /\ get_base_repository p_next (mkState r' w) = (Ret next, mkState r' w)
  /\ lookup r' tempdir = Some (Dir (Entries.set n (Dir es) et)).
Proof.
  intros Ht Hsnap Hpar n r' ->.
  assert (Hr' : put (join tempdir n) (Some (Dir es))
                    (put (tempdir ++ [n]) (Some (Dir [])) r) = r').
  { unfold join, r'. rewrite put_put.
    exact (put_child tempdir n (Some (Dir es)) r et Ht). }
  assert (Ht' : lookup r' tempdir = Some (Dir (Entries.set n (Dir es) et)))
    by (unfold r'; now apply (lookup_put_self _ _ _ (Dir et))).
  split; [exact (mkdtemp_run r w et Ht)|]. split; [|split; [|exact Ht']].
  - change (tempdir ++ [n]) with (join tempdir n).
    rewrite (git_pull_run repo (join tempdir n) _ w es Hsnap
               (lookup_put_child tempdir n (Dir []) r et Ht)).
    change (join tempdir n) with (tempdir ++ [n]) at 2.
    now rewrite Hr'.
  - apply (get_base_repository_of_tree _ r' w es next); [|exact Hpar].
    now rewrite (lookup_child r' tempdir n _ Ht'), find_set_same.
Qed.

Lemma download_loop_chain : forall snaps fuel repo r w acc et,
  lookup r tempdir = Some (Dir et) ->
  ancestry repo snaps -> length snaps < fuel ->
  exists et' new,
    download_loop remote fuel repo acc (mkState r w)
    = (Ret (acc ++ new), mkState (put tempdir (Some (Dir et')) r) w)
    /\ Forall2 (fun p es => exists m, p = join tempdir m
                                      /\ Entries.find m et = None
                                      /\ Entries.find m et' = Some (Dir es))
               new snaps
    /\ NoDup new
    /\ (forall m x, Entries.find m et = Some x -> Entries.find m et' = Some x).
Proof.
  induction snaps as [|es rest IH]; intros fuel repo r w acc et Ht Hanc Hfuel.
  - simpl in Hanc. subst repo. destruct fuel as [|fuel]; [inversion Hfuel|].
    exists et, []. rewrite app_nil_r, (put_same _ _ _ Ht).
    split; [reflexivity|]. split; [constructor|]. split; [constructor|auto].
  - destruct Hanc as (R & next & -> & Hsnap & Hpar & Hrest).
    destruct fuel as [|fuel]; [inversion Hfuel|]. simpl in Hfuel.
    set (n := fresh_name (Entries.names et)).
    destruct (download_round R (join tempdir n) r w et es next Ht Hsnap Hpar
                eq_refl) as (Hmk & Hpull & Hget & Ht1).
    fold n in Hmk, Hpull, Hget, Ht1.
    set (et1 := Entries.set n (Dir es) et) in *.
    set (r1 := put tempdir (Some (Dir et1)) r) in *.
    destruct (IH fuel next r1 w (acc ++ [join tempdir n]) et1 Ht1 Hrest)
      as (et' & new & Hrun & Hall & Hnd & Hmono); [lia|].
    assert (Hfresh : Entries.find n et = None) by apply fresh_name_absent.
    assert (Hkeep : forall m x, Entries.find m et = Some x ->
                                Entries.find m et1 = Some x).
    { intros m x Hm. unfold et1. rewrite find_set_other; [exact Hm|].
      intros ->. congruence. }
    exists et', (join tempdir n :: new). split; [|split; [|split]].
    + cbn [download_loop]. unfold bind at 1. rewrite Hmk.
      unfold bind at 1. rewrite Hpull. unfold bind at 1. rewrite Hget.
      rewrite Hrun. unfold r1. rewrite put_put, <- app_assoc. reflexivity.
    + constructor.
      * exists n. repeat split; auto. apply Hmono. apply find_set_same.
      * eapply Forall2_impl; [|exact Hall].
        intros p es' (m & -> & Hm1 & Hm'). exists m. repeat split; auto.
        destruct (Entries.find m et) as [x|] eqn:E; [|reflexivity].
        rewrite (Hkeep m x E) in Hm1. discriminate.
    + constructor; [|exact Hnd]. intros Hin.
      assert (Hn1 : exists m, join tempdir n = join tempdir m
                              /\ Entries.find m et1 = None).
      { clear - Hall Hin. induction Hall as [|p es' new snaps Hp Hall IH].
        - contradiction.
        - destruct Hin as [<-|Hin]; [|now apply IH].
          destruct Hp as (m & -> & Hm & _). eauto. }
      destruct Hn1 as (m & Heq & Hm). apply app_inj_tail in Heq.
      destruct Heq as [_ <-]. unfold et1 in Hm.
      rewrite find_set_same in Hm. discriminate.
    + intros m x Hm. apply Hmono. now apply Hkeep.
Qed.

(** [download_base_repositories] on a finite chain of ancestors, with fuel
    for it: it returns one new temporary directory for each ancestor, the
    parent of the leaf first, that holds the ancestor's snapshot; the
    directories are distinct and were not there before; the log and the
    disk outside the temporary directory are as they were. *)
Theorem download_base_repositories_chain :
  forall fuel source_path r w et repo snaps,
    lookup r tempdir = Some (Dir et) ->
    get_base_repository source_path (mkState r w) = (Ret repo, mkState r w) ->
    ancestry repo snaps ->
    length snaps < fuel ->
    exists chain st',
      download_base_repositories remote fuel source_path (mkState r w)
      = (Ret chain, st')
      /\ Forall2 (fun p es => lookup (root st') p = Some (Dir es)
                              /\ lookup r p = None) chain snaps
      /\ NoDup chain
      /\ warnings st' = w
      /\ (forall q, unrelated q tempdir = true ->
                    lookup (root st') q = lookup r q).
Proof.
  intros fuel src r w et repo snaps Ht Hleaf Hanc Hfuel.
  destruct (download_loop_chain snaps fuel repo r w [] et Ht Hanc Hfuel)
    as (et' & new & Hrun & Hall & Hnd & _).
  exists new, (mkState (put tempdir (Some (Dir et')) r) w).
  split; [|split; [|split; [exact Hnd | split; [reflexivity|]]]].
  - unfold download_base_repositories, bind. now rewrite Hleaf, Hrun.
  - eapply Forall2_impl; [|exact Hall].
    intros p es (m & -> & Hm & Hm'). cbn [root]. split.
    + rewrite (lookup_child _ tempdir m et'
                 (lookup_put_self tempdir (Dir et') r _ Ht)).
      now rewrite Hm'.
    + now rewrite (lookup_child r tempdir m et Ht), Hm.
  - intros q Hq. cbn [root]. now apply lookup_put_unrelated.
Qed.

Lemma download_loop_cycle (P : repository -> Prop) :
  (forall R, P R -> exists es R',
        snapshot R = Some es /\ parent_of es (Some R') /\ P R') ->
  forall fuel R r w acc et,
    lookup r tempdir = Some (Dir et) -> P R ->
    fst (download_loop remote fuel (Some R) acc (mkState r w)) = Timeout.
Proof.
  intros Hstep. induction fuel as [|fuel IH]; intros R r w acc et Ht HR;
    [reflexivity|].
  destruct (Hstep R HR) as (es & R' & Hsnap & Hpar & HR').
  destruct (download_round R _ r w et es (Some R') Ht Hsnap Hpar eq_refl)
    as (Hmk & Hpull & Hget & Ht1).
  cbn [download_loop]. unfold bind at 1. rewrite Hmk.
  unfold bind at 1. rewrite Hpull. unfold bind at 1. rewrite Hget.
  exact (IH R' _ w _ _ Ht1 HR').
Qed.

(** [download_base_repositories] has no guard against a cycle: when the
    leaf names a repository of a set [P] in which the schema of every
    repository names a repository of [P] again, no amount of fuel lets it
    return. *)
Theorem download_base_repositories_cycle :
  forall (P : repository -> Prop) fuel source_path r w et R,
    (forall R, P R -> exists es R',
          snapshot R = Some es /\ parent_of es (Some R') /\ P R') ->
    lookup r tempdir = Some (Dir et) ->
    get_base_repository source_path (mkState r w)
      = (Ret (Some R), mkState r w) ->
    P R ->
    fst (download_base_repositories remote fuel source_path (mkState r w))
    = Timeout.
Proof.
  intros P fuel src r w et R Hstep Ht Hleaf HR.
  unfold download_base_repositories, bind. rewrite Hleaf.
  exact (download_loop_cycle P Hstep fuel R r w [] et Ht HR).
Qed.

(** The schema of the snapshot [es] is one that [get_base_repository]
    refuses with the message [msg]. *)
Definition malformed (es : list (string * node)) (msg : string) : Prop :=
  exists text,
    Entries.find SCHEMA_FILENAME es = Some (File text)
    /\ schema_outcome (first_line text) = Raise (MissionFilesException msg).

(** [snaps] are the snapshots of the ancestors from [repo] on: each can be
    fetched and names the next, but for the last, whose schema is
    malformed. *)
Fixpoint broken_ancestry (repo : option repository)
    (snaps : list (list (string * node))) (msg : string) : Prop :=
  match snaps with
  | [] => False
  | es :: rest =>
      exists r,
        repo = Some r /\ snapshot r = Some es
        /\ match rest with
           | [] => malformed es msg
           | _ :: _ =>
               exists next, parent_of es next /\ broken_ancestry next rest msg
           end
  end.

Lemma get_base_repository_of_malformed p r w es msg :
  lookup r p = Some (Dir es) -> malformed es msg ->
  get_base_repository p (mkState r w)
  = (Raise (MissionFilesException msg), mkState r w).
Proof.
  intros Hp (text & Hf & Hout). rewrite get_base_repository_unfold.
  simpl root.
  rewrite (stat_lookup r (join p SCHEMA_FILENAME) (File text)); [|
    now rewrite (lookup_child r p _ es Hp), Hf | exact I].
  now rewrite Hout.
Qed.

(** The fetch of one round of the loop of [download_base_repositories]. *)
Lemma download_fetch repo r w et es :
  lookup r tempdir = Some (Dir et) ->
  snapshot repo = Some es ->
  let n := fresh_name (Entries.names et) in
  let r' := put tempdir (Some (Dir (Entries.set n (Dir es) et))) r in
  mkdtemp (mkState r w)
  = (Ret (join tempdir n), mkState (put (tempdir ++ [n]) (Some (Dir [])) r) w)
  /\ git_pull remote repo (join tempdir n)
       (mkState (put (tempdir ++ [n]) (Some (Dir [])) r) w)
     = (Ret tt, mkState r' w)
  /\ lookup r' (join tempdir n) = Some (Dir es).
Proof.
  intros Ht Hsnap n r'.
  assert (Hr' : put (join tempdir n) (Some (Dir es))
                    (put (tempdir ++ [n]) (Some (Dir [])) r) = r').
  { unfold join, r'. rewrite put_put.
    exact (put_child tempdir n (Some (Dir es)) r et Ht). }
  assert (Ht' : lookup r' tempdir = Some (Dir (Entries.set n (Dir es) et)))
    by (unfold r'; now apply (lookup_put_self _ _ _ (Dir et))).
  split; [exact (mkdtemp_run r w et Ht)|]. split.
  - change (tempdir ++ [n]) with (join tempdir n).
    rewrite (git_pull_run repo (join tempdir n) _ w es Hsnap
               (lookup_put_child tempdir n (Dir []) r et Ht)).
    change (join tempdir n) with (tempdir ++ [n]) at 2.
    now rewrite Hr'.
  - now rewrite (lookup_child r' tempdir n _ Ht'), find_set_same.
Qed.

Lemma download_loop_broken msg : forall snaps fuel repo r w acc et,
  lookup r tempdir = Some (Dir et) ->
  broken_ancestry repo snaps msg -> length snaps <= fuel ->
  fst (download_loop remote fuel repo acc (mkState r w))
  = Raise (MissionFilesException msg).
Proof.
  induction snaps as [|es rest IH]; intros fuel repo r w acc et Ht Hanc Hfuel;
    [contradiction|].
  destruct Hanc as (R & -> & Hsnap & Hrest).
  destruct fuel as [|fuel]; [inversion Hfuel|]. simpl in Hfuel.
  destruct (download_fetch R r w et es Ht Hsnap) as (Hmk & Hpull & Hp).
  cbn [download_loop]. unfold bind at 1. rewrite Hmk.
  unfold bind at 1. rewrite Hpull. unfold bind at 1.
  destruct rest as [|es' rest].
  - now rewrite (get_base_repository_of_malformed _ _ w es msg Hp Hrest).
  - destruct Hrest as (next & Hpar & Hnext).
    rewrite (get_base_repository_of_tree _ _ w es next Hp Hpar).
    apply (IH fuel next _ w _ (Entries.set (fresh_name (Entries.names et))
                                 (Dir es) et)); [|exact Hnext|lia].
    now apply (lookup_put_self _ _ _ (Dir et)).
Qed.

End Fetching.

(* ===================================================================== *)
(** * The malformed schema *)
(* ===================================================================== *)

Section SchemaAbort.
Import PyFacts FsFacts.

(** C3: [get_base_repository] raises [MissionFilesException] exactly when
    the schema is a file whose first line, as it is read in text mode, is
    empty or has no [;]; a schema that does not exist gives [None], and
    nothing else does; and the exception aborts the compilation, whether
    it is the schema of the leaf that is malformed or that of an ancestor
    at the end of a chain of fetched ancestors. *)
Theorem get_base_repository_malformed :
  forall st source_path,
    ((exists msg, fst (get_base_repository source_path st)
                  = Raise (MissionFilesException msg))
     <->
     (exists q raw,
         stat (root st) (join source_path SCHEMA_FILENAME) = Some (q, File raw)
         /\ (first_line raw = ""
             \/ Py.contains_char ";" (first_line raw) = false)))
    /\ (stat (root st) (join source_path SCHEMA_FILENAME) = None <->
        get_base_repository source_path st = (Ret None, st))
    /\ (forall yaml_load remote fuel self use_link msg,
           fst (get_base_repository source_path st)
             = Raise (MissionFilesException msg) ->
           compile_from_files yaml_load remote fuel self source_path use_link st
             = (Raise (MissionFilesException msg), st))
    /\ (forall yaml_load remote fuel self use_link et repo snaps msg,
           lookup (root st) tempdir = Some (Dir et) ->
           get_base_repository source_path st = (Ret repo, st) ->
           broken_ancestry remote repo snaps msg ->
           length snaps <= fuel ->
           fst (compile_from_files yaml_load remote fuel self source_path
                  use_link st)
           = Raise (MissionFilesException msg)).
Proof.
  intros st source_path.
  assert (Hchain : forall yaml_load remote fuel self use_link et repo snaps msg,
             lookup (root st) tempdir = Some (Dir et) ->
             get_base_repository source_path st = (Ret repo, st) ->
             broken_ancestry remote repo snaps msg ->
             length snaps <= fuel ->
             fst (compile_from_files yaml_load remote fuel self source_path
                    use_link st)
             = Raise (MissionFilesException msg)).
  { intros yaml_load remote fuel self use_link et repo snaps msg
           Ht Hleaf Hanc Hfuel.
    destruct st as [r w]. cbn [root] in Ht.
    pose proof (download_loop_broken remote msg snaps fuel repo r w [] et
                  Ht Hanc Hfuel) as Hloop.
    unfold compile_from_files, download_base_repositories.
    unfold bind at 1. unfold bind at 1. rewrite Hleaf.
    destruct (download_loop remote fuel repo [] (mkState r w)) as [o st1].
    simpl in Hloop. now subst o. }
  split; [|split; [|split; [|exact Hchain]]]; clear Hchain;
    rewrite get_base_repository_unfold;
    destruct (stat (root st) (join source_path SCHEMA_FILENAME))
      as [[q [raw|t|es]]|] eqn:Hstat; simpl.
  - rewrite schema_outcome_malformed. split.
    + intros H. exists q, raw. auto.
    + intros (q' & raw' & Heq & H). now inversion Heq; subst.
  - split; [intros [? ?]; discriminate | intros (? & ? & ? & ?); discriminate].
  - split; [intros [? ?]; discriminate | intros (? & ? & ? & ?); discriminate].
  - split; [intros [? ?]; discriminate | intros (? & ? & ? & ?); discriminate].
  - split; [discriminate|].
    intros H. inversion H as [H1].
    now destruct (schema_outcome_not_none (first_line raw)).
  - split; discriminate.
  - split; discriminate.
  - split; reflexivity.
  - intros yaml_load remote fuel self use_link msg Hm.
    unfold compile_from_files, download_base_repositories, bind.
    rewrite get_base_repository_unfold, Hstat.
    destruct (schema_outcome (first_line raw)); now inversion Hm.
  - discriminate.
  - discriminate.
  - discriminate.
Qed.

End SchemaAbort.

(* ===================================================================== *)
(** * Further properties of the filter, the descriptor and the facade *)
(* ===================================================================== *)

Section Finishing.
Import PyFacts FsFacts.

Variable yaml_load : string -> option pyval.
Variable remote : string -> option string -> option (list (string * node)).

Lemma prune_stops active pre n x post :
  Py.in_list n active = false -> is_dir x = false ->
  (forall m y, In (m, y) pre -> Py.in_list m active = false ->
               exists ds, y = Dir ds) ->
  prune active (pre ++ (n, x) :: post) =
  (Raise (OSError (match x with
                   | File _ => NotADirectoryError
                   | _ => OtherOSError
                   end)),
   filter (fun e => Py.in_list (fst e) active) pre ++ (n, x) :: post).
Proof.
  intros Hn Hx. induction pre as [|[m y] pre IH]; intros Hpre; simpl.
  - rewrite Hn. destruct x; [reflexivity | reflexivity | discriminate].
  - destruct (Py.in_list m active) eqn:Hm.
    + rewrite IH by (intros; eapply Hpre; eauto; now right). reflexivity.
    + destruct (Hpre m y (or_introl eq_refl) Hm) as [ds ->].
      apply IH. intros; eapply Hpre; eauto. now right.
Qed.

(** [filter_envs] stops at the first entry of [envs] that is not active
    and not a directory: [shutil.rmtree] raises there
    ([NotADirectoryError] for a regular file), the inactive directories
    listed before it are deleted, it and everything listed after it stay,
    active or not. *)
Theorem filter_envs_stops_at_file :
  forall self active_envs st pre n x post,
    lookup (root st) (path_envs self) = Some (Dir (pre ++ (n, x) :: post)) ->
    NoDup (Entries.names (pre ++ (n, x) :: post)) ->
    Py.in_list n active_envs = false ->
    is_dir x = false ->
    (forall m y, In (m, y) pre -> Py.in_list m active_envs = false ->
                 exists ds, y = Dir ds) ->
    filter_envs self active_envs st =
    (Raise (OSError (match x with
                     | File _ => NotADirectoryError
                     | _ => OtherOSError
                     end)),
     mkState (put (path_envs self)
                  (Some (Dir (filter (fun e => Py.in_list (fst e) active_envs) pre
                              ++ (n, x) :: post)))
                  (root st))
             (warnings st)).
Proof.
  intros self active st pre n x post Hl Hnd Hn Hx Hpre.
  rewrite (filter_envs_run self active st _ Hl Hnd).
  now rewrite (prune_stops active pre n x post Hn Hx Hpre).
Qed.

Lemma envs_docker_state self st : forall active_envs,
  snd (envs_docker self active_envs st) = st.
Proof.
  induction active_envs as [|env rest IH]; [reflexivity|].
  cbn [envs_docker]. unfold bind at 1, read_file. destruct st as [r w]. mrun.
  match goal with
  | |- context [stat r ?p] => destruct (stat r p) as [[q [c|t|es]]|]
  end; try reflexivity.
  mrun. unfold bind.
  destruct (envs_docker self rest (mkState r w)) as [[l|e|] st0] eqn:E;
    simpl in IH; now subst.
Qed.

Lemma envs_docker_reads self st : forall active_envs l st',
  envs_docker self active_envs st = (Ret l, st') ->
  forall env, In env active_envs ->
    exists c, read_file (docker_env_file self env) st = (Ret c, st).
Proof.
  induction active_envs as [|e rest IH]; intros l st' H env Hin;
    [contradiction|].
  cbn [envs_docker] in H. unfold bind at 1 in H.
  change (join (join (join (path_verification self) "envs") e) DOCKER_ENV_FILENAME)
    with (docker_env_file self e) in H.
  assert (Hst : forall o s1, read_file (docker_env_file self e) st = (o, s1)
                             -> s1 = st).
  { intros o s1. unfold read_file. destruct st as [r w]. mrun.
    destruct (stat r (docker_env_file self e)) as [[q [c|t|es]]|];
      intros H0; now inversion H0. }
  destruct (read_file (docker_env_file self e) st) as [[c|x|] s1] eqn:E;
    try discriminate.
  pose proof (Hst _ _ eq_refl) as ->.
  destruct Hin as [<-|Hin]; [eauto|].
  unfold bind in H.
  destruct (envs_docker self rest st) as [[l'|x|] s2] eqn:E2; try discriminate.
  exact (IH l' s2 eq_refl env Hin).
Qed.

(** [make_dockerfile] writes nothing unless it returns: when it raises
    (a fragment or the template cannot be read, or [Dockerfile] cannot be
    written) the disk is as it was; and it returns only if the fragment of
    every active environment and the template can be read. *)
Theorem make_dockerfile_all_or_nothing :
  forall self active_envs st o st',
    make_dockerfile self active_envs st = (o, st') ->
    (o <> Ret tt -> st' = st)
    /\ (o = Ret tt ->
        (forall env, In env active_envs ->
           exists c, read_file (docker_env_file self env) st = (Ret c, st))
        /\ exists t,
             read_file (join (path_verification self) DOCKER_MAIN_FILENAME) st
             = (Ret t, st)).
Proof.
  intros self active st o st' H. unfold make_dockerfile in H.
  unfold bind at 1 in H.
  pose proof (envs_docker_state self st active) as Hst.
  pose proof (envs_docker_reads self st active) as Hreads.
  destruct (envs_docker self active st) as [[l|e|] st0]; simpl in Hst; subst st0.
  - unfold bind at 1 in H. destruct st as [r w].
    unfold read_file at 1 in H. mrun_in H.
    unfold read_file at 2. mrun.
    destruct (stat r (join (path_verification self) DOCKER_MAIN_FILENAME))
      as [[q [c|t|es]]|].
    + unfold write_file in H. mrun_in H.
      destruct (resolve r (join (path_verification self) "Dockerfile"))
        as [[q' [[c'|t'|es']|]]|]; inversion H; subst;
        (split; [try congruence; now intros | try discriminate]);
        intros _; split; eauto.
    + inversion H; subst. split; [reflexivity | discriminate].
    + inversion H; subst. split; [reflexivity | discriminate].
    + inversion H; subst. split; [reflexivity | discriminate].
  - inversion H; subst. split; [reflexivity | discriminate].
  - inversion H; subst. split; [reflexivity | discriminate].
Qed.

Lemma startswith_other_head o old a t :
  Ascii.eqb o a = false -> Py.startswith (String o old) (String a t) = false.
Proof. intros H. simpl. now rewrite H. Qed.

Lemma replace_after_plain o old new p rest :
  Py.contains_char o p = false ->
  Py.replace (String o old) new (p +++ String o old +++ rest)
  = p +++ new +++ Py.replace (String o old) new rest.
Proof.
  intros Hp. apply replace_first. intros p1 p2 -> Hp2.
  rewrite contains_char_app in Hp. apply Bool.orb_false_iff in Hp.
  destruct Hp as [_ Hp]. destruct p2 as [|a p2]; [contradiction|].
  simpl in Hp. destruct (Ascii.eqb a o) eqn:E; [discriminate|].
  apply startswith_other_head. now rewrite Ascii.eqb_sym.
Qed.

(** A template whose text, as text mode reads it, is
    [before{{env_instructions}}after], with no brace in [before] and no
    other placeholder in [after]; the fragments and the template are
    regular files and [Dockerfile] is absent or a regular file.  The
    Dockerfile that [make_dockerfile] writes is [before], the texts of the
    fragments (read in text mode, [{{env}}] replaced) joined by newlines,
    [after].  The text put in is not searched again: a placeholder that a
    fragment holds stays as it is.  With no active environment the
    placeholder is just taken out. *)
Theorem make_dockerfile_one_placeholder :
  forall self active_envs st raw template before after es,
    (forall env, In env active_envs ->
       exists q, stat (root st) (docker_env_file self env)
                 = Some (q, File (raw env))) ->
    (exists q, stat (root st)
                 (join (path_verification self) DOCKER_MAIN_FILENAME)
               = Some (q, File template)) ->
    Py.universal_newlines template
      = before +++ "{{env_instructions}}" +++ after ->
    lookup (root st) (path_verification self) = Some (Dir es) ->
    (Entries.find "Dockerfile" es = None
     \/ exists old, Entries.find "Dockerfile" es = Some (File old)) ->
    Py.contains_char "{" before = false ->
    Py.contains "{{env_instructions}}" after = false ->
    exists st',
      make_dockerfile self active_envs st = (Ret tt, st')
      /\ lookup (root st') (join (path_verification self) "Dockerfile")
         = Some (File (before
                       +++ Py.join (String "010" "")
                             (map (fun env =>
                                     Py.replace "{{env}}" env
                                       (Py.universal_newlines (raw env)))
                                  active_envs)
                       +++ after))
      /\ (active_envs = [] ->
          lookup (root st') (join (path_verification self) "Dockerfile")
          = Some (File (before +++ after))).
Proof.
  intros self active st raw template before after es
         Hfr Htpl Htext Hl Hdf Hb Ha.
  eexists. split; [exact (make_dockerfile_writes self active st raw template es
                            Hfr Htpl Hl Hdf)|].
  assert (Hd : dockerfile_text raw template active
               = before
                 +++ Py.join (String "010" "")
                       (map (fun env =>
                               Py.replace "{{env}}" env
                                 (Py.universal_newlines (raw env)))
                            active)
                 +++ after).
  { unfold dockerfile_text, descriptor. rewrite Htext.
    rewrite (replace_after_plain "{" "{env_instructions}}" _ before after Hb).
    now rewrite (replace_absent _ _ _ Ha). }
  rewrite Hd. cbn [root]. split.
  - now apply (lookup_put_child _ _ _ _ es).
  - intros ->. now apply (lookup_put_child _ _ _ _ es).
Qed.




End Finishing.

(* ===================================================================== *)
(** * The link overlay as a whole *)
(* ===================================================================== *)

Section LinkOverlayWhole.
Import FsFacts.

Variable yaml_load : string -> option pyval.

(** What the theorems on whole runs of [relink_tree] ask of the disk [r]:
    the source [src] holds the tree [S], which has no link and lists no
    name twice; the destination is [dp/n], where [dp] is a directory;
    neither of [src] and [dp/n] is inside the other; and [dp/n] is absent,
    or a directory whose links lead to regular files outside of it. *)
Definition overlay_ready (r : node) (src dp : path) (n : string) (S : node)
  : Prop :=
  unrelated src (dp ++ [n]) = true
  /\ lookup r src = Some S /\ link_free S /\ well_formed S = true
  /\ exists ep,
       lookup r dp = Some (Dir ep)
       /\ match Entries.find n ep with
          | None => True
          | Some (Dir es) => links_ok (dp ++ [n]) r (Dir es)
          | Some _ => False
          end.

Lemma overlay_ready_frame fuel r w src dp n S o st' :
  overlay_ready r src dp n S ->
  relink_tree yaml_load fuel src (dp ++ [n]) (mkState r w) = (o, st') ->
  exists ep v ws,
    lookup r dp = Some (Dir ep)
    /\ st' = mkState (put (dp ++ [n]) v r) (w ++ ws)
    /\ (o = Ret tt -> exists x, v = Some x /\ linked src S x)
    /\ (forall es, Entries.find n ep = Some (Dir es) ->
          exists es', v = Some (Dir es')
            /\ forall m,
                 Py.in_list m [".git"; ".gitignore"] = true
                 \/ (forall ss, S = Dir ss -> Entries.find m ss = None) ->
                 Entries.find m es' = Entries.find m es)
    /\ (o = Timeout -> is_dir S = true -> fuel < depth S).
Proof.
  intros (Hun & Hs & Hlf & Hwf & ep & Hdp & Hn) Hrun.
  destruct (relink_tree_frame (dp ++ [n]) yaml_load fuel src [] dp n ep r w
              o st' S) as (v & ws & Hst & _ & Hret & Hkept & Hto); auto.
  - now rewrite app_nil_r.
  - exists ep, v, ws. auto.
Qed.

(** On a disk that is ready for the overlay ([overlay_ready]: no link in
    the source, neither tree inside the other, the destination absent or a
    directory whose links lead to regular files outside of it): however
    the link overlay ends, and whatever it raises, it has changed nothing
    outside the destination, so the source is as it was; it has only added
    to the log; and the entries of the destination directory that the
    source does not name, and its [.git] and [.gitignore], are as they
    were. *)
Theorem relink_tree_confined :
  forall fuel src dp n S r w o st',
    overlay_ready r src dp n S ->
    relink_tree yaml_load fuel src (dp ++ [n]) (mkState r w) = (o, st') ->
    (forall q, unrelated q (dp ++ [n]) = true ->
               lookup (root st') q = lookup r q)
    /\ lookup (root st') src = Some S
    /\ (exists ws, warnings st' = w ++ ws)
    /\ (forall es m,
          lookup r (dp ++ [n]) = Some (Dir es) ->
          Py.in_list m [".git"; ".gitignore"] = true \/ lookup S [m] = None ->
          lookup (root st') ((dp ++ [n]) ++ [m]) = lookup r ((dp ++ [n]) ++ [m])).
Proof.
  intros fuel src dp n S r w o st' Hready Hrun.
  destruct (overlay_ready_frame fuel r w src dp n S o st' Hready Hrun)
    as (ep & v & ws & Hdp & -> & _ & Hkept & _).
  destruct Hready as (Hun & Hs & _).
  cbn [root warnings]. split; [|split; [|split]].
  - intros q Hq. now apply lookup_put_unrelated.
  - now rewrite lookup_put_unrelated.
  - now exists ws.
  - intros es m Hd Hm.
    assert (Hn : Entries.find n ep = Some (Dir es)).
    { change (dp ++ [n]) with (join dp n) in Hd.
      rewrite (lookup_child r dp n ep Hdp) in Hd.
      now destruct (Entries.find n ep). }
    destruct (Hkept es Hn) as (es' & -> & Hfr).
    rewrite (lookup_app r (dp ++ [n]) [m]), Hd.
    rewrite (lookup_app _ (dp ++ [n]) [m]).
    change (dp ++ [n]) with (join dp n).
    rewrite (lookup_put_child dp n (Dir es') r ep Hdp).
    cbn [lookup]. rewrite Hfr; [reflexivity|].
    destruct Hm as [Hm|Hm]; [now left | right].
    intros ss ->. cbn [lookup] in Hm.
    now destruct (Entries.find m ss).
Qed.

(** On a disk that is ready for the overlay ([overlay_ready]): when the
    link overlay returns, the destination mirrors the source: at every path
    of the source tree with no [.git] or [.gitignore] in it, a regular file
    of the source is in the destination a symbolic link to that file, and a
    directory of the source is a directory, never a link. *)
Theorem relink_tree_mirrors_source :
  forall fuel src dp n S r w st',
    overlay_ready r src dp n S ->
    relink_tree yaml_load fuel src (dp ++ [n]) (mkState r w) = (Ret tt, st') ->
    (forall rel c,
        lookup S rel = Some (File c) -> clean rel = true ->
        lookup (root st') ((dp ++ [n]) ++ rel) = Some (Link (src ++ rel)))
    /\ (forall rel es,
          lookup S rel = Some (Dir es) -> clean rel = true ->
          exists es', lookup (root st') ((dp ++ [n]) ++ rel) = Some (Dir es')).
Proof.
  intros fuel src dp n S r w st' Hready Hrun.
  destruct (overlay_ready_frame fuel r w src dp n S (Ret tt) st' Hready Hrun)
    as (ep & v & ws & Hdp & -> & Hret & _ & _).
  destruct (Hret eq_refl) as (x & -> & Hlinked).
  cbn [root].
  assert (Hx : forall rel, lookup (put (dp ++ [n]) (Some x) r) ((dp ++ [n]) ++ rel)
                           = lookup x rel).
  { intros rel. rewrite lookup_app. change (dp ++ [n]) with (join dp n).
    now rewrite (lookup_put_child dp n x r ep Hdp). }
  split.
  - intros rel c Hl Hc. rewrite Hx. exact (Hlinked rel (File c) Hl Hc).
  - intros rel es Hl Hc. destruct (Hlinked rel (Dir es) Hl Hc) as [es' H].
    exists es'. now rewrite Hx.
Qed.

(** On a disk that is ready for the overlay ([overlay_ready]) the
    recursion of [relink_tree] ends: on a source directory whose tree is no
    deeper than the fuel, the overlay returns or raises. *)
Theorem relink_tree_enough_fuel :
  forall fuel src dp n S r w,
    overlay_ready r src dp n S ->
    is_dir S = true ->
    depth S <= fuel ->
    fst (relink_tree yaml_load fuel src (dp ++ [n]) (mkState r w)) <> Timeout.
Proof.
  intros fuel src dp n S r w Hready Hdir Hfuel E.
  destruct (relink_tree yaml_load fuel src (dp ++ [n]) (mkState r w))
    as [o st'] eqn:Hrun.
  destruct (overlay_ready_frame fuel r w src dp n S o st' Hready Hrun)
    as (ep & v & ws & _ & _ & _ & _ & Hto).
  simpl in E. specialize (Hto E Hdir). lia.
Qed.

(** A source that is a regular file: [relink_tree] raises
    [NotADirectoryError] when it lists the source, after it has made the
    destination, which is left behind as an empty directory. *)
Theorem relink_tree_source_is_file :
  forall fuel src dp n r w ep c,
    unrelated src (dp ++ [n]) = true ->
    lookup r src = Some (File c) ->
    lookup r dp = Some (Dir ep) ->
    Entries.find n ep = None ->
    relink_tree yaml_load (S fuel) src (dp ++ [n]) (mkState r w)
    = (Raise (OSError NotADirectoryError),
       mkState (put (dp ++ [n]) (Some (Dir [])) r) w).
Proof.
  intros fuel src dp n r w ep c Hun Hs Hdp Hn.
  pose proof (stat_absent r dp n ep Hdp Hn) as Hsa.
  pose proof (entry_lookup r dp n ep Hdp) as Hea.
  unfold join in Hsa, Hea. rewrite Hn in Hea.
  set (r1 := put (dp ++ [n]) (Some (Dir [])) r).
  assert (Hd1 : lookup r1 (dp ++ [n]) = Some (Dir []))
    by exact (lookup_put_child dp n (Dir []) r ep Hdp).
  assert (Hs1 : lookup r1 src = Some (File c))
    by (unfold r1; now rewrite lookup_put_unrelated).
  rewrite relink_tree_unfold. unfold relink_prologue.
  unfold os.path_exists, os.mkdir, os.listdir. mrun.
  rewrite Hsa. mrun. rewrite Hea. mrun. fold r1.
  unfold get_folder_config, read_file. mrun.
  rewrite (stat_absent r1 (dp ++ [n]) ".folder" [] Hd1 eq_refl).
  mrun. now rewrite (stat_lookup r1 src _ Hs1 I).
Qed.

End LinkOverlayWhole.

Section LinkOverlayQuiet.
Import FsFacts.

Variable yaml_load : string -> option pyval.

Lemma unexpected_replacement_quiet name config st :
  name = ".folder" \/ listed name config ->
  unexpected_replacement name config st = (Ret false, st).
Proof.
  unfold unexpected_replacement.
  intros [->|(items & allowed & -> & Hget & Hin)]; [reflexivity|].
  destruct (negb (String.eqb name ".folder")); [|reflexivity].
  simpl. now rewrite Hget, Hin.
Qed.

(** The body of the loop at a regular file of the source that the
    destination directory does not have, or has as a regular file that is
    [.folder] or is listed. *)
Lemma relink_entry_quiet rec config src dst name r w ds c :
  Py.in_list name [".git"; ".gitignore"] = false ->
  lookup r dst = Some (Dir ds) ->
  lookup r (join src name) = Some (File c) ->
  Entries.find name ds = None
  \/ ((exists old, Entries.find name ds = Some (File old))
      /\ (name = ".folder" \/ listed name config)) ->
  exists r',
    relink_entry rec config src dst name (mkState r w) = (Ret tt, mkState r' w)
    /\ lookup r' (join dst name) = Some (Link (join src name)).
Proof.
  intros Hskip Hdst Hsrc Hcase.
  pose proof (stat_lookup r _ _ Hsrc I) as Hss.
  pose proof (entry_lookup r dst name ds Hdst) as He.
  destruct Hcase as [Hnone | [[old Hold] Hquiet]].
  - exists (put (join dst name) (Some (Link (join src name))) r).
    split; [|exact (lookup_put_child dst name _ r ds Hdst)].
    rewrite Hnone in He.
    unfold relink_entry. rewrite Hskip.
    unfold os.path_exists, os.isdir, os.symlink. mrun.
    rewrite (stat_absent r dst name ds Hdst Hnone). mrun.
    rewrite Hss. mrun. now rewrite He.
  - exists (put (join dst name) (Some (Link (join src name)))
                (put (join dst name) None r)).
    split; [|apply (lookup_put_child dst name _ _ (Entries.del name ds));
             exact (lookup_put_parent dst name None r ds Hdst)].
    assert (Hdn : lookup r (join dst name) = Some (File old)).
    { now rewrite (lookup_child r dst name ds Hdst), Hold. }
    pose proof (stat_lookup r _ _ Hdn I) as Hsd.
    pose proof (lookup_put_parent dst name None r ds Hdst) as Hdst1.
    set (r1 := put (dst ++ [name]) None r) in *.
    assert (Hdir : stat r1 (join src name) = None
                   \/ stat r1 (join src name) = Some (join src name, File c)).
    { destruct (list_eq_dec string_dec (join src name) (join dst name)) as [E|E].
      - left. rewrite E. unfold stat.
        now rewrite (resolve_absent r1 dst name _ Hdst1 (find_del_same name ds)).
      - right. apply stat_lookup; [|exact I].
        unfold r1. change (dst ++ [name]) with (join dst name).
        rewrite lookup_put_unrelated; [exact Hsrc|].
        exact (files_unrelated _ _ r c old Hsrc Hdn E). }
    pose proof (entry_lookup r1 dst name _ Hdst1) as He1.
    rewrite Hold in He. rewrite find_del_same in He1.
    unfold relink_entry. rewrite Hskip.
    unfold os.path_exists, os.isfile, os.remove, os.isdir, os.symlink.
    mrun. rewrite Hsd. mrun. rewrite Hsd, Hss. cbn [Bool.eqb]. mrun.
    rewrite Hsd. mrun.
    rewrite (unexpected_replacement_quiet name config _ Hquiet).
    mrun. rewrite He. mrun. fold r1.
    destruct Hdir as [Hdir|Hdir]; rewrite Hdir; mrun; rewrite He1; reflexivity.
Qed.

(** No warning where none is due.  When the link overlay of [src] onto the
    directory [dst] comes to a regular file of the source that [dst] does
    not have, or has as a regular file that is [.folder] itself or is
    listed in the [replace] of the configuration of [dst], the entry
    becomes a symbolic link to the source file, nothing is logged, and the
    overlay goes on with the names that follow. *)
Theorem relink_tree_links_without_warning :
  forall fuel src dst st config pre name post st1 r w ds c,
    relink_prologue yaml_load src dst st
      = (Ret (config, pre ++ name :: post), st1) ->
    for_each pre (relink_entry (relink_tree yaml_load fuel) config src dst) st1
      = (Ret tt, mkState r w) ->
    Py.in_list name [".git"; ".gitignore"] = false ->
    lookup r dst = Some (Dir ds) ->
    lookup r (join src name) = Some (File c) ->
    Entries.find name ds = None
    \/ ((exists old, Entries.find name ds = Some (File old))
        /\ (name = ".folder" \/ listed name config)) ->
    exists r',
      relink_tree yaml_load (S fuel) src dst st =
        for_each post (relink_entry (relink_tree yaml_load fuel) config src dst)
                 (mkState r' w)
      /\ lookup r' (join dst name) = Some (Link (join src name)).
Proof.
  intros fuel src dst st config pre name post st1 r w ds c
         Hpro Hpre Hskip Hdst Hsrc Hcase.
  destruct (relink_entry_quiet (relink_tree yaml_load fuel) config src dst name
              r w ds c Hskip Hdst Hsrc Hcase) as (r' & Hstep & Hl).
  exists r'. split; [|exact Hl].
  rewrite relink_tree_unfold, Hpro.
  exact (for_each_step _ pre name post st1 _ _ Hpre Hstep).
Qed.

End LinkOverlayQuiet.

(* ===================================================================== *)
(** * Further runs *)
(* ===================================================================== *)

Section FurtherRuns.
Import FsFacts.

(** A schema of two lines, the first ended by [\r\n]. *)
Definition two_line_schema : string :=
  "mission; base " +++ String "013" (String "010" "next; line@x").

Lemma get_base_repository_clean_witness :
  Py.strip "base" = "base"
  /\ (forall b, Some "master" = Some b ->
                Py.strip b = b
                /\ Py.contains_char ":" b = false
                /\ Py.contains_char "@" "base" = false).
Proof.
  exact (proj2 (get_base_repository_clean ["src"]
                  (sample_disk "mission; base @ master ")
                  (mkRepository "base" (Some "master"))
                  (sample_disk "mission; base @ master ") eq_refl)).
Defined.

Lemma get_base_repository_plain_url_witness :
  get_base_repository ["src"] (sample_disk two_line_schema)
  = (Ret (Some (mkRepository "base" None)), sample_disk two_line_schema).
Proof.
  exact (get_base_repository_plain_url (sample_disk two_line_schema) ["src"]
           ["src"; "schema"] "mission" " base "
           (String "013" (String "010" "next; line@x"))
           eq_refl eq_refl eq_refl eq_refl eq_refl
           (or_intror (ex_intro _ "013"%char
                         (ex_intro _ (String "010" "next; line@x")
                            (conj eq_refl (or_intror eq_refl)))))).
Defined.

(** A repository whose branch [dev] cannot be checked out. *)
Definition one_branch_remote (u : string) (b : option string)
  : option (list (string * node)) :=
  if String.eqb u "base"
  then match b with
       | None => Some [("run.py", File "base run")]
       | Some _ => None
       end
  else None.

Lemma git_pull_checkout_fails_witness :
  git_pull one_branch_remote (mkRepository "base" (Some "dev")) ["tmp"; "x"]
    (mkState (Dir [("tmp", Dir [("x", Dir [])])]) [])
  = (Raise GitCommandError,
     mkState (Dir [("tmp", Dir [("x", Dir [("run.py", File "base run")])])]) []).
Proof.
  exact (git_pull_checkout_fails one_branch_remote
           (mkRepository "base" (Some "dev")) ["tmp"; "x"]
           (Dir [("tmp", Dir [("x", Dir [])])]) []
           [("run.py", File "base run")] "dev"
           eq_refl eq_refl eq_refl eq_refl).
Defined.

Lemma compile_from_git_unreachable_witness :
  compile_from_git sample_yaml sample_remote 5 (init ["work"])
    (mkRepository "unreachable" None) (sample_disk "mission;base")
  = (Raise Exception, sample_disk "mission;base").
Proof.
  exact (compile_from_git_unreachable sample_yaml sample_remote 5
           (init ["work"]) (mkRepository "unreachable" None)
           (root (sample_disk "mission;base")) [] [] eq_refl eq_refl).
Defined.

(** The tree of the repository [base]. *)
Definition base_snapshot : list (string * node) :=
  [("run.py", File "base run");
   ("lib.py", File "base lib");
   ("initial", Dir [("py3", Dir [("task.py", File "base task")])])].

Lemma download_base_repositories_chain_witness :
  exists chain st',
    download_base_repositories sample_remote 5 ["src"]
      (sample_disk "mission;base@master") = (Ret chain, st')
    /\ Forall2 (fun p es =>
                  lookup (root st') p = Some (Dir es)
                  /\ lookup (root (sample_disk "mission;base@master")) p = None)
               chain [base_snapshot]
    /\ NoDup chain
    /\ warnings st' = []
    /\ (forall q, unrelated q tempdir = true ->
                  lookup (root st') q
                  = lookup (root (sample_disk "mission;base@master")) q).
Proof.
  apply (download_base_repositories_chain sample_remote 5 ["src"]
           (root (sample_disk "mission;base@master")) [] []
           (Some (mkRepository "base" (Some "master"))) [base_snapshot]).
  - reflexivity.
  - reflexivity.
  - exists (mkRepository "base" (Some "master")), None.
    split; [reflexivity|]. split; [reflexivity|].
    split; [left; split; reflexivity | reflexivity].
  - simpl. lia.
Defined.

(** A repository whose schema names the repository itself. *)
Definition looping_remote (u : string) (b : option string)
  : option (list (string * node)) :=
  if String.eqb u "loop" then Some [("schema", File "mission;loop")] else None.

Lemma download_base_repositories_cycle_witness :
  fst (download_base_repositories looping_remote 7 ["src"]
         (sample_disk "mission;loop")) = Timeout.
Proof.
  apply (download_base_repositories_cycle looping_remote
           (fun R => R = mkRepository "loop" None) 7 ["src"]
           (root (sample_disk "mission;loop")) [] []
           (mkRepository "loop" None)).
  - intros R ->. exists [("schema", File "mission;loop")], (mkRepository "loop" None).
    split; [reflexivity|]. split; [|reflexivity].
    right. exists "mission;loop". split; reflexivity.
  - reflexivity.
  - reflexivity.
  - reflexivity.
Defined.

(** A working directory whose [envs] holds [envs]. *)
Definition stray_disk (envs : list (string * node)) : state :=
  mkState (Dir [("work", Dir [("verification", Dir [("envs", Dir envs)])])]) [].

Lemma filter_envs_stops_at_file_witness :
  filter_envs (init ["work"]) ["py3"]
    (stray_disk [("old", Dir [("Dockerenv", File "x")]); ("py3", Dir []);
                 ("README", File "notes"); ("js", Dir [])])
  = (Raise (OSError NotADirectoryError),
     stray_disk [("py3", Dir []); ("README", File "notes"); ("js", Dir [])]).
Proof.
  apply (filter_envs_stops_at_file (init ["work"]) ["py3"]
           (stray_disk [("old", Dir [("Dockerenv", File "x")]); ("py3", Dir []);
                        ("README", File "notes"); ("js", Dir [])])
           [("old", Dir [("Dockerenv", File "x")]); ("py3", Dir [])]
           "README" (File "notes") [("js", Dir [])]).
  - reflexivity.
  - repeat constructor; simpl; intuition discriminate.
  - reflexivity.
  - reflexivity.
  - intros m y [H|[H|[]]] Hm; inversion H; subst; [eauto | discriminate].
Defined.

Lemma make_dockerfile_all_or_nothing_witness :
  snd (make_dockerfile (init ["work"]) ["js"; "rb"] docker_disk) = docker_disk
  /\ (forall env, In env ["js"; "py3"] ->
        exists c, read_file (docker_env_file (init ["work"]) env) docker_disk
                  = (Ret c, docker_disk)).
Proof.
  split.
  - refine (proj1 (make_dockerfile_all_or_nothing (init ["work"]) ["js"; "rb"]
                     docker_disk (Raise (OSError FileNotFoundError)) _ eq_refl) _).
    discriminate.
  - exact (proj1 (proj2 (make_dockerfile_all_or_nothing (init ["work"])
                           ["js"; "py3"] docker_disk (Ret tt) _ eq_refl)
                    eq_refl)).
Defined.

Lemma make_dockerfile_one_placeholder_witness :
  exists st',
    make_dockerfile (init ["work"]) ["py3"] crlf_docker_disk = (Ret tt, st')
    /\ lookup (root st') ["work"; "verification"; "Dockerfile"]
       = Some (File ("FROM base" +++ String "010" "RUN py3"
                     +++ String "010" "")).
Proof.
  destruct (make_dockerfile_one_placeholder (init ["work"]) ["py3"]
              crlf_docker_disk
              (fun _ => "RUN {{env}}" +++ String "013" (String "010" ""))
              ("FROM base" +++ String "013" (String "010"
                 "{{env_instructions}}"))
              ("FROM base" +++ String "010" "") ""
              [("Dockertemplate",
                File ("FROM base" +++ String "013" (String "010"
                        "{{env_instructions}}")));
               ("envs",
                Dir [("py3",
                      Dir [("Dockerenv",
                            File ("RUN {{env}}"
                                  +++ String "013" (String "010" "")))])])])
    as (st' & Hrun & Hread & _).
  - intros env [<-|[]]. eexists. reflexivity.
  - eexists. reflexivity.
  - reflexivity.
  - reflexivity.
  - left. reflexivity.
  - reflexivity.
  - reflexivity.
  - exists st'. split; [exact Hrun | exact Hread].
Defined.


Lemma link_disk_ready :
  overlay_ready link_disk ["src"] [] "work" (Dir link_source).
Proof.
  split; [reflexivity|]. split; [reflexivity|].
  split; [now apply no_links_sound|]. split; [reflexivity|].
  exists [("src", Dir link_source); ("work", Dir link_destination)].
  split; [reflexivity|].
  apply link_free_links_ok. now apply no_links_sound.
Qed.

Lemma relink_tree_confined_witness :
  lookup (root (snd link_run)) ["src"] = Some (Dir link_source)
  /\ exists ws, warnings (snd link_run) = [] ++ ws.
Proof.
  destruct (relink_tree_confined sample_yaml 3 ["src"] [] "work"
              (Dir link_source) link_disk [] (fst link_run) (snd link_run)
              link_disk_ready) as (_ & Hsrc & Hlog & _).
  - unfold link_run. now destruct (relink_tree _ _ _ _ _).
  - split; [exact Hsrc | exact Hlog].
Defined.

Lemma relink_tree_mirrors_source_witness :
  lookup (root (snd link_run)) ["work"; "lib"; "util.py"]
  = Some (Link ["src"; "lib"; "util.py"]).
Proof.
  exact (proj1 (relink_tree_mirrors_source sample_yaml 3 ["src"] [] "work"
                  (Dir link_source) link_disk [] (snd link_run)
                  link_disk_ready eq_refl)
           ["lib"; "util.py"] "leaf util" eq_refl eq_refl).
Defined.

Lemma relink_tree_enough_fuel_witness : fst link_run <> Timeout.
Proof.
  apply (relink_tree_enough_fuel sample_yaml 3 ["src"] [] "work"
           (Dir link_source) link_disk [] link_disk_ready eq_refl).
  simpl. lia.
Defined.

Lemma relink_tree_source_is_file_witness :
  relink_tree sample_yaml 1 ["notes"] ["work"]
    (mkState (Dir [("notes", File "text")]) [])
  = (Raise (OSError NotADirectoryError),
     mkState (Dir [("notes", File "text"); ("work", Dir [])]) []).
Proof.
  exact (relink_tree_source_is_file sample_yaml 0 ["notes"] [] "work"
           (Dir [("notes", File "text")]) [] [("notes", File "text")] "text"
           eq_refl eq_refl eq_refl eq_refl).
Defined.

Lemma relink_tree_links_without_warning_witness :
  exists r',
    relink_tree sample_yaml 3 ["src"] ["work"]
      (overlay_disk [(".folder", File "replace: [run.py]")] (File "base run"))
    = for_each [] (relink_entry (relink_tree sample_yaml 2)
                     (PDict [("replace", PList [PStr "run.py"])])
                     ["src"] ["work"])
               (mkState r' [])
    /\ lookup r' ["work"; "run.py"] = Some (Link ["src"; "run.py"]).
Proof.
  apply (relink_tree_links_without_warning sample_yaml 2 ["src"] ["work"]
           (overlay_disk [(".folder", File "replace: [run.py]")] (File "base run"))
           (PDict [("replace", PList [PStr "run.py"])]) [".git"] "run.py" []
           (overlay_disk [(".folder", File "replace: [run.py]")] (File "base run"))
           (root (overlay_disk [(".folder", File "replace: [run.py]")]
                    (File "base run"))) []
           [(".folder", File "replace: [run.py]");
            (".git", File "gitdir: x"); ("run.py", File "base run")]
           "leaf run");
    try reflexivity.
  right. split; [now exists "base run"|]. right.
  exists [("replace", PList [PStr "run.py"])], (PList [PStr "run.py"]).
  repeat split.
Defined.

Lemma get_base_repository_malformed_witness :
  fst (compile_from_files sample_yaml broken_remote 5 (init ["work"]) ["src"]
         false (sample_disk "mission;base"))
  = Raise (MissionFilesException "Schema file is empty").
Proof.
  apply (proj2 (proj2 (proj2 (get_base_repository_malformed
                                (sample_disk "mission;base") ["src"])))
           sample_yaml broken_remote 5 (init ["work"]) false []
           (Some (mkRepository "base" None)) [[("schema", File "")]]
           "Schema file is empty").
  - reflexivity.
  - reflexivity.
  - exists (mkRepository "base" None). split; [reflexivity|].
    split; [reflexivity|]. exists "". split; reflexivity.
  - simpl. lia.
Defined.

End FurtherRuns.
